(** * File Manager (FM) command utilities: a shallow embedding

    This development embeds [fsw/src/fm_cmd_utils.c] of the cFS File Manager
    application: the open-file enumerator, the filename state classifier,
    the six boolean verification checks built on it, the producer side of the
    child-task command queue and the path-separator helper.

    Conventions.
    - C integers are [Z]; the wrap-around of [uint8] and [uint32] arithmetic
      is written out with [u8] and [u32].
    - A [char] buffer is a [list byte]; an access outside the list is
      undefined behaviour in C and is the failure [None] here.
    - The code runs in the monad [FM]: it threads [FM_State] (the global
      [FM_GlobalData], the two file-scope statics, the log of events sent and
      the log of OSAL semaphore calls) and may fail on undefined behaviour.
    - A buffer passed by pointer is passed by value and handed back, updated,
      with the result.
    - The macros of headers that are not part of the embedded sources are the
      fields of the class [FM_Defs].
    - The callers of the queue functions and the child task are not part of
      the embedded sources either; where a property needs them they are
      modelled from the specification and marked so. *)

From Stdlib Require Import ZArith Lia Bool String.
From Stdlib.Strings Require Import Byte.
From stdpp Require Import base option list relations.

Local Open Scope Z_scope.

(** ** Machine integers *)

Definition u8 (x : Z) : Z := x mod 2 ^ 8.
Definition u32 (x : Z) : Z := x mod 2 ^ 32.
Definition INT32_MAX : Z := 2 ^ 31 - 1.

(** The [int] that has the 32 bits of a [uint32]: what a [%d] conversion
    prints when it is handed a [uint32]. *)
Definition int32 (x : Z) : Z :=
  if u32 x <? 2 ^ 31 then u32 x else u32 x - 2 ^ 32.

(** ** Constants of the absent headers *)

Class FM_Defs : Type := {
  (* filename states *)
  FM_NAME_IS_INVALID : Z;
  FM_NAME_IS_NOT_IN_USE : Z;
  FM_NAME_IS_FILE_OPEN : Z;
  FM_NAME_IS_FILE_CLOSED : Z;
  FM_NAME_IS_DIRECTORY : Z;
  (* event identifier offsets of the filename checks *)
  FM_FNAME_INVALID_EID_OFFSET : Z;
  FM_FNAME_DNE_EID_OFFSET : Z;
  FM_FNAME_EXIST_EID_OFFSET : Z;
  FM_FNAME_ISDIR_EID_OFFSET : Z;
  FM_FNAME_ISFILE_EID_OFFSET : Z;
  FM_FNAME_ISOPEN_EID_OFFSET : Z;
  FM_FNAME_UNKNOWN_EID_OFFSET : Z;
  (* event identifier offsets of the child task check *)
  FM_CHILD_DISABLED_EID_OFFSET : Z;
  FM_CHILD_Q_FULL_EID_OFFSET : Z;
  FM_CHILD_BROKEN_EID_OFFSET : Z;
  (* child task queue *)
  FM_CHILD_QUEUE_DEPTH : Z;
  FM_CHILD_SEM_INVALID : Z;
  sizeof_FM_ChildQueueEntry_t : Z;
  (* OSAL *)
  OS_OBJECT_TYPE_OS_STREAM : Z;
  OS_MAX_PATH_LEN : Z;
  OS_MAX_API_NAME : Z
}.

(** The five filename states are five different codes. *)
Definition states_distinct `{FM_Defs} : Prop :=
  NoDup [FM_NAME_IS_INVALID; FM_NAME_IS_NOT_IN_USE; FM_NAME_IS_FILE_OPEN;
         FM_NAME_IS_FILE_CLOSED; FM_NAME_IS_DIRECTORY].

(** [ChildQueueCount] and [ChildWriteIndex] are [uint8], so the depth of the
    queue has to be a [uint8] value for the counters to reach it. *)
Definition queue_depth_ok `{FM_Defs} : Prop :=
  0 < FM_CHILD_QUEUE_DEPTH <= 255.

(** Modelled from the spec: the header that defines the event identifier
    offsets is missing. The DirectoryAbsent row of the table of section 4.4
    of the specification (Invalid +0, FileOpen and FileClosed +1, Directory
    +2), read through the three macros [FM_VerifyDirNoExist] uses, and the
    scenario of section 8 (FileExists fails with +1 on an absent path, the
    macro being [FM_FNAME_DNE_EID_OFFSET] again) give these values. *)
Definition DirNoExist_row_offsets `{FM_Defs} : Prop :=
  FM_FNAME_INVALID_EID_OFFSET = 0 /\
  FM_FNAME_DNE_EID_OFFSET = 1 /\
  FM_FNAME_ISDIR_EID_OFFSET = 2.

(** ** C strings and buffers *)

#[global] Instance byte_eq_decision : EqDecision byte := Byte.byte_eq_dec.

Definition buf_read (b : list byte) (i : Z) : option byte :=
  if 0 <=? i then b !! Z.to_nat i else None.

Definition buf_write (b : list byte) (i : Z) (c : byte) : option (list byte) :=
  if (0 <=? i) && (i <? Z.of_nat (length b))
  then Some (<[Z.to_nat i := c]> b) else None.

(** The characters before the first terminator; [None] when the buffer holds
    no terminator (reading the string would run off the buffer). *)
Fixpoint c_str (b : list byte) : option (list byte) :=
  match b with
  | [] => None
  | c :: b' =>
      if Byte.eqb c x00 then Some []
      else match c_str b' with
           | Some s => Some (c :: s)
           | None => None
           end
  end.

Definition strlen (b : list byte) : option Z :=
  match c_str b with
  | Some s => Some (Z.of_nat (length s))
  | None => None
  end.

(** The [n] bytes [strncpy] stores: the source up to its terminator, then
    padding with terminators. *)
Fixpoint strncpy_bytes (src : list byte) (n : nat) {struct n}
    : option (list byte) :=
  match n with
  | O => Some []
  | S n' =>
      match src with
      | [] => None
      | c :: src' =>
          if Byte.eqb c x00 then Some (replicate n x00)
          else match strncpy_bytes src' n' with
               | Some bs => Some (c :: bs)
               | None => None
               end
      end
  end.

Definition strncpy (dst src : list byte) (n : Z) : option (list byte) :=
  if (0 <=? n) && (n <=? Z.of_nat (length dst)) then
    match strncpy_bytes src (Z.to_nat n) with
    | Some bs => Some (bs ++ drop (Z.to_nat n) dst)
    | None => None
    end
  else None.

(** [strncat(dst, "/", 1)]: the separator goes where the terminator was and a
    new terminator follows it. *)
Definition strncat_sep (dst : list byte) : option (list byte) :=
  match strlen dst with
  | Some len =>
      match buf_write dst len "/"%byte with
      | Some dst' => buf_write dst' (len + 1) x00
      | None => None
      end
  | None => None
  end.

(** ** The operating system and the services FM calls *)

Record os_fstat_t : Type := {
  OS_FILESTAT_ISDIR : bool;
  OS_FILESTAT_TIME : Z;
  OS_FILESTAT_SIZE : Z
}.

Record OS_file_prop_t : Type := {
  Path : list byte;
  User : Z
}.

Record CFE_ES_TaskInfo_t : Type := {
  TaskInfo_AppName : list byte
}.

(** What the calls into OSAL, cFE and the CFS library answer. *)
Record OS_World : Type := {
  OS_stat : list byte -> option os_fstat_t;
  OS_ForEachObject : list Z;
  OS_IdentifyObject : Z -> Z;
  OS_FDGetInfo : Z -> option OS_file_prop_t;
  CFE_ES_GetTaskInfo : Z -> option CFE_ES_TaskInfo_t;
  CFS_IsValidFilename : list byte -> Z -> bool
}.

(** ** Events *)

Inductive CFE_EVS_EventType : Type :=
  | CFE_EVS_DEBUG
  | CFE_EVS_INFORMATION
  | CFE_EVS_ERROR
  | CFE_EVS_CRITICAL.

(** An argument of an event: a text of the program, a [char] buffer printed
    with [%s], a number of a type that is promoted to [int] ([uint8]) printed
    with [%d], or a [uint32] printed with [%d], which reads its 32 bits as an
    [int]. *)
Inductive EVS_Arg : Type :=
  | ArgText (s : string)
  | ArgBuf (b : list byte)
  | ArgInt (n : Z)
  | ArgU32 (n : Z).

Inductive EVS_Val : Type :=
  | ValText (s : string)
  | ValStr (s : list byte)
  | ValInt (n : Z).

Record CFE_EVS_Event : Type := {
  EventID : Z;
  EventType : CFE_EVS_EventType;
  Spec : string;
  Values : list EVS_Val
}.

Definition EVS_render (a : EVS_Arg) : option EVS_Val :=
  match a with
  | ArgText s => Some (ValText s)
  | ArgBuf b =>
      match c_str b with
      | Some s => Some (ValStr s)
      | None => None
      end
  | ArgInt n => Some (ValInt n)
  | ArgU32 n => Some (ValInt (int32 n))
  end.

(** ** Application state *)

Record FM_OpenFilesEntry_t : Type := {
  LogicalName : list byte;
  AppName : list byte
}.

#[global] Instance FM_OpenFilesEntry_eq_dec : EqDecision FM_OpenFilesEntry_t.
Proof. solve_decision. Defined.

Definition FM_ChildQueueEntry_t : Type := list byte.

(** The fields of [FM_GlobalData_t] (fm_app.h) that the command utilities
    read or write, and the queue indices next to them. *)
Record FM_GlobalData_t : Type := {
  ChildSemaphore : Z;
  ChildQueueCountSem : Z;
  ChildWriteIndex : Z;
  ChildReadIndex : Z;
  ChildQueueCount : Z;
  FileStatTime : Z;
  FileStatSize : Z;
  FileStatMode : Z;
  ChildQueue : list FM_ChildQueueEntry_t
}.

(** The semaphore calls, and with them the stores to [ChildQueueCount], the
    counter the two tasks share: the log keeps the place of a store among
    the calls, so that it shows whether the counter is changed with the
    mutex held. *)
Inductive OS_Call : Type :=
  | OS_MutSemTake (sem : Z)
  | OS_MutSemGive (sem : Z)
  | OS_CountSemGive (sem : Z)
  | Store_ChildQueueCount (n : Z).

Record FM_State : Type := {
  FM_GlobalData : FM_GlobalData_t;
  OpenFileCount : Z;                 (* static uint32 *)
  FileIsOpen : bool;                 (* static boolean *)
  EVS_Log : list CFE_EVS_Event;      (* events sent, oldest first *)
  OS_Log : list OS_Call              (* calls and stores, oldest first *)
}.

(** ** The monad of the code *)

Definition FM (A : Type) : Type := FM_State -> option (A * FM_State).

Definition ret {A} (a : A) : FM A := fun st => Some (a, st).

Definition bind {A B} (c : FM A) (k : A -> FM B) : FM B :=
  fun st =>
    match c st with
    | Some (a, st') => k a st'
    | None => None
    end.

Notation "'let*' x := c 'in' k" := (bind c (fun x => k))
  (at level 10, x pattern, c at level 100, k at level 200).
Notation "c ;;; k" := (bind c (fun _ => k))
  (at level 100, k at level 200, right associativity).

(** Undefined behaviour of a buffer access fails the computation. *)
Definition lift {A} (o : option A) : FM A :=
  fun st =>
    match o with
    | Some a => Some (a, st)
    | None => None
    end.

Definition get_global : FM FM_GlobalData_t :=
  fun st => Some (FM_GlobalData st, st).

Definition set_global (g : FM_GlobalData_t) : FM unit :=
  fun st =>
    Some (tt, {| FM_GlobalData := g;
                 OpenFileCount := OpenFileCount st;
                 FileIsOpen := FileIsOpen st;
                 EVS_Log := EVS_Log st;
                 OS_Log := OS_Log st |}).

Definition get_OpenFileCount : FM Z :=
  fun st => Some (OpenFileCount st, st).

Definition with_OpenFileCount (n : Z) (st : FM_State) : FM_State :=
  {| FM_GlobalData := FM_GlobalData st;
     OpenFileCount := n;
     FileIsOpen := FileIsOpen st;
     EVS_Log := EVS_Log st;
     OS_Log := OS_Log st |}.

Definition set_OpenFileCount (n : Z) : FM unit :=
  fun st => Some (tt, with_OpenFileCount n st).

Definition get_FileIsOpen : FM bool :=
  fun st => Some (FileIsOpen st, st).

Definition set_FileIsOpen (b : bool) : FM unit :=
  fun st =>
    Some (tt, {| FM_GlobalData := FM_GlobalData st;
                 OpenFileCount := OpenFileCount st;
                 FileIsOpen := b;
                 EVS_Log := EVS_Log st;
                 OS_Log := OS_Log st |}).

Definition OS_call (c : OS_Call) : FM unit :=
  fun st =>
    Some (tt, {| FM_GlobalData := FM_GlobalData st;
                 OpenFileCount := OpenFileCount st;
                 FileIsOpen := FileIsOpen st;
                 EVS_Log := EVS_Log st;
                 OS_Log := OS_Log st ++ [c] |}).

(** [CFE_EVS_SendEvent]: the arguments are rendered (a [%s] buffer is read up
    to its terminator) and the event is appended to the log. *)
Definition CFE_EVS_SendEvent (id : Z) (ty : CFE_EVS_EventType) (spec : string)
    (args : list EVS_Arg) : FM unit :=
  fun st =>
    match mapM EVS_render args with
    | Some vals =>
        Some (tt, {| FM_GlobalData := FM_GlobalData st;
                     OpenFileCount := OpenFileCount st;
                     FileIsOpen := FileIsOpen st;
                     EVS_Log := EVS_Log st ++
                       [{| EventID := id; EventType := ty;
                           Spec := spec; Values := vals |}];
                     OS_Log := OS_Log st |})
    | None => None
    end.

(** Field updates of [FM_GlobalData]. *)
Definition with_FileStat (time size : Z) (g : FM_GlobalData_t)
    : FM_GlobalData_t :=
  {| ChildSemaphore := ChildSemaphore g;
     ChildQueueCountSem := ChildQueueCountSem g;
     ChildWriteIndex := ChildWriteIndex g;
     ChildReadIndex := ChildReadIndex g;
     ChildQueueCount := ChildQueueCount g;
     FileStatTime := time;
     FileStatSize := size;
     FileStatMode := FileStatMode g;
     ChildQueue := ChildQueue g |}.

Definition with_ChildWriteIndex (i : Z) (g : FM_GlobalData_t)
    : FM_GlobalData_t :=
  {| ChildSemaphore := ChildSemaphore g;
     ChildQueueCountSem := ChildQueueCountSem g;
     ChildWriteIndex := i;
     ChildReadIndex := ChildReadIndex g;
     ChildQueueCount := ChildQueueCount g;
     FileStatTime := FileStatTime g;
     FileStatSize := FileStatSize g;
     FileStatMode := FileStatMode g;
     ChildQueue := ChildQueue g |}.

Definition with_ChildReadIndex (i : Z) (g : FM_GlobalData_t)
    : FM_GlobalData_t :=
  {| ChildSemaphore := ChildSemaphore g;
     ChildQueueCountSem := ChildQueueCountSem g;
     ChildWriteIndex := ChildWriteIndex g;
     ChildReadIndex := i;
     ChildQueueCount := ChildQueueCount g;
     FileStatTime := FileStatTime g;
     FileStatSize := FileStatSize g;
     FileStatMode := FileStatMode g;
     ChildQueue := ChildQueue g |}.

Definition with_ChildQueueCount (n : Z) (g : FM_GlobalData_t)
    : FM_GlobalData_t :=
  {| ChildSemaphore := ChildSemaphore g;
     ChildQueueCountSem := ChildQueueCountSem g;
     ChildWriteIndex := ChildWriteIndex g;
     ChildReadIndex := ChildReadIndex g;
     ChildQueueCount := n;
     FileStatTime := FileStatTime g;
     FileStatSize := FileStatSize g;
     FileStatMode := FileStatMode g;
     ChildQueue := ChildQueue g |}.

Definition with_ChildQueue (q : list FM_ChildQueueEntry_t)
    (g : FM_GlobalData_t) : FM_GlobalData_t :=
  {| ChildSemaphore := ChildSemaphore g;
     ChildQueueCountSem := ChildQueueCountSem g;
     ChildWriteIndex := ChildWriteIndex g;
     ChildReadIndex := ChildReadIndex g;
     ChildQueueCount := ChildQueueCount g;
     FileStatTime := FileStatTime g;
     FileStatSize := FileStatSize g;
     FileStatMode := FileStatMode g;
     ChildQueue := q |}.

(** A store to [FM_GlobalData.ChildQueueCount], with its entry in the log. *)
Definition store_ChildQueueCount (n : Z) : FM unit :=
  let* g := get_global in
  set_global (with_ChildQueueCount n g) ;;;
  OS_call (Store_ChildQueueCount n).

(** ** The code of fm_cmd_utils.c *)

Section Code.

Context `{D : FM_Defs} (W : OS_World).

(** *** Open files *)

(** The callback [LoadOpenFileData] on one object; [OpenFilesData] is [None]
    for the NULL pointer. *)
Definition LoadOpenFileData (ObjId : Z)
    (OpenFilesData : option (list FM_OpenFilesEntry_t))
    : FM (option (list FM_OpenFilesEntry_t)) :=
  if OS_IdentifyObject W ObjId =? OS_OBJECT_TYPE_OS_STREAM then
    let* OpenFilesData' :=
      match OpenFilesData with
      | Some arr =>
          match OS_FDGetInfo W ObjId with
          | Some FdProp =>
              let* n := get_OpenFileCount in
              let* e := lift (arr !! Z.to_nat n) in
              let* name := lift (strncpy (LogicalName e) (Path FdProp)
                                         OS_MAX_PATH_LEN) in
              let e1 := {| LogicalName := name; AppName := AppName e |} in
              (* the task information starts zeroed and is filled on success *)
              match CFE_ES_GetTaskInfo W (User FdProp) with
              | Some TaskInfo =>
                  let* app := lift (strncpy (AppName e1)
                                            (TaskInfo_AppName TaskInfo)
                                            OS_MAX_API_NAME) in
                  let e2 := {| LogicalName := LogicalName e1; AppName := app |} in
                  ret (Some (<[Z.to_nat n := e2]> arr))
              | None => ret (Some (<[Z.to_nat n := e1]> arr))
              end
          | None => ret (Some arr)
          end
      | None => ret None
      end in
    let* n := get_OpenFileCount in
    set_OpenFileCount (u32 (n + 1)) ;;;
    ret OpenFilesData'
  else ret OpenFilesData.

(** [OS_ForEachObject(0, LoadOpenFileData, OpenFilesData)]. *)
Fixpoint ForEach_LoadOpenFileData (ids : list Z)
    (OpenFilesData : option (list FM_OpenFilesEntry_t))
    : FM (option (list FM_OpenFilesEntry_t)) :=
  match ids with
  | [] => ret OpenFilesData
  | ObjId :: ids' =>
      let* OpenFilesData' := LoadOpenFileData ObjId OpenFilesData in
      ForEach_LoadOpenFileData ids' OpenFilesData'
  end.

Definition FM_GetOpenFilesData
    (OpenFilesData : option (list FM_OpenFilesEntry_t))
    : FM (Z * option (list FM_OpenFilesEntry_t)) :=
  set_OpenFileCount 0 ;;;
  let* OpenFilesData' :=
    ForEach_LoadOpenFileData (OS_ForEachObject W) OpenFilesData in
  let* n := get_OpenFileCount in
  ret (n, OpenFilesData').

(** *** Filename state *)

(** The callback [SearchOpenFileData] on one object; [Fname] is [None] for
    the NULL pointer. [strcmp] compares the two strings up to their
    terminators. *)
Definition SearchOpenFileData (ObjId : Z) (Fname : option (list byte))
    : FM unit :=
  match Fname with
  | None => ret tt
  | Some Fname =>
      if OS_IdentifyObject W ObjId =? OS_OBJECT_TYPE_OS_STREAM then
        match OS_FDGetInfo W ObjId with
        | Some FdProp =>
            let* a := lift (c_str Fname) in
            let* b := lift (c_str (Path FdProp)) in
            if bool_decide (a = b) then set_FileIsOpen true else ret tt
        | None => ret tt
        end
      else ret tt
  end.

Fixpoint ForEach_SearchOpenFileData (ids : list Z) (Fname : option (list byte))
    : FM unit :=
  match ids with
  | [] => ret tt
  | ObjId :: ids' =>
      SearchOpenFileData ObjId Fname ;;;
      ForEach_SearchOpenFileData ids' Fname
  end.

(** The loop that looks for the terminator: [n] iterations are left, that
    is [BufferSize - StringLength]. It stops at the terminator or hands back
    [BufferSize]. [StringLength] is an [int32]: incrementing it past
    [INT32_MAX] is undefined. *)
Fixpoint FM_ScanTerminator (n : nat) (Filename : list byte)
    (StringLength : Z) : option Z :=
  match n with
  | O => Some StringLength
  | S n' =>
      match buf_read Filename StringLength with
      | Some c =>
          if Byte.eqb c x00 then Some StringLength
          else if StringLength + 1 <=? INT32_MAX
               then FM_ScanTerminator n' Filename (StringLength + 1)
               else None
      | None => None
      end
  end.

Definition set_FileStat (time size : Z) : FM unit :=
  let* g := get_global in
  set_global (with_FileStat time size g).

Definition FM_GetFilenameState (Filename : list byte) (BufferSize : Z)
    (FileInfoCmd : bool) : FM Z :=
  (* Search Filename for a string terminator *)
  let* StringLength :=
    lift (FM_ScanTerminator (Z.to_nat BufferSize) Filename 0) in
  (* Verify that Filename is not empty and has a terminator *)
  let FilenameIsValid :=
    if (0 <? StringLength) && (StringLength <? BufferSize)
    then CFS_IsValidFilename W Filename StringLength
    else false in
  (* If Filename is valid, then determine its state *)
  if FilenameIsValid then
    let* name := lift (c_str Filename) in
    match OS_stat W name with
    | Some FileStatus =>
        let* FilenameState :=
          if OS_FILESTAT_ISDIR FileStatus then ret FM_NAME_IS_DIRECTORY
          else
            set_FileIsOpen false ;;;
            (* the call OS_ForEachObject(0, SearchOpenFileData, Filename)
               is commented out in the source *)
            let* open := get_FileIsOpen in
            if open then ret FM_NAME_IS_FILE_OPEN
            else ret FM_NAME_IS_FILE_CLOSED in
        (if FileInfoCmd
         then set_FileStat (u32 (OS_FILESTAT_TIME FileStatus))
                           (u32 (OS_FILESTAT_SIZE FileStatus))
         else ret tt) ;;;
        ret FilenameState
    | None =>
        (if FileInfoCmd then set_FileStat 0 0 else ret tt) ;;;
        ret FM_NAME_IS_NOT_IN_USE
    end
  else ret FM_NAME_IS_INVALID.

(** *** Verification of names *)

Definition FM_VerifyNameValid (Name : list byte) (BufferSize EventID : Z)
    (CmdText : string) : FM (Z * list byte) :=
  (* Looking for filename state != FM_NAME_IS_INVALID *)
  let* FilenameState := FM_GetFilenameState Name BufferSize true in
  if FilenameState =? FM_NAME_IS_INVALID then
    (* Insert a terminator in case the invalid string did not have one *)
    let* Name' := lift (buf_write Name (u32 (BufferSize - 1)) x00) in
    CFE_EVS_SendEvent EventID CFE_EVS_ERROR
      "%s error: invalid name: name = %s" [ArgText CmdText; ArgBuf Name'] ;;;
    ret (FilenameState, Name')
  else ret (FilenameState, Name).

(** The chain of tests of [FM_VerifyFileClosed] on the state it has got. *)
Definition FM_VerifyFileClosed_chain (FilenameState : Z)
    (Filename : list byte) (BufferSize EventID : Z) (CmdText : string)
    : FM (bool * list byte) :=
  if FilenameState =? FM_NAME_IS_INVALID then
    (* Insert a terminator in case the invalid string did not have one *)
    let* Filename' := lift (buf_write Filename (u32 (BufferSize - 1)) x00) in
    CFE_EVS_SendEvent (u32 (EventID + FM_FNAME_INVALID_EID_OFFSET))
      CFE_EVS_ERROR "%s error: filename is invalid: name = %s"
      [ArgText CmdText; ArgBuf Filename'] ;;;
    ret (false, Filename')
  else if FilenameState =? FM_NAME_IS_NOT_IN_USE then
    CFE_EVS_SendEvent (u32 (EventID + FM_FNAME_DNE_EID_OFFSET))
      CFE_EVS_ERROR "%s error: file does not exist: name = %s"
      [ArgText CmdText; ArgBuf Filename] ;;;
    ret (false, Filename)
  else if FilenameState =? FM_NAME_IS_FILE_OPEN then
    CFE_EVS_SendEvent (u32 (EventID + FM_FNAME_ISOPEN_EID_OFFSET))
      CFE_EVS_ERROR "%s error: file is already open: name = %s"
      [ArgText CmdText; ArgBuf Filename] ;;;
    ret (false, Filename)
  else if FilenameState =? FM_NAME_IS_FILE_CLOSED then
    ret (true, Filename)
  else if FilenameState =? FM_NAME_IS_DIRECTORY then
    CFE_EVS_SendEvent (u32 (EventID + FM_FNAME_ISDIR_EID_OFFSET))
      CFE_EVS_ERROR "%s error: filename is a directory: name = %s"
      [ArgText CmdText; ArgBuf Filename] ;;;
    ret (false, Filename)
  else
    CFE_EVS_SendEvent (u32 (EventID + FM_FNAME_UNKNOWN_EID_OFFSET))
      CFE_EVS_ERROR
      "%s error: filename has unknown state: name = %s, state = %d"
      [ArgText CmdText; ArgBuf Filename; ArgU32 FilenameState] ;;;
    ret (false, Filename).

Definition FM_VerifyFileClosed (Filename : list byte)
    (BufferSize EventID : Z) (CmdText : string) : FM (bool * list byte) :=
  (* Looking for filename state = file (closed) *)
  let* FilenameState := FM_GetFilenameState Filename BufferSize false in
  FM_VerifyFileClosed_chain FilenameState Filename BufferSize EventID CmdText.

(** The chain of tests of [FM_VerifyFileExists]. *)
Definition FM_VerifyFileExists_chain (FilenameState : Z)
    (Filename : list byte) (BufferSize EventID : Z) (CmdText : string)
    : FM (bool * list byte) :=
  if FilenameState =? FM_NAME_IS_INVALID then
    let* Filename' := lift (buf_write Filename (u32 (BufferSize - 1)) x00) in
    CFE_EVS_SendEvent (u32 (EventID + FM_FNAME_INVALID_EID_OFFSET))
      CFE_EVS_ERROR "%s error: filename is invalid: name = %s"
      [ArgText CmdText; ArgBuf Filename'] ;;;
    ret (false, Filename')
  else if FilenameState =? FM_NAME_IS_NOT_IN_USE then
    CFE_EVS_SendEvent (u32 (EventID + FM_FNAME_DNE_EID_OFFSET))
      CFE_EVS_ERROR "%s error: file does not exist: name = %s"
      [ArgText CmdText; ArgBuf Filename] ;;;
    ret (false, Filename)
  else if (FilenameState =? FM_NAME_IS_FILE_OPEN) ||
          (FilenameState =? FM_NAME_IS_FILE_CLOSED) then
    ret (true, Filename)
  else if FilenameState =? FM_NAME_IS_DIRECTORY then
    CFE_EVS_SendEvent (u32 (EventID + FM_FNAME_ISDIR_EID_OFFSET))
      CFE_EVS_ERROR "%s error: filename is a directory: name = %s"
      [ArgText CmdText; ArgBuf Filename] ;;;
    ret (false, Filename)
  else
    CFE_EVS_SendEvent (u32 (EventID + FM_FNAME_UNKNOWN_EID_OFFSET))
      CFE_EVS_ERROR
      "%s error: filename has unknown state: name = %s, state = %d"
      [ArgText CmdText; ArgBuf Filename; ArgU32 FilenameState] ;;;
    ret (false, Filename).

Definition FM_VerifyFileExists (Filename : list byte)
    (BufferSize EventID : Z) (CmdText : string) : FM (bool * list byte) :=
  (* Looking for filename state = file (open or closed) *)
  let* FilenameState := FM_GetFilenameState Filename BufferSize false in
  FM_VerifyFileExists_chain FilenameState Filename BufferSize EventID CmdText.

(** The chain of tests of [FM_VerifyFileNoExist]. *)
Definition FM_VerifyFileNoExist_chain (FilenameState : Z)
    (Filename : list byte) (BufferSize EventID : Z) (CmdText : string)
    : FM (bool * list byte) :=
  if FilenameState =? FM_NAME_IS_INVALID then
    let* Filename' := lift (buf_write Filename (u32 (BufferSize - 1)) x00) in
    CFE_EVS_SendEvent (u32 (EventID + FM_FNAME_INVALID_EID_OFFSET))
      CFE_EVS_ERROR "%s error: filename is invalid: name = %s"
      [ArgText CmdText; ArgBuf Filename'] ;;;
    ret (false, Filename')
  else if FilenameState =? FM_NAME_IS_NOT_IN_USE then
    ret (true, Filename)
  else if (FilenameState =? FM_NAME_IS_FILE_OPEN) ||
          (FilenameState =? FM_NAME_IS_FILE_CLOSED) then
    CFE_EVS_SendEvent (u32 (EventID + FM_FNAME_EXIST_EID_OFFSET))
      CFE_EVS_ERROR "%s error: file already exists: name = %s"
      [ArgText CmdText; ArgBuf Filename] ;;;
    ret (false, Filename)
  else if FilenameState =? FM_NAME_IS_DIRECTORY then
    CFE_EVS_SendEvent (u32 (EventID + FM_FNAME_ISDIR_EID_OFFSET))
      CFE_EVS_ERROR "%s error: filename is a directory: name = %s"
      [ArgText CmdText; ArgBuf Filename] ;;;
    ret (false, Filename)
  else
    CFE_EVS_SendEvent (u32 (EventID + FM_FNAME_UNKNOWN_EID_OFFSET))
      CFE_EVS_ERROR
      "%s error: directory name has unknown state: name = %s, state = %d"
      [ArgText CmdText; ArgBuf Filename; ArgU32 FilenameState] ;;;
    ret (false, Filename).

Definition FM_VerifyFileNoExist (Filename : list byte)
    (BufferSize EventID : Z) (CmdText : string) : FM (bool * list byte) :=
  (* Looking for filename state = not in use *)
  let* FilenameState := FM_GetFilenameState Filename BufferSize false in
  FM_VerifyFileNoExist_chain FilenameState Filename BufferSize EventID CmdText.

(** The chain of tests of [FM_VerifyFileNotOpen]. *)
Definition FM_VerifyFileNotOpen_chain (FilenameState : Z)
    (Filename : list byte) (BufferSize EventID : Z) (CmdText : string)
    : FM (bool * list byte) :=
  if FilenameState =? FM_NAME_IS_INVALID then
    let* Filename' := lift (buf_write Filename (u32 (BufferSize - 1)) x00) in
    CFE_EVS_SendEvent (u32 (EventID + FM_FNAME_INVALID_EID_OFFSET))
      CFE_EVS_ERROR "%s error: filename is invalid: name = %s"
      [ArgText CmdText; ArgBuf Filename'] ;;;
    ret (false, Filename')
  else if FilenameState =? FM_NAME_IS_NOT_IN_USE then
    ret (true, Filename)
  else if FilenameState =? FM_NAME_IS_FILE_OPEN then
    CFE_EVS_SendEvent (u32 (EventID + FM_FNAME_ISOPEN_EID_OFFSET))
      CFE_EVS_ERROR "%s error: file exists as an open file: name = %s"
      [ArgText CmdText; ArgBuf Filename] ;;;
    ret (false, Filename)
  else if FilenameState =? FM_NAME_IS_FILE_CLOSED then
    ret (true, Filename)
  else if FilenameState =? FM_NAME_IS_DIRECTORY then
    CFE_EVS_SendEvent (u32 (EventID + FM_FNAME_ISDIR_EID_OFFSET))
      CFE_EVS_ERROR "%s error: filename is a directory: name = %s"
      [ArgText CmdText; ArgBuf Filename] ;;;
    ret (false, Filename)
  else
    CFE_EVS_SendEvent (u32 (EventID + FM_FNAME_UNKNOWN_EID_OFFSET))
      CFE_EVS_ERROR
      "%s error: filename has unknown state: name = %s, state = %d"
      [ArgText CmdText; ArgBuf Filename; ArgU32 FilenameState] ;;;
    ret (false, Filename).

Definition FM_VerifyFileNotOpen (Filename : list byte)
    (BufferSize EventID : Z) (CmdText : string) : FM (bool * list byte) :=
  (* Looking for filename state = file (closed) or name not in use *)
  let* FilenameState := FM_GetFilenameState Filename BufferSize false in
  FM_VerifyFileNotOpen_chain FilenameState Filename BufferSize EventID CmdText.

(** The chain of tests of [FM_VerifyDirExists]. *)
Definition FM_VerifyDirExists_chain (FilenameState : Z)
    (Directory : list byte) (BufferSize EventID : Z) (CmdText : string)
    : FM (bool * list byte) :=
  if FilenameState =? FM_NAME_IS_INVALID then
    let* Directory' := lift (buf_write Directory (u32 (BufferSize - 1)) x00) in
    CFE_EVS_SendEvent (u32 (EventID + FM_FNAME_INVALID_EID_OFFSET))
      CFE_EVS_ERROR "%s error: directory name is invalid: name = %s"
      [ArgText CmdText; ArgBuf Directory'] ;;;
    ret (false, Directory')
  else if FilenameState =? FM_NAME_IS_NOT_IN_USE then
    CFE_EVS_SendEvent (u32 (EventID + FM_FNAME_DNE_EID_OFFSET))
      CFE_EVS_ERROR "%s error: directory does not exist: name = %s"
      [ArgText CmdText; ArgBuf Directory] ;;;
    ret (false, Directory)
  else if (FilenameState =? FM_NAME_IS_FILE_OPEN) ||
          (FilenameState =? FM_NAME_IS_FILE_CLOSED) then
    CFE_EVS_SendEvent (u32 (EventID + FM_FNAME_ISFILE_EID_OFFSET))
      CFE_EVS_ERROR "%s error: directory name exists as a file: name %s"
      [ArgText CmdText; ArgBuf Directory] ;;;
    ret (false, Directory)
  else if FilenameState =? FM_NAME_IS_DIRECTORY then
    ret (true, Directory)
  else
    CFE_EVS_SendEvent (u32 (EventID + FM_FNAME_UNKNOWN_EID_OFFSET))
      CFE_EVS_ERROR
      "%s error: directory name has unknown state: name = %s, state = %d"
      [ArgText CmdText; ArgBuf Directory; ArgU32 FilenameState] ;;;
    ret (false, Directory).

Definition FM_VerifyDirExists (Directory : list byte)
    (BufferSize EventID : Z) (CmdText : string) : FM (bool * list byte) :=
  (* Looking for filename state = directory *)
  let* FilenameState := FM_GetFilenameState Directory BufferSize false in
  FM_VerifyDirExists_chain FilenameState Directory BufferSize EventID CmdText.

(** The chain of tests of [FM_VerifyDirNoExist]. *)
Definition FM_VerifyDirNoExist_chain (FilenameState : Z)
    (Name : list byte) (BufferSize EventID : Z) (CmdText : string)
    : FM (bool * list byte) :=
  if FilenameState =? FM_NAME_IS_INVALID then
    let* Name' := lift (buf_write Name (u32 (BufferSize - 1)) x00) in
    CFE_EVS_SendEvent (u32 (EventID + FM_FNAME_INVALID_EID_OFFSET))
      CFE_EVS_ERROR "%s error: directory name is invalid: name = %s"
      [ArgText CmdText; ArgBuf Name'] ;;;
    ret (false, Name')
  else if FilenameState =? FM_NAME_IS_NOT_IN_USE then
    ret (true, Name)
  else if (FilenameState =? FM_NAME_IS_FILE_OPEN) ||
          (FilenameState =? FM_NAME_IS_FILE_CLOSED) then
    CFE_EVS_SendEvent (u32 (EventID + FM_FNAME_DNE_EID_OFFSET))
      CFE_EVS_ERROR "%s error: directory name exists as a file: name = %s"
      [ArgText CmdText; ArgBuf Name] ;;;
    ret (false, Name)
  else if FilenameState =? FM_NAME_IS_DIRECTORY then
    CFE_EVS_SendEvent (u32 (EventID + FM_FNAME_ISDIR_EID_OFFSET))
      CFE_EVS_ERROR "%s error: directory already exists: name = %s"
      [ArgText CmdText; ArgBuf Name] ;;;
    ret (false, Name)
  else
    CFE_EVS_SendEvent (u32 (EventID + FM_FNAME_UNKNOWN_EID_OFFSET))
      CFE_EVS_ERROR
      "%s error: directory name has unknown state: name = %s, state = %d"
      [ArgText CmdText; ArgBuf Name; ArgU32 FilenameState] ;;;
    ret (false, Name).

Definition FM_VerifyDirNoExist (Name : list byte)
    (BufferSize EventID : Z) (CmdText : string) : FM (bool * list byte) :=
  (* Looking for filename state = unused *)
  let* FilenameState := FM_GetFilenameState Name BufferSize false in
  FM_VerifyDirNoExist_chain FilenameState Name BufferSize EventID CmdText.

(** The six boolean checks. *)
Definition six_checks
    : list (list byte -> Z -> Z -> string -> FM (bool * list byte)) :=
  [FM_VerifyFileClosed; FM_VerifyFileExists; FM_VerifyFileNoExist;
   FM_VerifyFileNotOpen; FM_VerifyDirExists; FM_VerifyDirNoExist].

(** *** Child task queue, producer side *)

Definition FM_VerifyChildTask (EventID : Z) (CmdText : string) : FM bool :=
  let* g := get_global in
  (* Copy of child queue count that child task cannot change *)
  let LocalQueueCount := ChildQueueCount g in
  (* Verify child task is active and queue interface is healthy *)
  if ChildSemaphore g =? FM_CHILD_SEM_INVALID then
    CFE_EVS_SendEvent (u32 (EventID + FM_CHILD_DISABLED_EID_OFFSET))
      CFE_EVS_ERROR "%s error: child task is disabled" [ArgText CmdText] ;;;
    ret false
  else if LocalQueueCount =? FM_CHILD_QUEUE_DEPTH then
    CFE_EVS_SendEvent (u32 (EventID + FM_CHILD_Q_FULL_EID_OFFSET))
      CFE_EVS_ERROR "%s error: child task queue is full" [ArgText CmdText] ;;;
    ret false
  else if (FM_CHILD_QUEUE_DEPTH <? LocalQueueCount) ||
          (FM_CHILD_QUEUE_DEPTH <=? ChildWriteIndex g) then
    CFE_EVS_SendEvent (u32 (EventID + FM_CHILD_BROKEN_EID_OFFSET))
      CFE_EVS_ERROR
      "%s error: child task interface is broken: count = %d, index = %d"
      [ArgText CmdText; ArgInt LocalQueueCount;
       ArgInt (ChildWriteIndex g)] ;;;
    ret false
  else
    (* CFE_PSP_MemSet of the slot at the write index *)
    if ChildWriteIndex g <? Z.of_nat (length (ChildQueue g)) then
      set_global
        (with_ChildQueue
           (<[Z.to_nat (ChildWriteIndex g) :=
                replicate (Z.to_nat sizeof_FM_ChildQueueEntry_t) x00]>
              (ChildQueue g)) g) ;;;
      ret true
    else lift None.

Definition FM_InvokeChildTask : FM unit :=
  (* Update callers queue index *)
  let* g := get_global in
  set_global (with_ChildWriteIndex (u8 (ChildWriteIndex g + 1)) g) ;;;
  let* g := get_global in
  (if FM_CHILD_QUEUE_DEPTH <=? ChildWriteIndex g
   then set_global (with_ChildWriteIndex 0 g)
   else ret tt) ;;;
  (* Prevent parent/child updating queue counter at same time *)
  let* g := get_global in
  OS_call (OS_MutSemTake (ChildQueueCountSem g)) ;;;
  let* g := get_global in
  store_ChildQueueCount (u8 (ChildQueueCount g + 1)) ;;;
  let* g := get_global in
  OS_call (OS_MutSemGive (ChildQueueCountSem g)) ;;;
  (* Does the child task still have a semaphore? *)
  let* g := get_global in
  if negb (ChildSemaphore g =? FM_CHILD_SEM_INVALID)
  then OS_call (OS_CountSemGive (ChildSemaphore g))
  else ret tt.

(** *** Path separator *)

Definition FM_AppendPathSep (Directory : list byte) (BufferSize : Z)
    : option (list byte) :=
  match strlen Directory with
  | Some len =>
      let StringLength := u32 len in
      (* Do nothing if string already ends with a path separator *)
      match buf_read Directory (u32 (StringLength - 1)) with
      | Some c =>
          if negb (Byte.eqb c "/"%byte) then
            (* Verify that string buffer has room for a path separator *)
            if StringLength <? u32 (BufferSize - 1)
            then strncat_sep Directory
            else Some Directory
          else Some Directory
      | None => None
      end
  | None => None
  end.

End Code.

(** ** The two sides of the child task queue *)

Section Queue.

Context `{D : FM_Defs}.

(** Modelled from the spec: the command handlers that put commands on the
    queue are not among the embedded sources. By section 4.5 of the
    specification the caller populates the slot at the write index once
    [FM_VerifyChildTask] has returned TRUE. *)
Definition producer_populate (payload : FM_ChildQueueEntry_t) : FM unit :=
  let* g := get_global in
  set_global
    (with_ChildQueue
       (<[Z.to_nat (ChildWriteIndex g) := payload]> (ChildQueue g)) g).

(** Modelled from the spec: the protocol of the producer in section 4.5 of
    the specification, [FM_VerifyChildTask] first and only on TRUE the slot
    and [FM_InvokeChildTask]. An attempt is a base event identifier, a
    command text and the payload. *)
Definition producer_attempt (cmd : Z * string * FM_ChildQueueEntry_t)
    : FM bool :=
  let '(EventID, CmdText, payload) := cmd in
  let* ok := FM_VerifyChildTask EventID CmdText in
  if ok then
    producer_populate payload ;;;
    FM_InvokeChildTask ;;;
    ret true
  else ret false.

(** Attempts one after the other, no dequeue in between. *)
Fixpoint producer_attempts (cmds : list (Z * string * FM_ChildQueueEntry_t))
    : FM (list bool) :=
  match cmds with
  | [] => ret []
  | cmd :: cmds' =>
      let* r := producer_attempt cmd in
      let* rs := producer_attempts cmds' in
      ret (r :: rs)
  end.

(** Modelled from the spec: the child task is not among the embedded
    sources. Section 4.5 of the specification: on a wake the consumer drains
    one entry; it reads the slot at the read index, advances the read index
    modulo the depth and decrements the count under the mutex. It is woken
    once per queued entry, so it finds a positive count. *)
Definition consumer_dequeue : FM (option FM_ChildQueueEntry_t) :=
  let* g := get_global in
  if 0 <? ChildQueueCount g then
    let* entry := lift (ChildQueue g !! Z.to_nat (ChildReadIndex g)) in
    set_global (with_ChildReadIndex (u8 (ChildReadIndex g + 1)) g) ;;;
    let* g := get_global in
    (if FM_CHILD_QUEUE_DEPTH <=? ChildReadIndex g
     then set_global (with_ChildReadIndex 0 g)
     else ret tt) ;;;
    let* g := get_global in
    OS_call (OS_MutSemTake (ChildQueueCountSem g)) ;;;
    let* g := get_global in
    store_ChildQueueCount (u8 (ChildQueueCount g - 1)) ;;;
    let* g := get_global in
    OS_call (OS_MutSemGive (ChildQueueCountSem g)) ;;;
    ret (Some entry)
  else ret None.

(** The queue as [FM_GlobalData_t] declares it: [FM_CHILD_QUEUE_DEPTH]
    slots, the write index inside them, the count between zero and the
    depth. *)
Definition queue_ok (g : FM_GlobalData_t) : Prop :=
  0 <= ChildQueueCount g <= FM_CHILD_QUEUE_DEPTH /\
  0 <= ChildWriteIndex g < FM_CHILD_QUEUE_DEPTH /\
  Z.of_nat (length (ChildQueue g)) = FM_CHILD_QUEUE_DEPTH.

(** The producer between its two calls, and the steps of the two sides: the
    consumer may take an entry at any point of the producer's protocol. *)
Inductive Phase : Type :=
  | Idle
  | Verified.

Inductive queue_step : Phase * FM_State -> Phase * FM_State -> Prop :=
  | step_verify (EventID : Z) (CmdText : string) (st st' : FM_State)
      (ok : bool) :
      FM_VerifyChildTask EventID CmdText st = Some (ok, st') ->
      queue_step (Idle, st) (if ok then Verified else Idle, st')
  | step_invoke (payload : FM_ChildQueueEntry_t) (st st' : FM_State) :
      (producer_populate payload ;;; FM_InvokeChildTask) st
      = Some (tt, st') ->
      queue_step (Verified, st) (Idle, st')
  | step_dequeue (ph : Phase) (st st' : FM_State)
      (entry : FM_ChildQueueEntry_t) :
      consumer_dequeue st = Some (Some entry, st') ->
      queue_step (ph, st) (ph, st').

(** What holds along the steps: the queue is well formed, the read index is
    inside the slots, and a verified producer has a free slot. *)
Definition queue_inv (s : Phase * FM_State) : Prop :=
  queue_ok (FM_GlobalData s.2) /\
  0 <= ChildReadIndex (FM_GlobalData s.2) < FM_CHILD_QUEUE_DEPTH /\
  (s.1 = Verified ->
   ChildQueueCount (FM_GlobalData s.2) < FM_CHILD_QUEUE_DEPTH).

End Queue.

(** ** Open streams *)

Section Streams.

Context `{D : FM_Defs}.

(** A live stream handle whose path is [name]. *)
Definition stream_has_path (W : OS_World) (name : list byte) : Prop :=
  exists ObjId FdProp,
    In ObjId (OS_ForEachObject W) /\
    OS_IdentifyObject W ObjId = OS_OBJECT_TYPE_OS_STREAM /\
    OS_FDGetInfo W ObjId = Some FdProp /\
    c_str (Path FdProp) = Some name.

(** The objects of the enumeration that are stream handles. *)
Definition stream_objects (W : OS_World) : list Z :=
  filter (fun ObjId => OS_IdentifyObject W ObjId = OS_OBJECT_TYPE_OS_STREAM)
         (OS_ForEachObject W).

(** The records of an array and the answers of the world have the sizes of
    their C types. *)
Definition records_ok (arr : list FM_OpenFilesEntry_t) : Prop :=
  Forall (fun e => Z.of_nat (length (LogicalName e)) = OS_MAX_PATH_LEN /\
                   Z.of_nat (length (AppName e)) = OS_MAX_API_NAME) arr.

Definition world_ok (W : OS_World) : Prop :=
  0 <= OS_MAX_PATH_LEN /\ 0 <= OS_MAX_API_NAME /\
  (forall ObjId FdProp,
     OS_FDGetInfo W ObjId = Some FdProp ->
     Z.of_nat (length (Path FdProp)) = OS_MAX_PATH_LEN) /\
  (forall task TaskInfo,
     CFE_ES_GetTaskInfo W task = Some TaskInfo ->
     Z.of_nat (length (TaskInfo_AppName TaskInfo)) = OS_MAX_API_NAME).

(** The records of an array that a call has changed. *)
Definition records_written (arr arr' : list FM_OpenFilesEntry_t) : nat :=
  length (filter (fun p : FM_OpenFilesEntry_t * FM_OpenFilesEntry_t =>
                    p.1 <> p.2) (zip arr arr')).

End Streams.

(** ** Inputs of the examples *)

(** A header for the examples. The offsets of the filename checks satisfy
    [DirNoExist_row_offsets]; the state codes, the other offsets, the queue
    depth (that of the scenario of the specification) and the OSAL constants
    are sample values: the headers are not among the embedded sources. *)
Definition FM_Defs_ex : FM_Defs := {|
  FM_NAME_IS_INVALID := 0;
  FM_NAME_IS_NOT_IN_USE := 1;
  FM_NAME_IS_FILE_OPEN := 2;
  FM_NAME_IS_FILE_CLOSED := 3;
  FM_NAME_IS_DIRECTORY := 4;
  FM_FNAME_INVALID_EID_OFFSET := 0;
  FM_FNAME_DNE_EID_OFFSET := 1;
  FM_FNAME_EXIST_EID_OFFSET := 1;
  FM_FNAME_ISDIR_EID_OFFSET := 2;
  FM_FNAME_ISFILE_EID_OFFSET := 2;
  FM_FNAME_ISOPEN_EID_OFFSET := 3;
  FM_FNAME_UNKNOWN_EID_OFFSET := 5;
  FM_CHILD_DISABLED_EID_OFFSET := 0;
  FM_CHILD_Q_FULL_EID_OFFSET := 1;
  FM_CHILD_BROKEN_EID_OFFSET := 2;
  FM_CHILD_QUEUE_DEPTH := 4;
  FM_CHILD_SEM_INVALID := 4294967295;
  sizeof_FM_ChildQueueEntry_t := 8;
  OS_OBJECT_TYPE_OS_STREAM := 4;
  OS_MAX_PATH_LEN := 16;
  OS_MAX_API_NAME := 8
|}.

(** A buffer of [n] bytes holding the string [s], padded with terminators. *)
Definition buffer_of (s : string) (n : nat) : list byte :=
  take n (list_byte_of_string s ++ replicate n x00).

(** A small world: the directory [/ram], the regular file [/ram/a.dat], and
    three objects, of which 10 is a stream on [/ram/a.dat] owned by task 7,
    11 is a stream whose information cannot be read and 12 is no stream. *)
Definition W_ex : OS_World := {|
  OS_stat := fun name =>
    if bool_decide (name = list_byte_of_string "/ram") then
      Some {| OS_FILESTAT_ISDIR := true;
              OS_FILESTAT_TIME := 1000; OS_FILESTAT_SIZE := 0 |}
    else if bool_decide (name = list_byte_of_string "/ram/a.dat") then
      Some {| OS_FILESTAT_ISDIR := false;
              OS_FILESTAT_TIME := 2000; OS_FILESTAT_SIZE := 512 |}
    else None;
  OS_ForEachObject := [10; 11; 12];
  OS_IdentifyObject := fun id => if id =? 12 then 1 else 4;
  OS_FDGetInfo := fun id =>
    if id =? 10 then Some {| Path := buffer_of "/ram/a.dat" 16; User := 7 |}
    else None;
  CFE_ES_GetTaskInfo := fun task =>
    if task =? 7 then Some {| TaskInfo_AppName := buffer_of "FM" 8 |}
    else None;
  CFS_IsValidFilename := fun _ _ => true
|}.

Definition g_ex : FM_GlobalData_t := {|
  ChildSemaphore := 5;
  ChildQueueCountSem := 6;
  ChildWriteIndex := 0;
  ChildReadIndex := 0;
  ChildQueueCount := 0;
  FileStatTime := 77;
  FileStatSize := 88;
  FileStatMode := 0;
  ChildQueue := replicate 4 (replicate 8 xff)
|}.

Definition st_ex : FM_State := {|
  FM_GlobalData := g_ex;
  OpenFileCount := 0;
  FileIsOpen := false;
  EVS_Log := [];
  OS_Log := []
|}.

(** The same state with the child task disabled. *)
Definition st_disabled : FM_State := {|
  FM_GlobalData := {|
    ChildSemaphore := 4294967295;
    ChildQueueCountSem := 6;
    ChildWriteIndex := 0;
    ChildReadIndex := 0;
    ChildQueueCount := 0;
    FileStatTime := 77;
    FileStatSize := 88;
    FileStatMode := 0;
    ChildQueue := replicate 4 (replicate 8 xff) |};
  OpenFileCount := 0;
  FileIsOpen := false;
  EVS_Log := [];
  OS_Log := []
|}.

(** An array of two records, not yet written. *)
Definition arr_ex : list FM_OpenFilesEntry_t :=
  replicate 2 {| LogicalName := replicate 16 xff;
                 AppName := replicate 8 xff |}.

(** Four commands for the queue. *)
Definition cmds_ex : list (Z * string * FM_ChildQueueEntry_t) :=
  [(200, "Copy File"%string, replicate 8 x01);
   (210, "Move File"%string, replicate 8 x02);
   (220, "Delete File"%string, replicate 8 x03);
   (230, "Create Directory"%string, replicate 8 x04)].

(** ** Preconditions *)

(** The caller hands over a buffer of at least [BufferSize] bytes, with a
    size the [int32] loop counter of the classifier can reach. *)
Definition buffer_ok (Filename : list byte) (BufferSize : Z) : Prop :=
  0 < BufferSize <= Z.of_nat (length Filename) /\ BufferSize <= INT32_MAX.

(** ** The outcome rows of the checks *)

Inductive Outcome : Type :=
  | Pass
  | Fail (offset : Z).

(** The row of a state in a table of rows; the first row of the state counts. *)
Fixpoint row_of (rows : list (Z * Outcome)) (s : Z) : option Outcome :=
  match rows with
  | [] => None
  | (s', o) :: rows' => if s =? s' then Some o else row_of rows' s
  end.

Definition log_event (e : CFE_EVS_Event) (st : FM_State) : FM_State :=
  {| FM_GlobalData := FM_GlobalData st;
     OpenFileCount := OpenFileCount st;
     FileIsOpen := FileIsOpen st;
     EVS_Log := EVS_Log st ++ [e];
     OS_Log := OS_Log st |}.

(** What it means that a row fires in a run of a check from the state [st]:
    a passing row returns TRUE and changes nothing; a failing row returns
    FALSE, sends one error event whose identifier is the base plus the offset
    of the row and whose text ends with the string [name] read from the
    buffer, and leaves the buffer as [Filename']. *)
Definition fires (o : Outcome) (Filename Filename' : list byte) (base : Z)
    (st : FM_State) (res : option (bool * list byte * FM_State)) : Prop :=
  match o with
  | Pass => res = Some (true, Filename, st)
  | Fail offset =>
      exists e name,
        res = Some (false, Filename', log_event e st) /\
        EventID e = u32 (base + offset) /\
        EventType e = CFE_EVS_ERROR /\
        c_str Filename' = Some name /\
        In (ValStr name) (Values e)
  end.

Section Tables.

Context `{D : FM_Defs}.

Definition five_states : list Z :=
  [FM_NAME_IS_INVALID; FM_NAME_IS_NOT_IN_USE; FM_NAME_IS_FILE_OPEN;
   FM_NAME_IS_FILE_CLOSED; FM_NAME_IS_DIRECTORY].

(** The rows of the six checks, as the code of each chain has them. *)
Definition FileExists_rows : list (Z * Outcome) :=
  [(FM_NAME_IS_INVALID, Fail FM_FNAME_INVALID_EID_OFFSET);
   (FM_NAME_IS_NOT_IN_USE, Fail FM_FNAME_DNE_EID_OFFSET);
   (FM_NAME_IS_FILE_OPEN, Pass);
   (FM_NAME_IS_FILE_CLOSED, Pass);
   (FM_NAME_IS_DIRECTORY, Fail FM_FNAME_ISDIR_EID_OFFSET)].

Definition FileClosed_rows : list (Z * Outcome) :=
  [(FM_NAME_IS_INVALID, Fail FM_FNAME_INVALID_EID_OFFSET);
   (FM_NAME_IS_NOT_IN_USE, Fail FM_FNAME_DNE_EID_OFFSET);
   (FM_NAME_IS_FILE_OPEN, Fail FM_FNAME_ISOPEN_EID_OFFSET);
   (FM_NAME_IS_FILE_CLOSED, Pass);
   (FM_NAME_IS_DIRECTORY, Fail FM_FNAME_ISDIR_EID_OFFSET)].

Definition FileNoExist_rows : list (Z * Outcome) :=
  [(FM_NAME_IS_INVALID, Fail FM_FNAME_INVALID_EID_OFFSET);
   (FM_NAME_IS_NOT_IN_USE, Pass);
   (FM_NAME_IS_FILE_OPEN, Fail FM_FNAME_EXIST_EID_OFFSET);
   (FM_NAME_IS_FILE_CLOSED, Fail FM_FNAME_EXIST_EID_OFFSET);
   (FM_NAME_IS_DIRECTORY, Fail FM_FNAME_ISDIR_EID_OFFSET)].

Definition FileNotOpen_rows : list (Z * Outcome) :=
  [(FM_NAME_IS_INVALID, Fail FM_FNAME_INVALID_EID_OFFSET);
   (FM_NAME_IS_NOT_IN_USE, Pass);
   (FM_NAME_IS_FILE_OPEN, Fail FM_FNAME_ISOPEN_EID_OFFSET);
   (FM_NAME_IS_FILE_CLOSED, Pass);
   (FM_NAME_IS_DIRECTORY, Fail FM_FNAME_ISDIR_EID_OFFSET)].

Definition DirExists_rows : list (Z * Outcome) :=
  [(FM_NAME_IS_INVALID, Fail FM_FNAME_INVALID_EID_OFFSET);
   (FM_NAME_IS_NOT_IN_USE, Fail FM_FNAME_DNE_EID_OFFSET);
   (FM_NAME_IS_FILE_OPEN, Fail FM_FNAME_ISFILE_EID_OFFSET);
   (FM_NAME_IS_FILE_CLOSED, Fail FM_FNAME_ISFILE_EID_OFFSET);
   (FM_NAME_IS_DIRECTORY, Pass)].

Definition DirNoExist_rows : list (Z * Outcome) :=
  [(FM_NAME_IS_INVALID, Fail FM_FNAME_INVALID_EID_OFFSET);
   (FM_NAME_IS_NOT_IN_USE, Pass);
   (FM_NAME_IS_FILE_OPEN, Fail FM_FNAME_DNE_EID_OFFSET);
   (FM_NAME_IS_FILE_CLOSED, Fail FM_FNAME_DNE_EID_OFFSET);
   (FM_NAME_IS_DIRECTORY, Fail FM_FNAME_ISDIR_EID_OFFSET)].

(** The buffer a check hands back: terminated at the last byte of the stated
    size when the state is Invalid, untouched otherwise. *)
Definition buffer_after (s : Z) (Filename : list byte) (BufferSize : Z)
    : list byte :=
  if s =? FM_NAME_IS_INVALID
  then <[Z.to_nat (BufferSize - 1) := x00]> Filename
  else Filename.

(** What a chain needs to print the name: room for the terminator it writes
    when the state is Invalid, a terminated buffer otherwise. *)
Definition printable (s : Z) (Filename : list byte) (BufferSize : Z) : Prop :=
  (s = FM_NAME_IS_INVALID ->
   0 < BufferSize <= Z.of_nat (length Filename) /\ BufferSize <= 2 ^ 32) /\
  (s <> FM_NAME_IS_INVALID -> is_Some (c_str Filename)).

(** The outcome of a check whatever the row: it passes and changes nothing,
    or it fails with one error event that prints the terminated buffer. *)
Definition chain_result (s : Z) (Filename : list byte) (BufferSize : Z)
    (st : FM_State) (res : option (bool * list byte * FM_State)) : Prop :=
  res = Some (true, Filename, st) \/
  exists e name,
    res = Some (false, buffer_after s Filename BufferSize, log_event e st) /\
    EventType e = CFE_EVS_ERROR /\
    c_str (buffer_after s Filename BufferSize) = Some name /\
    In (ValStr name) (Values e).

(** The classifier may reset the static [FileIsOpen]; a check without
    [FileInfoCmd] changes nothing else before its chain starts. *)
Definition same_but_FileIsOpen (st st1 : FM_State) : Prop :=
  FM_GlobalData st1 = FM_GlobalData st /\
  OpenFileCount st1 = OpenFileCount st /\
  EVS_Log st1 = EVS_Log st /\
  OS_Log st1 = OS_Log st.

(** A terminator inside the first [BufferSize] bytes. *)
Definition terminated_within (Filename : list byte) (BufferSize : Z) : Prop :=
  exists j, 0 <= j < BufferSize /\ Filename !! Z.to_nat j = Some x00.

End Tables.

Section Predicates.

Context `{D : FM_Defs} (W : OS_World).

(** What the classifier establishes for a check that calls it without
    [FileInfoCmd]. *)
Definition classified (Filename : list byte) (BufferSize : Z)
    (st : FM_State) (s : Z) (st1 : FM_State) : Prop :=
  FM_GetFilenameState W Filename BufferSize false st = Some (s, st1) /\
  In s five_states /\
  same_but_FileIsOpen st st1 /\
  (s <> FM_NAME_IS_INVALID ->
   exists j, 0 < j < BufferSize /\ Filename !! Z.to_nat j = Some x00).

(** The outcome of a check run from [st]: it returns, it passes exactly when
    [pass] holds, and it sends no event when it passes and exactly one when
    it fails. *)
Definition check_outcome (res : option (bool * list byte * FM_State))
    (st : FM_State) (pass : Prop) : Prop :=
  exists r b st2 evs,
    res = Some (r, b, st2) /\
    (r = true <-> pass) /\
    EVS_Log st2 = EVS_Log st ++ evs /\
    length evs = if r then 0%nat else 1%nat.

End Predicates.

(** ** Names the classifier accepts *)

Section Names.

Context `{D : FM_Defs} (W : OS_World).

(** The buffer holds the non-empty string [name], terminated before
    [BufferSize], and [CFS_IsValidFilename] accepts it. *)
Definition valid_name (Filename : list byte) (BufferSize : Z)
    (name : list byte) : Prop :=
  c_str Filename = Some name /\
  0 < Z.of_nat (length name) < BufferSize /\
  CFS_IsValidFilename W Filename (Z.of_nat (length name)) = true.

(** The states the classifier of this source can return. *)
Definition four_states : list Z :=
  [FM_NAME_IS_INVALID; FM_NAME_IS_NOT_IN_USE; FM_NAME_IS_FILE_CLOSED;
   FM_NAME_IS_DIRECTORY].

(** The chains of the six checks, in the order of [six_checks]. *)
Definition six_chains
    : list (Z -> list byte -> Z -> Z -> string -> FM (bool * list byte)) :=
  [FM_VerifyFileClosed_chain; FM_VerifyFileExists_chain;
   FM_VerifyFileNoExist_chain; FM_VerifyFileNotOpen_chain;
   FM_VerifyDirExists_chain; FM_VerifyDirNoExist_chain].

(** An event that prints a state code: only the "unknown state" events of
    the chains do. *)
Definition prints_state_code (e : CFE_EVS_Event) : Prop :=
  exists n, In (ValInt n) (Values e).

End Names.

(** What [LoadOpenFileData] leaves in a record [e] of the array, as [e'],
    for a stream whose information [FdProp] it has read: the logical name
    holds the path, as a string when the path is terminated and byte for
    byte (so without a terminator) when it is not; the application name
    holds the name of the owning task, and keeps what the caller's array
    held when [CFE_ES_GetTaskInfo] fails. *)
Definition record_of (W : OS_World) (FdProp : OS_file_prop_t)
    (e e' : FM_OpenFilesEntry_t) : Prop :=
  (forall path, c_str (Path FdProp) = Some path ->
                c_str (LogicalName e') = Some path) /\
  (c_str (Path FdProp) = None -> LogicalName e' = Path FdProp) /\
  match CFE_ES_GetTaskInfo W (User FdProp) with
  | Some TaskInfo =>
      forall app, c_str (TaskInfo_AppName TaskInfo) = Some app ->
                  c_str (AppName e') = Some app
  | None => AppName e' = AppName e
  end.


(** The example state with a full queue, and with a count above the depth. *)
Definition st_full : FM_State := {|
  FM_GlobalData := with_ChildQueueCount 4 g_ex;
  OpenFileCount := 0;
  FileIsOpen := false;
  EVS_Log := [];
  OS_Log := []
|}.

Definition st_broken : FM_State := {|
  FM_GlobalData := with_ChildQueueCount 5 g_ex;
  OpenFileCount := 0;
  FileIsOpen := false;
  EVS_Log := [];
  OS_Log := []
|}.


(** ** Tactics *)

Ltac split_all :=
  repeat match goal with |- _ /\ _ => split end.

Ltac run_FM :=
  unfold bind, ret, lift, set_FileStat, get_global, set_global,
    get_FileIsOpen, set_FileIsOpen, get_OpenFileCount, set_OpenFileCount,
    store_ChildQueueCount, OS_call; simpl.

Section Properties.

Context `{D : FM_Defs} (W : OS_World).

(** ** Bytes, strings and buffers *)

Lemma byte_eqb_true (c d : byte) : Byte.eqb c d = true <-> c = d.
Proof. split; [apply Byte.byte_dec_bl | apply Byte.byte_dec_lb]. Qed.

Lemma byte_eqb_false (c d : byte) : Byte.eqb c d = false <-> c <> d.
Proof.
  split; [apply Byte.eqb_false |].
  intros Hne. destruct (Byte.eqb c d) eqn:E; [| reflexivity].
  apply byte_eqb_true in E. contradiction.
Qed.

Lemma c_str_terminated (b : list byte) (j : nat) :
  b !! j = Some x00 -> is_Some (c_str b).
Proof.
  revert j. induction b as [| c b IH]; intros j Hj; [discriminate |].
  simpl. destruct (Byte.eqb c x00) eqn:E; [eauto |].
  destruct j as [| j]; simpl in Hj.
  - injection Hj as ->. discriminate.
  - destruct (IH j Hj) as [s ->]. eauto.
Qed.

Lemma c_str_Some (b s : list byte) :
  c_str b = Some s ->
  b !! length s = Some x00 /\
  forall k, (k < length s)%nat -> exists c, b !! k = Some c /\ c <> x00.
Proof.
  revert s. induction b as [| c b IH]; intros s Hs; [discriminate |].
  simpl in Hs. destruct (Byte.eqb c x00) eqn:E.
  - injection Hs as <-. apply byte_eqb_true in E. subst c. split; [reflexivity |].
    simpl. intros k Hk. lia.
  - destruct (c_str b) as [s' |] eqn:Es; [| discriminate].
    injection Hs as <-. destruct (IH s' eq_refl) as [Hz Hnz].
    split; [exact Hz |]. intros [| k] Hk; simpl in *.
    + exists c. split; [reflexivity |]. by apply byte_eqb_false.
    + apply Hnz. lia.
Qed.

Lemma buf_write_Some (b : list byte) (i : Z) (c : byte) :
  0 <= i < Z.of_nat (length b) ->
  buf_write b i c = Some (<[Z.to_nat i := c]> b).
Proof.
  intros Hi. unfold buf_write.
  destruct (0 <=? i) eqn:E1; [| lia].
  destruct (i <? Z.of_nat (length b)) eqn:E2; [reflexivity | lia].
Qed.

Lemma u32_small (x : Z) : 0 <= x < 2 ^ 32 -> u32 x = x.
Proof. intros Hx. unfold u32. by apply Z.mod_small. Qed.

(** ** The terminator scan *)

Lemma FM_ScanTerminator_total (Filename : list byte) (n : nat) (i : Z) :
  0 <= i ->
  i + Z.of_nat n <= Z.of_nat (length Filename) ->
  i + Z.of_nat n <= INT32_MAX ->
  exists j, FM_ScanTerminator n Filename i = Some j /\
            i <= j <= i + Z.of_nat n /\
            (j < i + Z.of_nat n -> Filename !! Z.to_nat j = Some x00).
Proof.
  revert i. induction n as [| n IH]; intros i Hi Hlen Hmax.
  - exists i. simpl. split; [reflexivity |]. split; lia.
  - simpl. unfold buf_read. destruct (0 <=? i) eqn:E0; [| lia].
    destruct (Filename !! Z.to_nat i) as [c |] eqn:Ec.
    2:{ apply lookup_ge_None in Ec. lia. }
    destruct (Byte.eqb c x00) eqn:E.
    + apply byte_eqb_true in E. subst c. exists i.
      split; [reflexivity |]. split; [lia |]. intros _. exact Ec.
    + destruct (i + 1 <=? INT32_MAX) eqn:E1; [| lia].
      destruct (IH (i + 1)) as (j & Hj & Hr & Hz); [lia | lia | lia |].
      exists j. split; [exact Hj |]. split; [lia |].
      intros Hlt. apply Hz. lia.
Qed.

Lemma FM_ScanTerminator_found (Filename : list byte) (n : nat) (i j : Z) :
  0 <= i <= j -> j < i + Z.of_nat n -> j <= INT32_MAX ->
  Filename !! Z.to_nat j = Some x00 ->
  (forall k, (Z.to_nat i <= k < Z.to_nat j)%nat ->
             exists c, Filename !! k = Some c /\ c <> x00) ->
  FM_ScanTerminator n Filename i = Some j.
Proof.
  revert i. induction n as [| n IH]; intros i Hij Hn Hmax Hz Hnz; [lia |].
  simpl. unfold buf_read. destruct (0 <=? i) eqn:E0; [| lia].
  destruct (Z.eq_dec i j) as [-> | Hne].
  - rewrite Hz. simpl. reflexivity.
  - destruct (Hnz (Z.to_nat i)) as (c & Hc & Hcz); [lia |].
    rewrite Hc. apply byte_eqb_false in Hcz. rewrite Hcz.
    destruct (i + 1 <=? INT32_MAX) eqn:E1; [| lia].
    apply IH; [lia | lia | lia | exact Hz |].
    intros k Hk. apply Hnz. lia.
Qed.

(** On a terminated string shorter than the buffer size the scan finds the
    length of the string. *)
Lemma FM_ScanTerminator_c_str (Filename name : list byte) (BufferSize : Z) :
  c_str Filename = Some name ->
  Z.of_nat (length name) < BufferSize -> BufferSize <= INT32_MAX ->
  FM_ScanTerminator (Z.to_nat BufferSize) Filename 0
  = Some (Z.of_nat (length name)).
Proof.
  intros Hs Hlt Hmax. destruct (c_str_Some _ _ Hs) as [Hz Hnz].
  apply FM_ScanTerminator_found; [lia | lia | lia | |].
  - by rewrite Nat2Z.id.
  - intros k Hk. apply Hnz. lia.
Qed.

(** ** The classifier *)

(** The classifier returns on every buffer of the stated size, with one of
    the five states; it sends no event, and a state other than Invalid means
    that the scan has found a terminator after the first byte and inside the
    buffer size. Without [FileInfoCmd] the global data is not written. *)
Lemma FM_GetFilenameState_run (Filename : list byte) (BufferSize : Z)
    (FileInfoCmd : bool) (st : FM_State) :
  buffer_ok Filename BufferSize ->
  exists s st1,
    FM_GetFilenameState W Filename BufferSize FileInfoCmd st = Some (s, st1) /\
    In s five_states /\
    EVS_Log st1 = EVS_Log st /\
    OS_Log st1 = OS_Log st /\
    OpenFileCount st1 = OpenFileCount st /\
    (FileInfoCmd = false -> FM_GlobalData st1 = FM_GlobalData st) /\
    (s <> FM_NAME_IS_INVALID ->
     exists j, 0 < j < BufferSize /\ Filename !! Z.to_nat j = Some x00).
Proof.
  intros [[Hpos Hlen] Hmax].
  destruct (FM_ScanTerminator_total Filename (Z.to_nat BufferSize) 0)
    as (j & Hj & Hr & Hz); [lia | lia | lia |].
  unfold FM_GetFilenameState. run_FM. rewrite Hj.
  destruct ((0 <? j) && (j <? BufferSize)) eqn:Ev.
  2:{ exists FM_NAME_IS_INVALID, st. unfold five_states. simpl.
      split_all; auto. intros Hne. contradiction. }
  apply andb_true_iff in Ev as [Hj0 HjB].
  apply Z.ltb_lt in Hj0. apply Z.ltb_lt in HjB.
  assert (Hterm : Filename !! Z.to_nat j = Some x00) by (apply Hz; lia).
  destruct (CFS_IsValidFilename W Filename j).
  2:{ exists FM_NAME_IS_INVALID, st. unfold five_states. simpl.
      split_all; auto. intros Hne. contradiction. }
  destruct (c_str_terminated _ _ Hterm) as [name ->].
  assert (Hfound : exists j, 0 < j < BufferSize /\
                             Filename !! Z.to_nat j = Some x00)
    by (exists j; split; [lia | exact Hterm]).
  destruct (OS_stat W name) as [FileStatus |].
  - destruct (OS_FILESTAT_ISDIR FileStatus), FileInfoCmd; simpl;
      eexists _, _; (split; [reflexivity |]); unfold five_states; simpl;
      split_all; auto 10; discriminate.
  - destruct FileInfoCmd; simpl;
      eexists _, _; (split; [reflexivity |]); unfold five_states; simpl;
      split_all; auto 10; discriminate.
Qed.

(** ** The chains of the six checks *)

Lemma states_ne :
  states_distinct ->
  FM_NAME_IS_INVALID <> FM_NAME_IS_NOT_IN_USE /\
  FM_NAME_IS_INVALID <> FM_NAME_IS_FILE_OPEN /\
  FM_NAME_IS_INVALID <> FM_NAME_IS_FILE_CLOSED /\
  FM_NAME_IS_INVALID <> FM_NAME_IS_DIRECTORY /\
  FM_NAME_IS_NOT_IN_USE <> FM_NAME_IS_FILE_OPEN /\
  FM_NAME_IS_NOT_IN_USE <> FM_NAME_IS_FILE_CLOSED /\
  FM_NAME_IS_NOT_IN_USE <> FM_NAME_IS_DIRECTORY /\
  FM_NAME_IS_FILE_OPEN <> FM_NAME_IS_FILE_CLOSED /\
  FM_NAME_IS_FILE_OPEN <> FM_NAME_IS_DIRECTORY /\
  FM_NAME_IS_FILE_CLOSED <> FM_NAME_IS_DIRECTORY.
Proof.
  unfold states_distinct. rewrite !NoDup_cons, !list_elem_of_In. simpl.
  intuition congruence.
Qed.

(** Settles every comparison of two state codes in the goal. *)
Ltac decide_states :=
  repeat match goal with
  | |- context [?a =? ?a] => rewrite (Z.eqb_refl a)
  | H : ?a <> ?b |- context [?a =? ?b] =>
      rewrite (proj2 (Z.eqb_neq a b) H)
  | H : ?a <> ?b |- context [?b =? ?a] =>
      rewrite (proj2 (Z.eqb_neq b a) (not_eq_sym H))
  end.

Lemma c_str_insert_terminator (b : list byte) (i : nat) :
  (i < length b)%nat -> is_Some (c_str (<[i := x00]> b)).
Proof.
  intros Hi. apply (c_str_terminated _ i). by apply list_lookup_insert_eq.
Qed.

(** One proof for the six chains: take the five states in turn, settle the
    comparisons, and run the event. *)
Ltac chain_event name Hname :=
  unfold CFE_EVS_SendEvent; run_FM; rewrite Hname; simpl;
  eexists _, name; split_all;
  [reflexivity .. | first [exact Hname | reflexivity] | simpl; auto].

Ltac chain_invalid Hinv :=
  let Hrange := fresh "Hrange" in
  let Hmax := fresh "Hmax" in
  let name := fresh "name" in
  let Hname := fresh "Hname" in
  destruct (Hinv eq_refl) as [Hrange Hmax];
  rewrite u32_small by lia;
  rewrite buf_write_Some by lia;
  match goal with
  | |- context [<[?i := x00]> ?b] =>
      destruct (c_str_insert_terminator b i) as [name Hname]; [lia |]
  end;
  chain_event name Hname.

Ltac chain_valid Hval :=
  let name := fresh "name" in
  let Hname := fresh "Hname" in
  destruct Hval as [name Hname]; [congruence |];
  chain_event name Hname.

Ltac chain_fires Hd Hs Hp :=
  let Hinv := fresh "Hinv" in
  let Hval := fresh "Hval" in
  destruct (states_ne Hd) as (? & ? & ? & ? & ? & ? & ? & ? & ? & ?);
  destruct Hp as [Hinv Hval];
  unfold five_states in Hs; simpl in Hs;
  destruct Hs as [<- | [<- | [<- | [<- | [<- | []]]]]];
  simpl; unfold buffer_after; decide_states; simpl;
  (eexists; split; [reflexivity |]); simpl;
  try reflexivity;
  [ chain_invalid Hinv | chain_valid Hval .. ].

Lemma FM_VerifyFileExists_chain_fires (s : Z) (Filename : list byte)
    (BufferSize base : Z) (CmdText : string) (st : FM_State) :
  states_distinct -> In s five_states -> printable s Filename BufferSize ->
  exists o, row_of FileExists_rows s = Some o /\
    fires o Filename (buffer_after s Filename BufferSize) base st
      (FM_VerifyFileExists_chain s Filename BufferSize base CmdText st).
Proof.
  intros Hd Hs Hp. unfold FM_VerifyFileExists_chain.
  chain_fires Hd Hs Hp.
Qed.

Lemma FM_VerifyFileClosed_chain_fires (s : Z) (Filename : list byte)
    (BufferSize base : Z) (CmdText : string) (st : FM_State) :
  states_distinct -> In s five_states -> printable s Filename BufferSize ->
  exists o, row_of FileClosed_rows s = Some o /\
    fires o Filename (buffer_after s Filename BufferSize) base st
      (FM_VerifyFileClosed_chain s Filename BufferSize base CmdText st).
Proof.
  intros Hd Hs Hp. unfold FM_VerifyFileClosed_chain.
  chain_fires Hd Hs Hp.
Qed.

Lemma FM_VerifyFileNoExist_chain_fires (s : Z) (Filename : list byte)
    (BufferSize base : Z) (CmdText : string) (st : FM_State) :
  states_distinct -> In s five_states -> printable s Filename BufferSize ->
  exists o, row_of FileNoExist_rows s = Some o /\
    fires o Filename (buffer_after s Filename BufferSize) base st
      (FM_VerifyFileNoExist_chain s Filename BufferSize base CmdText st).
Proof.
  intros Hd Hs Hp. unfold FM_VerifyFileNoExist_chain.
  chain_fires Hd Hs Hp.
Qed.

Lemma FM_VerifyFileNotOpen_chain_fires (s : Z) (Filename : list byte)
    (BufferSize base : Z) (CmdText : string) (st : FM_State) :
  states_distinct -> In s five_states -> printable s Filename BufferSize ->
  exists o, row_of FileNotOpen_rows s = Some o /\
    fires o Filename (buffer_after s Filename BufferSize) base st
      (FM_VerifyFileNotOpen_chain s Filename BufferSize base CmdText st).
Proof.
  intros Hd Hs Hp. unfold FM_VerifyFileNotOpen_chain.
  chain_fires Hd Hs Hp.
Qed.

Lemma FM_VerifyDirExists_chain_fires (s : Z) (Filename : list byte)
    (BufferSize base : Z) (CmdText : string) (st : FM_State) :
  states_distinct -> In s five_states -> printable s Filename BufferSize ->
  exists o, row_of DirExists_rows s = Some o /\
    fires o Filename (buffer_after s Filename BufferSize) base st
      (FM_VerifyDirExists_chain s Filename BufferSize base CmdText st).
Proof.
  intros Hd Hs Hp. unfold FM_VerifyDirExists_chain.
  chain_fires Hd Hs Hp.
Qed.

Lemma FM_VerifyDirNoExist_chain_fires (s : Z) (Filename : list byte)
    (BufferSize base : Z) (CmdText : string) (st : FM_State) :
  states_distinct -> In s five_states -> printable s Filename BufferSize ->
  exists o, row_of DirNoExist_rows s = Some o /\
    fires o Filename (buffer_after s Filename BufferSize) base st
      (FM_VerifyDirNoExist_chain s Filename BufferSize base CmdText st).
Proof.
  intros Hd Hs Hp. unfold FM_VerifyDirNoExist_chain.
  chain_fires Hd Hs Hp.
Qed.

(** *** The chains without an assumption on the state codes *)

Ltac result_event name Hname :=
  right; unfold CFE_EVS_SendEvent; run_FM; rewrite Hname; simpl;
  eexists _, name; split_all;
  [reflexivity | reflexivity | first [exact Hname | reflexivity]
  | simpl; auto].

Ltac chain_result_leaf Hinv Hval :=
  simpl;
  first
  [ left; reflexivity
  | let Hrange := fresh "Hrange" in
    let Hmax := fresh "Hmax" in
    let name := fresh "name" in
    let Hname := fresh "Hname" in
    destruct Hinv as [Hrange Hmax]; [assumption |];
    rewrite u32_small by lia;
    rewrite buf_write_Some by lia;
    match goal with
    | |- context [<[?i := x00]> ?b] =>
        destruct (c_str_insert_terminator b i) as [name Hname]; [lia |]
    end;
    result_event name Hname
  | let name := fresh "name" in
    let Hname := fresh "Hname" in
    destruct Hval as [name Hname]; [assumption |];
    result_event name Hname ].

Ltac chain_result_tac s Hp :=
  let Hinv := fresh "Hinv" in
  let Hval := fresh "Hval" in
  destruct Hp as [Hinv Hval];
  unfold chain_result, buffer_after;
  destruct (Z.eqb_spec s FM_NAME_IS_INVALID);
  destruct (Z.eqb_spec s FM_NAME_IS_NOT_IN_USE);
  destruct (Z.eqb_spec s FM_NAME_IS_FILE_OPEN);
  destruct (Z.eqb_spec s FM_NAME_IS_FILE_CLOSED);
  destruct (Z.eqb_spec s FM_NAME_IS_DIRECTORY);
  chain_result_leaf Hinv Hval.

Lemma FM_VerifyFileClosed_chain_result (s : Z) (Filename : list byte)
    (BufferSize base : Z) (CmdText : string) (st : FM_State) :
  printable s Filename BufferSize ->
  chain_result s Filename BufferSize st
    (FM_VerifyFileClosed_chain s Filename BufferSize base CmdText st).
Proof.
  intros Hp. unfold FM_VerifyFileClosed_chain. chain_result_tac s Hp.
Qed.

Lemma FM_VerifyFileExists_chain_result (s : Z) (Filename : list byte)
    (BufferSize base : Z) (CmdText : string) (st : FM_State) :
  printable s Filename BufferSize ->
  chain_result s Filename BufferSize st
    (FM_VerifyFileExists_chain s Filename BufferSize base CmdText st).
Proof.
  intros Hp. unfold FM_VerifyFileExists_chain. chain_result_tac s Hp.
Qed.

Lemma FM_VerifyFileNoExist_chain_result (s : Z) (Filename : list byte)
    (BufferSize base : Z) (CmdText : string) (st : FM_State) :
  printable s Filename BufferSize ->
  chain_result s Filename BufferSize st
    (FM_VerifyFileNoExist_chain s Filename BufferSize base CmdText st).
Proof.
  intros Hp. unfold FM_VerifyFileNoExist_chain. chain_result_tac s Hp.
Qed.

Lemma FM_VerifyFileNotOpen_chain_result (s : Z) (Filename : list byte)
    (BufferSize base : Z) (CmdText : string) (st : FM_State) :
  printable s Filename BufferSize ->
  chain_result s Filename BufferSize st
    (FM_VerifyFileNotOpen_chain s Filename BufferSize base CmdText st).
Proof.
  intros Hp. unfold FM_VerifyFileNotOpen_chain. chain_result_tac s Hp.
Qed.

Lemma FM_VerifyDirExists_chain_result (s : Z) (Filename : list byte)
    (BufferSize base : Z) (CmdText : string) (st : FM_State) :
  printable s Filename BufferSize ->
  chain_result s Filename BufferSize st
    (FM_VerifyDirExists_chain s Filename BufferSize base CmdText st).
Proof.
  intros Hp. unfold FM_VerifyDirExists_chain. chain_result_tac s Hp.
Qed.

Lemma FM_VerifyDirNoExist_chain_result (s : Z) (Filename : list byte)
    (BufferSize base : Z) (CmdText : string) (st : FM_State) :
  printable s Filename BufferSize ->
  chain_result s Filename BufferSize st
    (FM_VerifyDirNoExist_chain s Filename BufferSize base CmdText st).
Proof.
  intros Hp. unfold FM_VerifyDirNoExist_chain. chain_result_tac s Hp.
Qed.

(** ** The checks: classifier, then chain *)

Lemma classified_printable (s : Z) (Filename : list byte) (BufferSize : Z) :
  buffer_ok Filename BufferSize ->
  (s <> FM_NAME_IS_INVALID ->
   exists j, 0 < j < BufferSize /\ Filename !! Z.to_nat j = Some x00) ->
  printable s Filename BufferSize.
Proof.
  intros [Hrange Hmax] Hterm. split.
  - intros _. split; [exact Hrange |]. unfold INT32_MAX in Hmax. lia.
  - intros Hne. destruct (Hterm Hne) as (j & _ & Hj).
    by apply (c_str_terminated _ (Z.to_nat j)).
Qed.

Lemma classified_total (Filename : list byte) (BufferSize : Z)
    (st : FM_State) :
  buffer_ok Filename BufferSize ->
  exists s st1, classified W Filename BufferSize st s st1.
Proof.
  intros Hb.
  destruct (FM_GetFilenameState_run Filename BufferSize false st Hb)
    as (s & st1 & Hrun & Hin & He & Ho & Hc & Hg & Ht).
  exists s, st1. unfold classified, same_but_FileIsOpen. auto 10.
Qed.

Lemma check_run (chain : Z -> FM (bool * list byte))
    (Filename : list byte) (BufferSize : Z) (st : FM_State) (s : Z)
    (st1 : FM_State) :
  classified W Filename BufferSize st s st1 ->
  bind (FM_GetFilenameState W Filename BufferSize false) chain st
  = chain s st1.
Proof. intros (Hrun & _). unfold bind. by rewrite Hrun. Qed.

(** ** The six checks against the states *)

Ltac outcome_tac Hd Hs Hp chain_lemma :=
  let o := fresh "o" in
  let Hrow := fresh "Hrow" in
  let Hf := fresh "Hf" in
  match goal with
  | |- check_outcome (_ ?s ?F ?B ?E ?T ?st) _ _ =>
      destruct (chain_lemma s F B E T st Hd Hs Hp) as (o & Hrow & Hf)
  end;
  destruct (states_ne Hd) as (? & ? & ? & ? & ? & ? & ? & ? & ? & ?);
  unfold five_states in Hs; simpl in Hs;
  destruct Hs as [<- | [<- | [<- | [<- | [<- | []]]]]];
  simpl in Hrow; revert Hrow; decide_states; intros [= <-];
  simpl in Hf;
  first
  [ eexists true, _, _, []; split_all;
    [ exact Hf | intuition congruence
    | symmetry; apply app_nil_r | reflexivity ]
  | destruct Hf as (e & name & Hf & _);
    eexists false, _, _, [e]; split_all;
    [ exact Hf | intuition congruence | reflexivity | reflexivity ] ].

(** The chains on each of the five states, FileOpen included: every chain
    returns TRUE exactly on its pass states, with no event, and FALSE with
    exactly one event on the others. *)
Lemma chains_pass_exactly_on_their_states (s : Z) (Filename : list byte)
    (BufferSize base : Z) (CmdText : string) (st : FM_State) :
  states_distinct -> In s five_states -> printable s Filename BufferSize ->
  check_outcome
    (FM_VerifyFileExists_chain s Filename BufferSize base CmdText st)
    st (s = FM_NAME_IS_FILE_OPEN \/ s = FM_NAME_IS_FILE_CLOSED) /\
  check_outcome
    (FM_VerifyFileClosed_chain s Filename BufferSize base CmdText st)
    st (s = FM_NAME_IS_FILE_CLOSED) /\
  check_outcome
    (FM_VerifyFileNoExist_chain s Filename BufferSize base CmdText st)
    st (s = FM_NAME_IS_NOT_IN_USE) /\
  check_outcome
    (FM_VerifyFileNotOpen_chain s Filename BufferSize base CmdText st)
    st (s = FM_NAME_IS_NOT_IN_USE \/ s = FM_NAME_IS_FILE_CLOSED) /\
  check_outcome
    (FM_VerifyDirExists_chain s Filename BufferSize base CmdText st)
    st (s = FM_NAME_IS_DIRECTORY) /\
  check_outcome
    (FM_VerifyDirNoExist_chain s Filename BufferSize base CmdText st)
    st (s = FM_NAME_IS_NOT_IN_USE).
Proof.
  intros Hd Hs Hp. split_all.
  - outcome_tac Hd Hs Hp FM_VerifyFileExists_chain_fires.
  - outcome_tac Hd Hs Hp FM_VerifyFileClosed_chain_fires.
  - outcome_tac Hd Hs Hp FM_VerifyFileNoExist_chain_fires.
  - outcome_tac Hd Hs Hp FM_VerifyFileNotOpen_chain_fires.
  - outcome_tac Hd Hs Hp FM_VerifyDirExists_chain_fires.
  - outcome_tac Hd Hs Hp FM_VerifyDirNoExist_chain_fires.
Qed.

(** The classifier has sent no event: the outcome of the chain is the
    outcome of the check. *)
Lemma check_outcome_classified (chain : Z -> FM (bool * list byte))
    (Filename : list byte) (BufferSize : Z) (st : FM_State) (s : Z)
    (st1 : FM_State) (pass : Prop) :
  classified W Filename BufferSize st s st1 ->
  check_outcome (chain s st1) st1 pass ->
  check_outcome
    (bind (FM_GetFilenameState W Filename BufferSize false) chain st) st pass.
Proof.
  intros Hc (r & b & st2 & evs & Hrun & Hiff & Hlog & Hlen).
  rewrite (check_run chain _ _ _ _ _ Hc).
  destruct Hc as (_ & _ & (_ & _ & Hlog1 & _) & _).
  exists r, b, st2, evs. rewrite <- Hlog1. auto.
Qed.

(** C1. Whatever state the classifier gives a path, each of the six checks
    returns TRUE exactly on its pass states (FileExists on FileOpen and
    FileClosed, FileClosed on FileClosed, FileNoExist on NotInUse,
    FileNotOpen on NotInUse and FileClosed, DirExists on Directory,
    DirNoExist on NotInUse), and exactly one outcome fires: TRUE with no
    event, or FALSE with exactly one event. *)
Theorem checks_pass_exactly_on_their_states (Filename : list byte)
    (BufferSize base : Z) (CmdText : string) (st : FM_State) :
  states_distinct -> buffer_ok Filename BufferSize ->
  exists s st1,
    FM_GetFilenameState W Filename BufferSize false st = Some (s, st1) /\
    In s five_states /\
    check_outcome (FM_VerifyFileExists W Filename BufferSize base CmdText st)
      st (s = FM_NAME_IS_FILE_OPEN \/ s = FM_NAME_IS_FILE_CLOSED) /\
    check_outcome (FM_VerifyFileClosed W Filename BufferSize base CmdText st)
      st (s = FM_NAME_IS_FILE_CLOSED) /\
    check_outcome (FM_VerifyFileNoExist W Filename BufferSize base CmdText st)
      st (s = FM_NAME_IS_NOT_IN_USE) /\
    check_outcome (FM_VerifyFileNotOpen W Filename BufferSize base CmdText st)
      st (s = FM_NAME_IS_NOT_IN_USE \/ s = FM_NAME_IS_FILE_CLOSED) /\
    check_outcome (FM_VerifyDirExists W Filename BufferSize base CmdText st)
      st (s = FM_NAME_IS_DIRECTORY) /\
    check_outcome (FM_VerifyDirNoExist W Filename BufferSize base CmdText st)
      st (s = FM_NAME_IS_NOT_IN_USE).
Proof.
  intros Hd Hb.
  destruct (classified_total Filename BufferSize st Hb) as (s & st1 & Hc).
  assert (Hs : In s five_states) by apply Hc.
  assert (Hp : printable s Filename BufferSize)
    by (apply classified_printable; [exact Hb | apply Hc]).
  destruct (chains_pass_exactly_on_their_states s Filename BufferSize base
              CmdText st1 Hd Hs Hp) as (H1 & H2 & H3 & H4 & H5 & H6).
  exists s, st1. split; [apply Hc |]. split; [exact Hs |].
  split_all.
  - exact (check_outcome_classified _ _ _ _ _ _ _ Hc H1).
  - exact (check_outcome_classified _ _ _ _ _ _ _ Hc H2).
  - exact (check_outcome_classified _ _ _ _ _ _ _ Hc H3).
  - exact (check_outcome_classified _ _ _ _ _ _ _ Hc H4).
  - exact (check_outcome_classified _ _ _ _ _ _ _ Hc H5).
  - exact (check_outcome_classified _ _ _ _ _ _ _ Hc H6).
Qed.

(** Each of the six checks returns, and with the outcome of its chain on
    the state the classifier has given. *)
Lemma six_checks_result
    (check : list byte -> Z -> Z -> string -> FM (bool * list byte))
    (Filename : list byte) (BufferSize base : Z) (CmdText : string)
    (st : FM_State) :
  In check (six_checks W) -> buffer_ok Filename BufferSize ->
  exists s st1,
    classified W Filename BufferSize st s st1 /\
    chain_result s Filename BufferSize st1
      (check Filename BufferSize base CmdText st).
Proof.
  intros Hin Hb.
  destruct (classified_total Filename BufferSize st Hb) as (s & st1 & Hc).
  exists s, st1. split; [exact Hc |].
  assert (Hp : printable s Filename BufferSize)
    by (apply classified_printable; [exact Hb | apply Hc]).
  unfold six_checks in Hin. simpl in Hin.
  destruct Hin as [<- | [<- | [<- | [<- | [<- | [<- | []]]]]]].
  - unfold FM_VerifyFileClosed. erewrite check_run by exact Hc.
    by apply FM_VerifyFileClosed_chain_result.
  - unfold FM_VerifyFileExists. erewrite check_run by exact Hc.
    by apply FM_VerifyFileExists_chain_result.
  - unfold FM_VerifyFileNoExist. erewrite check_run by exact Hc.
    by apply FM_VerifyFileNoExist_chain_result.
  - unfold FM_VerifyFileNotOpen. erewrite check_run by exact Hc.
    by apply FM_VerifyFileNotOpen_chain_result.
  - unfold FM_VerifyDirExists. erewrite check_run by exact Hc.
    by apply FM_VerifyDirExists_chain_result.
  - unfold FM_VerifyDirNoExist. erewrite check_run by exact Hc.
    by apply FM_VerifyDirNoExist_chain_result.
Qed.

Lemma buffer_after_invalid (Filename : list byte) (BufferSize : Z) :
  buffer_after FM_NAME_IS_INVALID Filename BufferSize
  = <[Z.to_nat (BufferSize - 1) := x00]> Filename.
Proof. unfold buffer_after. by rewrite Z.eqb_refl. Qed.

Lemma buffer_after_valid (s : Z) (Filename : list byte) (BufferSize : Z) :
  s <> FM_NAME_IS_INVALID -> buffer_after s Filename BufferSize = Filename.
Proof.
  intros Hne. unfold buffer_after.
  by rewrite (proj2 (Z.eqb_neq _ _) Hne).
Qed.

(** Each check is the classifier followed by the chain at its place in
    [six_chains]. *)
Lemma six_checks_chains
    (check : list byte -> Z -> Z -> string -> FM (bool * list byte)) :
  In check (six_checks W) ->
  exists chain,
    In chain six_chains /\
    forall Filename BufferSize base CmdText st,
      check Filename BufferSize base CmdText st
      = bind (FM_GetFilenameState W Filename BufferSize false)
             (fun s => chain s Filename BufferSize base CmdText) st.
Proof.
  unfold six_checks, six_chains. simpl.
  intros [<- | [<- | [<- | [<- | [<- | [<- | []]]]]]];
    eexists; (split; [| intros; reflexivity]); auto 10.
Qed.

(** A chain that returns TRUE has not seen the Invalid state, has not
    touched the buffer and has sent nothing. *)
Lemma six_chains_pass
    (chain : Z -> list byte -> Z -> Z -> string -> FM (bool * list byte))
    (s : Z) (Filename b : list byte) (BufferSize base : Z)
    (CmdText : string) (st st2 : FM_State) :
  In chain six_chains ->
  chain s Filename BufferSize base CmdText st = Some (true, b, st2) ->
  s <> FM_NAME_IS_INVALID /\ b = Filename /\ st2 = st.
Proof.
  intros Hin. unfold six_chains in Hin. simpl in Hin.
  destruct Hin as [<- | [<- | [<- | [<- | [<- | [<- | []]]]]]];
    unfold FM_VerifyFileClosed_chain, FM_VerifyFileExists_chain,
      FM_VerifyFileNoExist_chain, FM_VerifyFileNotOpen_chain,
      FM_VerifyDirExists_chain, FM_VerifyDirNoExist_chain;
    destruct (Z.eqb_spec s FM_NAME_IS_INVALID);
    destruct (Z.eqb_spec s FM_NAME_IS_NOT_IN_USE);
    destruct (Z.eqb_spec s FM_NAME_IS_FILE_OPEN);
    destruct (Z.eqb_spec s FM_NAME_IS_FILE_CLOSED);
    destruct (Z.eqb_spec s FM_NAME_IS_DIRECTORY);
    simpl; unfold CFE_EVS_SendEvent; run_FM;
    repeat match goal with
           | |- context [match ?x with _ => _ end] => destruct x
           end;
    intros Heq; try discriminate; injection Heq as <- <-; auto.
Qed.

(** C6. A check that finds the state Invalid fails and has written the
    terminator at index [BufferSize - 1]; in every other state the buffer is
    untouched and the classifier has found its terminator at an offset in
    (0, BufferSize). So when one of the six checks fails, the buffer it
    prints in the event holds a terminator inside the first [BufferSize]
    bytes, and the event prints the string up to it. *)
Theorem failing_check_prints_terminated_buffer
    (check : list byte -> Z -> Z -> string -> FM (bool * list byte))
    (Filename : list byte) (BufferSize base : Z) (CmdText : string)
    (st : FM_State) :
  In check (six_checks W) -> buffer_ok Filename BufferSize ->
  exists s st1 r b st2,
    FM_GetFilenameState W Filename BufferSize false st = Some (s, st1) /\
    check Filename BufferSize base CmdText st = Some (r, b, st2) /\
    (s = FM_NAME_IS_INVALID ->
     r = false /\
     b = <[Z.to_nat (BufferSize - 1) := x00]> Filename /\
     b !! Z.to_nat (BufferSize - 1) = Some x00) /\
    (s <> FM_NAME_IS_INVALID ->
     b = Filename /\
     exists j, 0 < j < BufferSize /\ Filename !! Z.to_nat j = Some x00) /\
    (r = false ->
     terminated_within b BufferSize /\
     exists e name,
       st2 = log_event e st1 /\ EventType e = CFE_EVS_ERROR /\
       c_str b = Some name /\ In (ValStr name) (Values e)).
Proof.
  intros Hin Hb.
  destruct (six_checks_result check Filename BufferSize base CmdText st
              Hin Hb) as (s & st1 & Hc & Hres).
  destruct Hc as (Hrun & _ & _ & Hterm). destruct Hb as [Hrange Hmax].
  assert (Hlast : (<[Z.to_nat (BufferSize - 1) := x00]> Filename)
                    !! Z.to_nat (BufferSize - 1) = Some x00)
    by (apply list_lookup_insert_eq; lia).
  destruct Hres as [Hpass | (e & name & Hfail & Hty & Hname & Hval)].
  - assert (Hne : s <> FM_NAME_IS_INVALID).
    { destruct (six_checks_chains check Hin) as (chain & Hchain & Heq).
      rewrite Heq in Hpass. unfold bind in Hpass. rewrite Hrun in Hpass.
      apply (six_chains_pass chain s Filename Filename BufferSize base
               CmdText st1 st1 Hchain Hpass). }
    exists s, st1, true, Filename, st1.
    split; [exact Hrun |]. split; [exact Hpass |].
    split; [intros Heq; contradiction |].
    split; [intros _; split; [reflexivity | exact (Hterm Hne)] |].
    discriminate.
  - exists s, st1, false, (buffer_after s Filename BufferSize),
      (log_event e st1).
    split; [exact Hrun |]. split; [exact Hfail |].
    split; [intros ->; rewrite buffer_after_invalid; auto |].
    split; [intros Hne; rewrite buffer_after_valid by exact Hne; auto |].
    intros _. split; [| eauto 10].
    destruct (Z.eq_dec s FM_NAME_IS_INVALID) as [-> | Hne].
    + rewrite buffer_after_invalid. exists (BufferSize - 1).
      split; [lia | exact Hlast].
    + rewrite buffer_after_valid by exact Hne.
      destruct (Hterm Hne) as (j & Hj & Hz). exists j.
      split; [lia | exact Hz].
Qed.

(** [FM_VerifyNameValid] terminates an invalid name in the same way before
    it prints it, and reports at the base identifier itself. *)
Lemma FM_VerifyNameValid_run (Name : list byte) (BufferSize base : Z)
    (CmdText : string) (st : FM_State) :
  buffer_ok Name BufferSize ->
  exists s st1 b st2,
    FM_GetFilenameState W Name BufferSize true st = Some (s, st1) /\
    FM_VerifyNameValid W Name BufferSize base CmdText st = Some (s, b, st2) /\
    (s = FM_NAME_IS_INVALID ->
     b = <[Z.to_nat (BufferSize - 1) := x00]> Name /\
     exists e name,
       st2 = log_event e st1 /\ EventID e = base /\
       c_str b = Some name /\ In (ValStr name) (Values e)) /\
    (s <> FM_NAME_IS_INVALID -> b = Name /\ st2 = st1).
Proof.
  intros Hb.
  destruct (FM_GetFilenameState_run Name BufferSize true st Hb)
    as (s & st1 & Hrun & _).
  destruct Hb as [Hrange Hmax]. unfold INT32_MAX in Hmax.
  unfold FM_VerifyNameValid, bind at 1. rewrite Hrun.
  destruct (Z.eqb_spec s FM_NAME_IS_INVALID) as [-> | Hne].
  - rewrite u32_small by lia. rewrite buf_write_Some by lia.
    destruct (c_str_insert_terminator Name (Z.to_nat (BufferSize - 1)))
      as [name Hname]; [lia |].
    unfold CFE_EVS_SendEvent. run_FM. rewrite Hname. simpl.
    eexists _, _, _, _. split; [reflexivity |]. split; [reflexivity |].
    split; [| intros Hne; contradiction].
    intros _. split; [reflexivity |].
    eexists _, name. split_all; [reflexivity | reflexivity | exact Hname |].
    simpl. auto.
  - eexists _, _, _, _. split; [reflexivity |]. split; [reflexivity |].
    split; [intros Heq; contradiction | auto].
Qed.

(** C8. A call of the classifier without [FileInfoCmd] leaves
    [FileStatTime] and [FileStatSize] as they were, and so does each of the
    six checks. *)
Theorem stat_snapshot_kept_without_FileInfoCmd (Filename : list byte)
    (BufferSize : Z) (st : FM_State) :
  buffer_ok Filename BufferSize ->
  (exists s st1,
     FM_GetFilenameState W Filename BufferSize false st = Some (s, st1) /\
     FileStatTime (FM_GlobalData st1) = FileStatTime (FM_GlobalData st) /\
     FileStatSize (FM_GlobalData st1) = FileStatSize (FM_GlobalData st)) /\
  (forall check base CmdText,
     In check (six_checks W) ->
     exists r b st2,
       check Filename BufferSize base CmdText st = Some (r, b, st2) /\
       FileStatTime (FM_GlobalData st2) = FileStatTime (FM_GlobalData st) /\
       FileStatSize (FM_GlobalData st2) = FileStatSize (FM_GlobalData st)).
Proof.
  intros Hb. split.
  - destruct (classified_total Filename BufferSize st Hb)
      as (s & st1 & Hrun & _ & (Hg & _) & _).
    exists s, st1. rewrite Hg. auto.
  - intros check base CmdText Hin.
    destruct (six_checks_result check Filename BufferSize base CmdText st
                Hin Hb) as (s & st1 & Hc & Hres).
    destruct Hc as (_ & _ & (Hg & _) & _).
    destruct Hres as [Hpass | (e & name & Hfail & _)].
    + eexists _, _, _. split; [exact Hpass |]. rewrite Hg. auto.
    + eexists _, _, _. split; [exact Hfail |]. simpl. rewrite Hg. auto.
Qed.

(** ** Names that are valid *)

(** The classifier on a terminated, non-empty string that fits the buffer
    size and that [CFS_IsValidFilename] accepts: the state follows from
    [OS_stat] alone, a regular file being reported closed whatever streams
    are open. *)
Lemma FM_GetFilenameState_valid (Filename name : list byte) (BufferSize : Z)
    (FileInfoCmd : bool) (st : FM_State) :
  c_str Filename = Some name ->
  0 < Z.of_nat (length name) < BufferSize -> BufferSize <= INT32_MAX ->
  CFS_IsValidFilename W Filename (Z.of_nat (length name)) = true ->
  exists st1,
    FM_GetFilenameState W Filename BufferSize FileInfoCmd st
    = Some (match OS_stat W name with
            | Some FileStatus =>
                if OS_FILESTAT_ISDIR FileStatus then FM_NAME_IS_DIRECTORY
                else FM_NAME_IS_FILE_CLOSED
            | None => FM_NAME_IS_NOT_IN_USE
            end, st1) /\
    EVS_Log st1 = EVS_Log st /\
    (FileInfoCmd = false -> OS_stat W name = None -> st1 = st) /\
    (FileInfoCmd = true ->
     FileStatTime (FM_GlobalData st1)
     = match OS_stat W name with
       | Some FileStatus => u32 (OS_FILESTAT_TIME FileStatus)
       | None => 0
       end /\
     FileStatSize (FM_GlobalData st1)
     = match OS_stat W name with
       | Some FileStatus => u32 (OS_FILESTAT_SIZE FileStatus)
       | None => 0
       end).
Proof.
  intros Hs Hlen Hmax Hvalid.
  unfold FM_GetFilenameState. run_FM.
  rewrite (FM_ScanTerminator_c_str _ _ _ Hs) by lia.
  destruct (0 <? Z.of_nat (length name)) eqn:E1; [| lia].
  destruct (Z.of_nat (length name) <? BufferSize) eqn:E2; [| lia].
  simpl. rewrite Hvalid, Hs.
  destruct (OS_stat W name) as [FileStatus |].
  - destruct (OS_FILESTAT_ISDIR FileStatus), FileInfoCmd; simpl;
      eexists; split_all; try reflexivity; intros;
      try congruence; split; reflexivity.
  - destruct FileInfoCmd; simpl;
      eexists; split_all; try reflexivity; intros;
      try congruence; split; reflexivity.
Qed.

(** C7. For a valid, terminated path that [OS_stat] does not find, the
    classifier returns NotInUse, [FM_VerifyFileNoExist] returns TRUE and
    sends no event, and [FM_VerifyFileExists] returns FALSE and sends exactly
    one event, whose identifier is the base plus
    [FM_FNAME_DNE_EID_OFFSET], the +1 of the table. *)
Theorem absent_path_is_not_in_use (Filename name : list byte)
    (BufferSize base : Z) (CmdText : string) (st : FM_State) :
  states_distinct ->
  c_str Filename = Some name ->
  0 < Z.of_nat (length name) < BufferSize -> BufferSize <= INT32_MAX ->
  CFS_IsValidFilename W Filename (Z.of_nat (length name)) = true ->
  OS_stat W name = None ->
  (forall FileInfoCmd, exists st1,
     FM_GetFilenameState W Filename BufferSize FileInfoCmd st
     = Some (FM_NAME_IS_NOT_IN_USE, st1)) /\
  FM_VerifyFileNoExist W Filename BufferSize base CmdText st
  = Some (true, Filename, st) /\
  exists e,
    FM_VerifyFileExists W Filename BufferSize base CmdText st
    = Some (false, Filename, log_event e st) /\
    EventID e = u32 (base + FM_FNAME_DNE_EID_OFFSET) /\
    EventType e = CFE_EVS_ERROR /\
    (FM_FNAME_DNE_EID_OFFSET = 1 -> EventID e = u32 (base + 1)).
Proof.
  intros Hd Hs Hlen Hmax Hvalid Hstat.
  destruct (states_ne Hd) as (? & ? & ? & ? & ? & ? & ? & ? & ? & ?).
  assert (Hrun : FM_GetFilenameState W Filename BufferSize false st
                 = Some (FM_NAME_IS_NOT_IN_USE, st)).
  { destruct (FM_GetFilenameState_valid Filename name BufferSize false st
                Hs Hlen Hmax Hvalid) as (st1 & Hrun & _ & Hst & _).
    rewrite Hstat in Hrun. rewrite Hrun. by rewrite (Hst eq_refl Hstat). }
  split_all.
  - intros FileInfoCmd.
    destruct (FM_GetFilenameState_valid Filename name BufferSize FileInfoCmd
                st Hs Hlen Hmax Hvalid) as (st1 & Hrun1 & _).
    rewrite Hstat in Hrun1. eauto.
  - unfold FM_VerifyFileNoExist, bind. rewrite Hrun.
    unfold FM_VerifyFileNoExist_chain. decide_states. reflexivity.
  - unfold FM_VerifyFileExists, bind. rewrite Hrun.
    unfold FM_VerifyFileExists_chain. decide_states.
    unfold CFE_EVS_SendEvent. run_FM. rewrite Hs. simpl.
    eexists. split_all; try reflexivity.
    intros Hdne. simpl. by rewrite Hdne.
Qed.

(** ** The DirectoryAbsent check *)

(** The row that fires in [FM_VerifyDirNoExist]. *)
Lemma FM_VerifyDirNoExist_fires (Filename : list byte)
    (BufferSize base : Z) (CmdText : string) (st : FM_State) :
  states_distinct -> buffer_ok Filename BufferSize ->
  exists s st1 o,
    classified W Filename BufferSize st s st1 /\
    row_of DirNoExist_rows s = Some o /\
    fires o Filename (buffer_after s Filename BufferSize) base st1
      (FM_VerifyDirNoExist W Filename BufferSize base CmdText st).
Proof.
  intros Hd Hb.
  destruct (classified_total Filename BufferSize st Hb) as (s & st1 & Hc).
  destruct (FM_VerifyDirNoExist_chain_fires s Filename BufferSize base
              CmdText st1 Hd) as (o & Hrow & Hf).
  - apply Hc.
  - apply classified_printable; [exact Hb | apply Hc].
  - exists s, st1, o. split_all; auto.
    unfold FM_VerifyDirNoExist. by erewrite check_run by exact Hc.
Qed.

(** For a directory the four file checks and [FM_VerifyDirNoExist] use the
    same macro: whatever the header, their Directory rows have the same
    offset, which is 2 with the values of [DirNoExist_row_offsets]. *)
Lemma directory_row_shared :
  states_distinct ->
  row_of DirNoExist_rows FM_NAME_IS_DIRECTORY
  = Some (Fail FM_FNAME_ISDIR_EID_OFFSET) /\
  row_of FileExists_rows FM_NAME_IS_DIRECTORY
  = Some (Fail FM_FNAME_ISDIR_EID_OFFSET) /\
  row_of FileClosed_rows FM_NAME_IS_DIRECTORY
  = Some (Fail FM_FNAME_ISDIR_EID_OFFSET) /\
  row_of FileNoExist_rows FM_NAME_IS_DIRECTORY
  = Some (Fail FM_FNAME_ISDIR_EID_OFFSET) /\
  row_of FileNotOpen_rows FM_NAME_IS_DIRECTORY
  = Some (Fail FM_FNAME_ISDIR_EID_OFFSET) /\
  (DirNoExist_row_offsets ->
   row_of FileExists_rows FM_NAME_IS_DIRECTORY = Some (Fail 2)).
Proof.
  intros Hd.
  destruct (states_ne Hd) as (? & ? & ? & ? & ? & ? & ? & ? & ? & ?).
  simpl. decide_states. split_all; auto.
  intros (_ & _ & ->). reflexivity.
Qed.

(** C5. [FM_VerifyDirNoExist] passes on NotInUse without an event; on
    every other state it fails with exactly one event, whose identifier is
    the base plus [FM_FNAME_INVALID_EID_OFFSET] on Invalid, plus
    [FM_FNAME_DNE_EID_OFFSET] on FileOpen and FileClosed and plus
    [FM_FNAME_ISDIR_EID_OFFSET] on Directory: plus 0, plus 1 and plus 2 with
    the values the row gives the three macros. *)
Theorem DirNoExist_diagnostic_offsets (Filename : list byte)
    (BufferSize base : Z) (CmdText : string) (st : FM_State) :
  states_distinct -> DirNoExist_row_offsets ->
  buffer_ok Filename BufferSize ->
  exists s st1 r b st2,
    FM_GetFilenameState W Filename BufferSize false st = Some (s, st1) /\
    In s five_states /\
    FM_VerifyDirNoExist W Filename BufferSize base CmdText st
    = Some (r, b, st2) /\
    (s = FM_NAME_IS_NOT_IN_USE -> r = true /\ EVS_Log st2 = EVS_Log st) /\
    (s = FM_NAME_IS_INVALID ->
     r = false /\
     exists e, EVS_Log st2 = EVS_Log st ++ [e] /\
               EventID e = u32 (base + 0) /\
               EventID e = u32 (base + FM_FNAME_INVALID_EID_OFFSET)) /\
    (s = FM_NAME_IS_FILE_OPEN \/ s = FM_NAME_IS_FILE_CLOSED ->
     r = false /\
     exists e, EVS_Log st2 = EVS_Log st ++ [e] /\
               EventID e = u32 (base + 1) /\
               EventID e = u32 (base + FM_FNAME_DNE_EID_OFFSET)) /\
    (s = FM_NAME_IS_DIRECTORY ->
     r = false /\
     exists e, EVS_Log st2 = EVS_Log st ++ [e] /\
               EventID e = u32 (base + 2) /\
               EventID e = u32 (base + FM_FNAME_ISDIR_EID_OFFSET)).
Proof.
  intros Hd (Hinv & Hdne & Hisdir) Hb.
  destruct (FM_VerifyDirNoExist_fires Filename BufferSize base CmdText st
              Hd Hb) as (s & st1 & o & Hc & Hrow & Hf).
  destruct Hc as (Hrun & Hs & (_ & _ & Hlog & _) & _).
  destruct (states_ne Hd) as (? & ? & ? & ? & ? & ? & ? & ? & ? & ?).
  exists s, st1.
  unfold five_states in Hs. pose proof Hs as Hs'. simpl in Hs'.
  destruct Hs' as [<- | [<- | [<- | [<- | [<- | []]]]]];
    simpl in Hrow; revert Hrow; decide_states; intros [= <-]; simpl in Hf;
    [ destruct Hf as (e & name & Hf & Hid & _); exists false
    | exists true
    | destruct Hf as (e & name & Hf & Hid & _); exists false ..];
    eexists _, _; (split; [exact Hrun |]); (split; [exact Hs |]);
    (split; [exact Hf |]); split_all;
    intros Hyp; try congruence; try (destruct Hyp; congruence);
    (split; [reflexivity |]); simpl; try exact Hlog;
    exists e; rewrite Hlog, Hid;
    rewrite ?Hinv, ?Hdne, ?Hisdir; auto.
Qed.

(** ** The child task queue *)

(** C4. With the child semaphore invalid, [FM_VerifyChildTask] returns FALSE
    and sends exactly one event, the "disabled" one at the base plus
    [FM_CHILD_DISABLED_EID_OFFSET]; the count, the write index and the slots
    of the queue stay as they were, and so they do over the whole rejected
    attempt of the producer. *)
Theorem disabled_child_task_rejects_enqueue (base : Z) (CmdText : string)
    (payload : FM_ChildQueueEntry_t) (st : FM_State) :
  ChildSemaphore (FM_GlobalData st) = FM_CHILD_SEM_INVALID ->
  exists e st',
    FM_VerifyChildTask base CmdText st = Some (false, st') /\
    producer_attempt (base, CmdText, payload) st = Some (false, st') /\
    EVS_Log st' = EVS_Log st ++ [e] /\
    EventID e = u32 (base + FM_CHILD_DISABLED_EID_OFFSET) /\
    EventType e = CFE_EVS_ERROR /\
    ChildQueueCount (FM_GlobalData st') = ChildQueueCount (FM_GlobalData st) /\
    ChildWriteIndex (FM_GlobalData st') = ChildWriteIndex (FM_GlobalData st) /\
    ChildQueue (FM_GlobalData st') = ChildQueue (FM_GlobalData st) /\
    FM_GlobalData st' = FM_GlobalData st.
Proof.
  intros Hsem.
  assert (Hv : FM_VerifyChildTask base CmdText st
    = Some (false,
            log_event {| EventID := u32 (base + FM_CHILD_DISABLED_EID_OFFSET);
                         EventType := CFE_EVS_ERROR;
                         Spec := "%s error: child task is disabled";
                         Values := [ValText CmdText] |} st)).
  { unfold FM_VerifyChildTask. run_FM. rewrite Hsem, Z.eqb_refl.
    reflexivity. }
  eexists _, _. split; [exact Hv |].
  split; [unfold producer_attempt, bind; rewrite Hv; reflexivity |].
  simpl. split_all; reflexivity.
Qed.

(** One attempt of the producer on a well-formed queue: it returns, the
    queue stays well formed and the semaphore is not touched; it succeeds
    exactly when the child task is enabled and the queue is not full, and
    then the count grows by one without an event; a rejected attempt keeps
    the count and sends one event, "disabled" or "full". *)
Lemma producer_attempt_spec (base : Z) (CmdText : string)
    (payload : FM_ChildQueueEntry_t) (st : FM_State) :
  queue_depth_ok -> queue_ok (FM_GlobalData st) ->
  exists r st',
    producer_attempt (base, CmdText, payload) st = Some (r, st') /\
    queue_ok (FM_GlobalData st') /\
    ChildSemaphore (FM_GlobalData st') = ChildSemaphore (FM_GlobalData st) /\
    (r = true <->
     ChildSemaphore (FM_GlobalData st) <> FM_CHILD_SEM_INVALID /\
     ChildQueueCount (FM_GlobalData st) < FM_CHILD_QUEUE_DEPTH) /\
    (r = true ->
     ChildQueueCount (FM_GlobalData st')
     = ChildQueueCount (FM_GlobalData st) + 1 /\
     EVS_Log st' = EVS_Log st) /\
    (r = false ->
     ChildQueueCount (FM_GlobalData st') = ChildQueueCount (FM_GlobalData st) /\
     exists e,
       EVS_Log st' = EVS_Log st ++ [e] /\
       EventType e = CFE_EVS_ERROR /\
       EventID e
       = u32 (base + if ChildSemaphore (FM_GlobalData st)
                          =? FM_CHILD_SEM_INVALID
                     then FM_CHILD_DISABLED_EID_OFFSET
                     else FM_CHILD_Q_FULL_EID_OFFSET)).
Proof.
  intros Hq (Hcount & Hwrite & Hlen).
  unfold queue_depth_ok in Hq.
  unfold producer_attempt, FM_VerifyChildTask, FM_InvokeChildTask,
    CFE_EVS_SendEvent, queue_ok.
  run_FM.
  destruct (Z.eqb_spec (ChildSemaphore (FM_GlobalData st))
              FM_CHILD_SEM_INVALID) as [Hsem | Hsem]; simpl.
  { eexists false, _. split; [reflexivity |]. simpl.
    split_all; auto; try lia; try (intros; discriminate);
      try (split; [discriminate | tauto]).
    intros _. split; [reflexivity |]. eexists. split_all; reflexivity. }
  destruct (Z.eqb_spec (ChildQueueCount (FM_GlobalData st))
              FM_CHILD_QUEUE_DEPTH) as [Hfull | Hfull]; simpl.
  { eexists false, _. split; [reflexivity |]. simpl.
    split_all; auto; try lia; try (intros; discriminate);
      try (split; [discriminate | lia]).
    intros _. split; [reflexivity |]. eexists. split_all; reflexivity. }
  destruct (FM_CHILD_QUEUE_DEPTH <? ChildQueueCount (FM_GlobalData st))
    eqn:E1; [lia |].
  destruct (FM_CHILD_QUEUE_DEPTH <=? ChildWriteIndex (FM_GlobalData st))
    eqn:E2; [lia |].
  simpl.
  destruct (ChildWriteIndex (FM_GlobalData st)
            <? Z.of_nat (length (ChildQueue (FM_GlobalData st)))) eqn:E3;
    [| lia].
  simpl.
  assert (Hw : u8 (ChildWriteIndex (FM_GlobalData st) + 1)
               = ChildWriteIndex (FM_GlobalData st) + 1)
    by (unfold u8; apply Z.mod_small; lia).
  assert (Hc : u8 (ChildQueueCount (FM_GlobalData st) + 1)
               = ChildQueueCount (FM_GlobalData st) + 1)
    by (unfold u8; apply Z.mod_small; lia).
  rewrite Hw.
  destruct (FM_CHILD_QUEUE_DEPTH <=? ChildWriteIndex (FM_GlobalData st) + 1)
    eqn:E4; simpl;
    destruct (Z.eqb_spec (ChildSemaphore (FM_GlobalData st))
                FM_CHILD_SEM_INVALID) as [Hsem' | _];
    try contradiction; simpl;
    (eexists true, _; split; [reflexivity |]); simpl;
    rewrite Hc, !length_insert;
    split_all; auto; try lia; try (intros; discriminate);
    split; auto; lia.
Qed.

Lemma producer_attempts_app
    (cmds1 cmds2 : list (Z * string * FM_ChildQueueEntry_t))
    (rs1 rs2 : list bool) (st st1 st2 : FM_State) :
  producer_attempts cmds1 st = Some (rs1, st1) ->
  producer_attempts cmds2 st1 = Some (rs2, st2) ->
  producer_attempts (cmds1 ++ cmds2) st = Some (rs1 ++ rs2, st2).
Proof.
  revert rs1 st. induction cmds1 as [| cmd cmds1 IH]; intros rs1 st H1 H2.
  - injection H1 as <- <-. exact H2.
  - simpl in *. unfold bind in *.
    destruct (producer_attempt cmd st) as [[r st0] |]; [| discriminate].
    destruct (producer_attempts cmds1 st0) as [[rs st0'] |] eqn:E;
      [| discriminate].
    injection H1 as <- <-. unfold ret in *.
    by rewrite (IH rs st0 E H2).
Qed.

(** Whatever the producer attempts on a well-formed queue, every attempt
    returns and the queue stays well formed: the count stays within the
    depth. *)
Lemma producer_attempts_bounded
    (cmds : list (Z * string * FM_ChildQueueEntry_t)) (st : FM_State) :
  queue_depth_ok -> queue_ok (FM_GlobalData st) ->
  exists rs st',
    producer_attempts cmds st = Some (rs, st') /\
    queue_ok (FM_GlobalData st').
Proof.
  intros Hq. revert st. induction cmds as [| [[base CmdText] payload] cmds IH];
    intros st Hok.
  - exists [], st. auto.
  - destruct (producer_attempt_spec base CmdText payload st Hq Hok)
      as (r & st1 & Hrun & Hok1 & _).
    destruct (IH st1 Hok1) as (rs & st' & Hrest & Hok').
    exists (r :: rs), st'. split; [| exact Hok'].
    cbn [producer_attempts]. unfold bind. rewrite Hrun, Hrest. reflexivity.
Qed.

(** With the child task enabled, attempts that fit the free slots all
    succeed, silently, and the count grows by their number. *)
Lemma producer_attempts_fill
    (cmds : list (Z * string * FM_ChildQueueEntry_t)) (st : FM_State) :
  queue_depth_ok -> queue_ok (FM_GlobalData st) ->
  ChildSemaphore (FM_GlobalData st) <> FM_CHILD_SEM_INVALID ->
  ChildQueueCount (FM_GlobalData st) + Z.of_nat (length cmds)
  <= FM_CHILD_QUEUE_DEPTH ->
  exists st',
    producer_attempts cmds st = Some (replicate (length cmds) true, st') /\
    queue_ok (FM_GlobalData st') /\
    ChildSemaphore (FM_GlobalData st') = ChildSemaphore (FM_GlobalData st) /\
    ChildQueueCount (FM_GlobalData st')
    = ChildQueueCount (FM_GlobalData st) + Z.of_nat (length cmds) /\
    EVS_Log st' = EVS_Log st.
Proof.
  intros Hq. revert st. induction cmds as [| [[base CmdText] payload] cmds IH];
    intros st Hok Hsem Hroom.
  - exists st. simpl. split_all; auto. lia.
  - simpl length in *.
    destruct (producer_attempt_spec base CmdText payload st Hq Hok)
      as (r & st1 & Hrun & Hok1 & Hsem1 & Hiff & Htrue & _).
    assert (Hr : r = true) by (apply Hiff; split; [exact Hsem | lia]).
    subst r. destruct (Htrue eq_refl) as [Hcount Hlog].
    destruct (IH st1 Hok1) as (st' & Hrest & Hok' & Hsem' & Hcount' & Hlog');
      [congruence | lia |].
    exists st'. split_all; auto; try congruence; try lia.
    cbn [producer_attempts]. unfold bind. rewrite Hrun, Hrest. reflexivity.
Qed.

(** C3. From an empty queue with the child task enabled, the producer
    (verify, then invoke only on TRUE) fills the queue with its first
    [FM_CHILD_QUEUE_DEPTH] attempts, and the next attempt, with no dequeue in
    between, fails with exactly one event, the "full" one at the base plus
    [FM_CHILD_Q_FULL_EID_OFFSET]; whatever the producer goes on to attempt,
    [ChildQueueCount] does not exceed [FM_CHILD_QUEUE_DEPTH]. *)
Theorem queue_full_at_attempt_depth_plus_one
    (cmds : list (Z * string * FM_ChildQueueEntry_t))
    (base : Z) (CmdText : string) (payload : FM_ChildQueueEntry_t)
    (st : FM_State) :
  queue_depth_ok ->
  ChildSemaphore (FM_GlobalData st) <> FM_CHILD_SEM_INVALID ->
  ChildQueueCount (FM_GlobalData st) = 0 ->
  0 <= ChildWriteIndex (FM_GlobalData st) < FM_CHILD_QUEUE_DEPTH ->
  Z.of_nat (length (ChildQueue (FM_GlobalData st))) = FM_CHILD_QUEUE_DEPTH ->
  Z.of_nat (length cmds) = FM_CHILD_QUEUE_DEPTH ->
  (exists st' e,
     producer_attempts (cmds ++ [(base, CmdText, payload)]) st
     = Some (replicate (length cmds) true ++ [false], st') /\
     EVS_Log st' = EVS_Log st ++ [e] /\
     EventID e = u32 (base + FM_CHILD_Q_FULL_EID_OFFSET) /\
     EventType e = CFE_EVS_ERROR /\
     ChildQueueCount (FM_GlobalData st') = FM_CHILD_QUEUE_DEPTH) /\
  (forall more, exists rs st',
     producer_attempts more st = Some (rs, st') /\
     0 <= ChildQueueCount (FM_GlobalData st') <= FM_CHILD_QUEUE_DEPTH).
Proof.
  intros Hq Hsem Hempty Hwrite Hlen Hn.
  assert (Hok : queue_ok (FM_GlobalData st)).
  { unfold queue_ok. unfold queue_depth_ok in Hq. split_all; auto; lia. }
  split.
  - destruct (producer_attempts_fill cmds st Hq Hok Hsem)
      as (st1 & Hrun & Hok1 & Hsem1 & Hcount1 & Hlog1); [lia |].
    destruct (producer_attempt_spec base CmdText payload st1 Hq Hok1)
      as (r & st' & Hlast & Hok' & _ & Hiff & _ & Hfalse).
    assert (Hr : r = false).
    { destruct r; [| reflexivity]. destruct Hiff as [Hiff _].
      destruct (Hiff eq_refl) as [_ Hlt]. lia. }
    subst r. destruct (Hfalse eq_refl) as (Hcount' & e & Hlog' & Hty & Hid).
    exists st', e. split_all.
    + apply (producer_attempts_app _ _ _ _ _ st1 _ Hrun).
      cbn [producer_attempts]. unfold bind. rewrite Hlast. reflexivity.
    + congruence.
    + rewrite Hid, Hsem1.
      by rewrite (proj2 (Z.eqb_neq _ _) Hsem).
    + exact Hty.
    + lia.
  - intros more.
    destruct (producer_attempts_bounded more st Hq Hok)
      as (rs & st' & Hrun & Hcount' & _).
    eauto.
Qed.

(** *** The producer and the consumer, interleaved *)

Lemma FM_VerifyChildTask_frame (base : Z) (CmdText : string)
    (st st' : FM_State) (ok : bool) :
  FM_VerifyChildTask base CmdText st = Some (ok, st') ->
  ChildQueueCount (FM_GlobalData st') = ChildQueueCount (FM_GlobalData st) /\
  ChildWriteIndex (FM_GlobalData st') = ChildWriteIndex (FM_GlobalData st) /\
  ChildReadIndex (FM_GlobalData st') = ChildReadIndex (FM_GlobalData st) /\
  length (ChildQueue (FM_GlobalData st'))
  = length (ChildQueue (FM_GlobalData st)) /\
  (ok = true ->
   ChildQueueCount (FM_GlobalData st) < FM_CHILD_QUEUE_DEPTH /\
   ChildWriteIndex (FM_GlobalData st) < FM_CHILD_QUEUE_DEPTH).
Proof.
  unfold FM_VerifyChildTask, CFE_EVS_SendEvent. run_FM.
  destruct (ChildSemaphore (FM_GlobalData st) =? FM_CHILD_SEM_INVALID);
    simpl; [intros [= <- <-]; simpl; split_all; auto; discriminate |].
  destruct (Z.eqb_spec (ChildQueueCount (FM_GlobalData st))
              FM_CHILD_QUEUE_DEPTH);
    simpl; [intros [= <- <-]; simpl; split_all; auto; discriminate |].
  destruct (FM_CHILD_QUEUE_DEPTH <? ChildQueueCount (FM_GlobalData st))
    eqn:E1; simpl;
    [intros [= <- <-]; simpl; split_all; auto; discriminate |].
  destruct (FM_CHILD_QUEUE_DEPTH <=? ChildWriteIndex (FM_GlobalData st))
    eqn:E2; simpl;
    [intros [= <- <-]; simpl; split_all; auto; discriminate |].
  destruct (ChildWriteIndex (FM_GlobalData st)
            <? Z.of_nat (length (ChildQueue (FM_GlobalData st))));
    simpl; [| discriminate].
  intros [= <- <-]. simpl. rewrite length_insert. split_all; auto.
  intros _. lia.
Qed.

Lemma queue_step_inv (s s' : Phase * FM_State) :
  queue_depth_ok -> queue_inv s -> queue_step s s' -> queue_inv s'.
Proof.
  intros Hq ((Hcount & Hwrite & Hlen) & Hread & Hfree) Hstep.
  unfold queue_depth_ok in Hq. unfold queue_inv, queue_ok.
  destruct Hstep as [base CmdText st st' ok Hrun | payload st st' Hrun
                    | ph st st' entry Hrun]; simpl in *.
  - destruct (FM_VerifyChildTask_frame _ _ _ _ _ Hrun)
      as (Hc & Hw & Hr & Hl & Hok).
    rewrite Hc, Hw, Hr, Hl. split_all; auto; try lia.
    destruct ok; simpl; [| discriminate]. intros _. by apply Hok.
  - specialize (Hfree eq_refl).
    revert Hrun. unfold producer_populate, FM_InvokeChildTask. run_FM.
    assert (Hw : u8 (ChildWriteIndex (FM_GlobalData st) + 1)
                 = ChildWriteIndex (FM_GlobalData st) + 1)
      by (unfold u8; apply Z.mod_small; lia).
    assert (Hc : u8 (ChildQueueCount (FM_GlobalData st) + 1)
                 = ChildQueueCount (FM_GlobalData st) + 1)
      by (unfold u8; apply Z.mod_small; lia).
    rewrite Hw.
    destruct (FM_CHILD_QUEUE_DEPTH <=? ChildWriteIndex (FM_GlobalData st) + 1)
      eqn:E; simpl;
      destruct (ChildSemaphore (FM_GlobalData st) =? FM_CHILD_SEM_INVALID);
      simpl; intros [= <-]; simpl; rewrite Hc, length_insert;
      split_all; auto; try lia; discriminate.
  - revert Hrun. unfold consumer_dequeue. run_FM.
    destruct (0 <? ChildQueueCount (FM_GlobalData st)) eqn:E0;
      [| discriminate].
    destruct (ChildQueue (FM_GlobalData st)
                !! Z.to_nat (ChildReadIndex (FM_GlobalData st)));
      simpl; [| discriminate].
    assert (Hr : u8 (ChildReadIndex (FM_GlobalData st) + 1)
                 = ChildReadIndex (FM_GlobalData st) + 1)
      by (unfold u8; apply Z.mod_small; lia).
    assert (Hc : u8 (ChildQueueCount (FM_GlobalData st) - 1)
                 = ChildQueueCount (FM_GlobalData st) - 1)
      by (unfold u8; apply Z.mod_small; lia).
    rewrite Hr.
    destruct (FM_CHILD_QUEUE_DEPTH <=? ChildReadIndex (FM_GlobalData st) + 1)
      eqn:E; simpl; intros [= _ <-]; simpl; rewrite Hc;
      split_all; auto; try lia; intros Hph; specialize (Hfree Hph); lia.
Qed.

(** However the attempts of the producer and the dequeues of the consumer
    interleave, [ChildQueueCount] stays within [FM_CHILD_QUEUE_DEPTH]. *)
Lemma queue_count_bounded_interleaved (s s' : Phase * FM_State) :
  queue_depth_ok -> queue_inv s -> rtc queue_step s s' ->
  0 <= ChildQueueCount (FM_GlobalData s'.2) <= FM_CHILD_QUEUE_DEPTH.
Proof.
  intros Hq Hinv Hsteps.
  assert (Hinv' : queue_inv s').
  { induction Hsteps as [| s1 s2 s3 Hstep _ IH]; [exact Hinv |].
    apply IH. by apply (queue_step_inv s1 s2). }
  apply Hinv'.
Qed.

(** ** Regular files *)

(** C2, amended. For a valid, terminated path that [OS_stat] finds and that
    is no directory, the classifier returns FileClosed, whatever stream
    handles are open in the world: the enumeration with
    [SearchOpenFileData] is commented out, so [FileIsOpen] stays FALSE. *)
Theorem regular_file_is_reported_closed (Filename name : list byte)
    (BufferSize : Z) (FileInfoCmd : bool) (FileStatus : os_fstat_t)
    (st : FM_State) :
  c_str Filename = Some name ->
  0 < Z.of_nat (length name) < BufferSize -> BufferSize <= INT32_MAX ->
  CFS_IsValidFilename W Filename (Z.of_nat (length name)) = true ->
  OS_stat W name = Some FileStatus ->
  OS_FILESTAT_ISDIR FileStatus = false ->
  exists st1,
    FM_GetFilenameState W Filename BufferSize FileInfoCmd st
    = Some (FM_NAME_IS_FILE_CLOSED, st1) /\
    FileIsOpen st1 = false.
Proof.
  intros Hs Hlen Hmax Hvalid Hstat Hreg.
  unfold FM_GetFilenameState. run_FM.
  rewrite (FM_ScanTerminator_c_str _ _ _ Hs) by lia.
  destruct (0 <? Z.of_nat (length name)) eqn:E1; [| lia].
  destruct (Z.of_nat (length name) <? BufferSize) eqn:E2; [| lia].
  simpl. rewrite Hvalid, Hs, Hstat, Hreg.
  destruct FileInfoCmd; simpl; eexists; split; reflexivity.
Qed.

(** ** The path separator *)

Lemma c_str_lookup (b s : list byte) (k : nat) :
  c_str b = Some s -> (k < length s)%nat -> b !! k = s !! k.
Proof.
  revert s k. induction b as [| c b IH]; intros s k Hs Hk; [discriminate |].
  simpl in Hs. destruct (Byte.eqb c x00).
  - injection Hs as <-. simpl in Hk. lia.
  - destruct (c_str b) as [s' |] eqn:Es; [| discriminate].
    injection Hs as <-. destruct k as [| k]; [reflexivity |].
    simpl in *. apply IH; [reflexivity | lia].
Qed.

Lemma c_str_length (b s : list byte) :
  c_str b = Some s -> (length s < length b)%nat.
Proof.
  intros Hs. destruct (c_str_Some _ _ Hs) as [Hz _].
  by apply lookup_lt_Some in Hz.
Qed.

(** The string of the buffer once the separator and the new terminator are
    stored behind it. *)
Lemma c_str_append_sep (b s : list byte) :
  c_str b = Some s -> (length s + 1 < length b)%nat ->
  c_str (<[S (length s) := x00]> (<[length s := "/"%byte]> b))
  = Some (s ++ ["/"%byte]).
Proof.
  revert s. induction b as [| c b IH]; intros s Hs Hlen; [discriminate |].
  simpl in Hs. destruct (Byte.eqb c x00) eqn:E.
  - injection Hs as <-. simpl in *.
    destruct b as [| d b]; [simpl in Hlen; lia |]. reflexivity.
  - destruct (c_str b) as [s' |] eqn:Es; [| discriminate].
    injection Hs as <-. simpl in *. rewrite E.
    rewrite (IH s' eq_refl) by lia. reflexivity.
Qed.

Lemma strncat_sep_run (b s : list byte) :
  c_str b = Some s -> (length s + 1 < length b)%nat ->
  strncat_sep b
  = Some (<[S (length s) := x00]> (<[length s := "/"%byte]> b)).
Proof.
  intros Hs Hlen. unfold strncat_sep, strlen. rewrite Hs.
  rewrite buf_write_Some by lia.
  rewrite buf_write_Some by (rewrite length_insert; lia).
  rewrite Nat2Z.id. replace (Z.to_nat (Z.of_nat (length s) + 1))
    with (S (length s)) by lia.
  reflexivity.
Qed.

(** [FM_AppendPathSep] on a non-empty terminated string: the test on the
    last character, then the test on the room. *)
Lemma FM_AppendPathSep_run (Directory s : list byte) (BufferSize : Z) :
  c_str Directory = Some s -> s <> [] ->
  Z.of_nat (length s) < 2 ^ 32 ->
  FM_AppendPathSep Directory BufferSize
  = if bool_decide (last s = Some "/"%byte) then Some Directory
    else if Z.of_nat (length s) <? u32 (BufferSize - 1)
         then strncat_sep Directory
         else Some Directory.
Proof.
  intros Hs Hne Hlen.
  assert (Hpos : (0 < length s)%nat) by (destruct s; [done | simpl; lia]).
  unfold FM_AppendPathSep, strlen. rewrite Hs.
  rewrite (u32_small (Z.of_nat (length s))) by lia.
  rewrite u32_small by lia.
  unfold buf_read. destruct (0 <=? Z.of_nat (length s) - 1) eqn:E0; [| lia].
  replace (Z.to_nat (Z.of_nat (length s) - 1)) with (pred (length s)) by lia.
  rewrite (c_str_lookup _ _ _ Hs) by lia.
  rewrite <- last_lookup.
  destruct (last s) as [c |] eqn:El.
  2:{ apply last_None in El. contradiction. }
  destruct (Byte.eqb c "/"%byte) eqn:E.
  - apply byte_eqb_true in E. subst c.
    by rewrite bool_decide_eq_true_2.
  - apply byte_eqb_false in E.
    rewrite bool_decide_eq_false_2 by congruence. reflexivity.
Qed.

(** C9. On a non-empty string terminated inside its buffer, a second
    [FM_AppendPathSep] gives the buffer of the first. After the first the
    string ends with the separator whenever the separator and the
    terminator have room in [BufferSize], and the buffer is unchanged when
    they have not. *)
Theorem FM_AppendPathSep_idempotent (Directory s : list byte)
    (BufferSize : Z) :
  c_str Directory = Some s -> s <> [] ->
  Z.of_nat (length s) < BufferSize ->
  BufferSize <= Z.of_nat (length Directory) ->
  BufferSize < 2 ^ 32 ->
  exists d1,
    FM_AppendPathSep Directory BufferSize = Some d1 /\
    FM_AppendPathSep d1 BufferSize = Some d1 /\
    (Z.of_nat (length s) + 1 < BufferSize ->
     exists s1, c_str d1 = Some s1 /\ last s1 = Some "/"%byte) /\
    (~ Z.of_nat (length s) + 1 < BufferSize -> d1 = Directory) /\
    (d1 = Directory \/ c_str d1 = Some (s ++ ["/"%byte])).
Proof.
  intros Hs Hne Hlen Hbuf Hmax.
  pose proof (FM_AppendPathSep_run Directory s BufferSize Hs Hne) as Hrun.
  rewrite (u32_small (BufferSize - 1)) in Hrun by lia.
  destruct (bool_decide (last s = Some "/"%byte)) eqn:Esep.
  - apply bool_decide_eq_true_1 in Esep.
    exists Directory. rewrite Hrun by lia. split_all; auto.
    intros _. eauto.
  - destruct (Z.of_nat (length s) <? BufferSize - 1) eqn:Eroom.
    + apply Z.ltb_lt in Eroom.
      rewrite strncat_sep_run with (s := s) in Hrun by (auto; lia).
      pose proof (c_str_append_sep Directory s Hs ltac:(lia)) as Hs1.
      eexists. split; [apply Hrun; lia |]. split_all.
      * rewrite (FM_AppendPathSep_run _ (s ++ ["/"%byte]) BufferSize Hs1).
        -- rewrite last_snoc. by rewrite bool_decide_eq_true_2.
        -- by destruct s.
        -- rewrite length_app. simpl. lia.
      * intros _. exists (s ++ ["/"%byte]). split; [exact Hs1 |].
        apply last_snoc.
      * intros Hno. lia.
      * right. exact Hs1.
    + apply Z.ltb_ge in Eroom.
      exists Directory. rewrite Hrun by lia. split_all; auto.
      intros Hroom. lia.
Qed.

(** ** Open files *)

Lemma stream_objects_cons_stream (ObjId : Z) (ids : list Z) :
  OS_IdentifyObject W ObjId = OS_OBJECT_TYPE_OS_STREAM ->
  filter (fun i => OS_IdentifyObject W i = OS_OBJECT_TYPE_OS_STREAM)
         (ObjId :: ids)
  = ObjId :: filter (fun i => OS_IdentifyObject W i = OS_OBJECT_TYPE_OS_STREAM)
                    ids.
Proof. intros H. by rewrite filter_cons_True. Qed.

Lemma stream_objects_cons_other (ObjId : Z) (ids : list Z) :
  OS_IdentifyObject W ObjId <> OS_OBJECT_TYPE_OS_STREAM ->
  filter (fun i => OS_IdentifyObject W i = OS_OBJECT_TYPE_OS_STREAM)
         (ObjId :: ids)
  = filter (fun i => OS_IdentifyObject W i = OS_OBJECT_TYPE_OS_STREAM) ids.
Proof. intros H. by rewrite filter_cons_False. Qed.

Lemma with_OpenFileCount_twice (n m : Z) (st : FM_State) :
  with_OpenFileCount n (with_OpenFileCount m st) = with_OpenFileCount n st.
Proof. reflexivity. Qed.

(** With the NULL pointer the enumeration only counts. *)
Lemma ForEach_LoadOpenFileData_NULL (ids : list Z) (n : Z) (st : FM_State) :
  0 <= n < 2 ^ 32 ->
  ForEach_LoadOpenFileData W ids None (with_OpenFileCount n st)
  = Some (None,
          with_OpenFileCount
            (u32 (n + Z.of_nat (length
               (filter (fun i => OS_IdentifyObject W i
                                 = OS_OBJECT_TYPE_OS_STREAM) ids)))) st).
Proof.
  revert n. induction ids as [| ObjId ids IH]; intros n Hn.
  - simpl. rewrite Z.add_0_r, u32_small by exact Hn. reflexivity.
  - cbn [ForEach_LoadOpenFileData]. unfold bind at 1.
    unfold LoadOpenFileData.
    destruct (Z.eqb_spec (OS_IdentifyObject W ObjId)
                OS_OBJECT_TYPE_OS_STREAM) as [Hs | Hs].
    + rewrite stream_objects_cons_stream by exact Hs. run_FM.
      rewrite with_OpenFileCount_twice.
      rewrite IH by (unfold u32; apply Z.mod_pos_bound; lia).
      do 3 f_equal. unfold u32.
      rewrite Zplus_mod_idemp_l. f_equal. lia.
    + rewrite stream_objects_cons_other by exact Hs. run_FM.
      by apply IH.
Qed.

Lemma strncpy_bytes_Some (src : list byte) (n : nat) :
  (n <= length src)%nat ->
  exists bs, strncpy_bytes src n = Some bs /\ length bs = n.
Proof.
  revert src. induction n as [| n IH]; intros src Hn;
    [exists []; split; reflexivity |].
  destruct src as [| c src]; [simpl in Hn; lia |].
  simpl. destruct (Byte.eqb c x00).
  - eexists. split; [reflexivity |]. simpl. by rewrite length_replicate.
  - destruct (IH src) as (bs & -> & Hlen); [simpl in Hn; lia |].
    eexists. split; [reflexivity |]. simpl. by rewrite Hlen.
Qed.

Lemma strncpy_Some (dst src : list byte) (n : Z) :
  0 <= n -> Z.of_nat (length dst) = n -> Z.of_nat (length src) = n ->
  exists r, strncpy dst src n = Some r /\ Z.of_nat (length r) = n.
Proof.
  intros Hn Hd Hs. unfold strncpy.
  destruct (0 <=? n) eqn:E1; [| lia].
  destruct (n <=? Z.of_nat (length dst)) eqn:E2; [| lia].
  destruct (strncpy_bytes_Some src (Z.to_nat n)) as (bs & -> & Hlen); [lia |].
  eexists. split; [reflexivity |].
  rewrite length_app, length_drop. lia.
Qed.

(** The callback on one object when an array is given: a stream is counted
    whether or not its information can be read; a record is written only
    for a stream, only at the index of the count, and only when the
    information can be read. *)
Lemma LoadOpenFileData_array (ObjId : Z) (arr : list FM_OpenFilesEntry_t)
    (n : Z) (st : FM_State) :
  world_ok W -> records_ok arr ->
  0 <= n ->
  (OS_IdentifyObject W ObjId = OS_OBJECT_TYPE_OS_STREAM ->
   n < Z.of_nat (length arr) /\ n + 1 < 2 ^ 32) ->
  exists arr',
    LoadOpenFileData W ObjId (Some arr) (with_OpenFileCount n st)
    = Some (Some arr',
            with_OpenFileCount
              (if OS_IdentifyObject W ObjId =? OS_OBJECT_TYPE_OS_STREAM
               then n + 1 else n) st) /\
    records_ok arr' /\
    length arr' = length arr /\
    (forall i, i <> Z.to_nat n -> arr' !! i = arr !! i) /\
    (OS_FDGetInfo W ObjId = None -> arr' = arr) /\
    (OS_IdentifyObject W ObjId <> OS_OBJECT_TYPE_OS_STREAM -> arr' = arr).
Proof.
  intros (Hp & Ha & Hpath & Happ) Hrec Hn Hroom.
  unfold LoadOpenFileData.
  destruct (Z.eqb_spec (OS_IdentifyObject W ObjId) OS_OBJECT_TYPE_OS_STREAM)
    as [Hs | Hs].
  2:{ exists arr. unfold ret. split_all; auto. }
  destruct (Hroom Hs) as [Hlt Hmax].
  destruct (OS_FDGetInfo W ObjId) as [FdProp |] eqn:Einfo.
  2:{ exists arr. run_FM. rewrite u32_small by lia.
      split_all; auto; congruence. }
  destruct (arr !! Z.to_nat n) as [e |] eqn:Ee.
  2:{ apply lookup_ge_None in Ee. lia. }
  pose proof (Forall_lookup_1 _ _ _ _ Hrec Ee) as [Hname Happname].
  destruct (strncpy_Some (LogicalName e) (Path FdProp) OS_MAX_PATH_LEN)
    as (name & Hcopy & Hlen); [exact Hp | exact Hname | eauto |].
  run_FM. rewrite Ee. simpl. rewrite Hcopy. simpl.
  destruct (CFE_ES_GetTaskInfo W (User FdProp)) as [TaskInfo |] eqn:Etask.
  - destruct (strncpy_Some (AppName e) (TaskInfo_AppName TaskInfo)
                OS_MAX_API_NAME)
      as (app & Hcopy2 & Hlen2); [exact Ha | exact Happname | eauto |].
    simpl. rewrite Hcopy2. simpl. rewrite u32_small by lia.
    eexists. split; [reflexivity |]. split_all.
    + apply Forall_insert; [exact Hrec |]. simpl. auto.
    + apply length_insert.
    + intros i Hi. by apply list_lookup_insert_ne.
    + discriminate.
    + contradiction.
  - simpl. rewrite u32_small by lia.
    eexists. split; [reflexivity |]. split_all.
    + apply Forall_insert; [exact Hrec |]. simpl. auto.
    + apply length_insert.
    + intros i Hi. by apply list_lookup_insert_ne.
    + discriminate.
    + contradiction.
Qed.

(** The enumeration on an array with room for every stream: it returns, the
    count grows by the number of streams, the records beyond the streams
    are untouched, and so is the record of a stream whose information
    cannot be read. *)
Lemma ForEach_LoadOpenFileData_array (ids : list Z)
    (arr : list FM_OpenFilesEntry_t) (n : Z) (st : FM_State) :
  let streams :=
    filter (fun i => OS_IdentifyObject W i = OS_OBJECT_TYPE_OS_STREAM) ids in
  world_ok W -> records_ok arr ->
  0 <= n ->
  n + Z.of_nat (length streams) <= Z.of_nat (length arr) ->
  n + Z.of_nat (length streams) < 2 ^ 32 ->
  exists arr',
    ForEach_LoadOpenFileData W ids (Some arr) (with_OpenFileCount n st)
    = Some (Some arr',
            with_OpenFileCount (n + Z.of_nat (length streams)) st) /\
    records_ok arr' /\
    length arr' = length arr /\
    (forall i, (i < Z.to_nat n \/ Z.to_nat n + length streams <= i)%nat ->
               arr' !! i = arr !! i) /\
    (forall k ObjId,
       streams !! k = Some ObjId -> OS_FDGetInfo W ObjId = None ->
       arr' !! (Z.to_nat n + k)%nat = arr !! (Z.to_nat n + k)%nat).
Proof.
  intros streams Hw. subst streams.
  revert arr n st. induction ids as [| ObjId ids IH];
    intros arr n st Hrec Hn Hroom Hmax.
  - exists arr. simpl. rewrite Z.add_0_r. split_all; auto;
      intros k ObjId Hk; discriminate.
  - cbn [ForEach_LoadOpenFileData]. unfold bind at 1.
    destruct (Z.eq_dec (OS_IdentifyObject W ObjId) OS_OBJECT_TYPE_OS_STREAM)
      as [Hs | Hs].
    + rewrite stream_objects_cons_stream in * by exact Hs.
      simpl length in *.
      destruct (LoadOpenFileData_array ObjId arr n st Hw Hrec Hn)
        as (arr1 & Hstep & Hrec1 & Hlen1 & Hframe1 & Hnone1 & _);
        [lia |].
      rewrite Hstep. rewrite (proj2 (Z.eqb_eq _ _) Hs).
      destruct (IH arr1 (n + 1) st Hrec1)
        as (arr' & Hrun & Hrec' & Hlen' & Hframe' & Hnone'); [lia .. |].
      exists arr'. split_all.
      * rewrite Hrun. do 3 f_equal. lia.
      * exact Hrec'.
      * congruence.
      * intros i Hi. rewrite Hframe' by lia. apply Hframe1. lia.
      * intros [| k] id Hk Hinfo.
        -- injection Hk as <-. rewrite Hframe' by lia.
           by rewrite (Hnone1 Hinfo).
        -- simpl in Hk. specialize (Hnone' k id Hk Hinfo).
           replace (Z.to_nat n + S k)%nat
             with (Z.to_nat (n + 1) + k)%nat by lia.
           rewrite Hnone'. apply Hframe1. lia.
    + rewrite stream_objects_cons_other in * by exact Hs.
      destruct (LoadOpenFileData_array ObjId arr n st Hw Hrec Hn)
        as (arr1 & Hstep & _ & _ & _ & _ & Hsame); [contradiction |].
      rewrite (Hsame Hs) in Hstep. rewrite Hstep.
      rewrite (proj2 (Z.eqb_neq _ _) Hs).
      by apply IH.
Qed.

(** The count [FM_GetOpenFilesData] returns, with and without an array. *)
Lemma FM_GetOpenFilesData_NULL (st : FM_State) :
  FM_GetOpenFilesData W None st
  = Some (u32 (Z.of_nat (length (stream_objects W))), None,
          with_OpenFileCount (u32 (Z.of_nat (length (stream_objects W)))) st).
Proof.
  unfold FM_GetOpenFilesData, set_OpenFileCount, bind at 1.
  unfold bind at 1.
  rewrite ForEach_LoadOpenFileData_NULL by lia. reflexivity.
Qed.

Lemma FM_GetOpenFilesData_array (arr : list FM_OpenFilesEntry_t)
    (st : FM_State) :
  world_ok W -> records_ok arr ->
  Z.of_nat (length (stream_objects W)) <= Z.of_nat (length arr) ->
  Z.of_nat (length (stream_objects W)) < 2 ^ 32 ->
  exists arr',
    FM_GetOpenFilesData W (Some arr) st
    = Some (Z.of_nat (length (stream_objects W)), Some arr',
            with_OpenFileCount (Z.of_nat (length (stream_objects W))) st) /\
    length arr' = length arr /\
    (forall k ObjId,
       stream_objects W !! k = Some ObjId -> OS_FDGetInfo W ObjId = None ->
       arr' !! k = arr !! k) /\
    (forall i, (length (stream_objects W) <= i)%nat -> arr' !! i = arr !! i).
Proof.
  intros Hw Hrec Hroom Hmax.
  destruct (ForEach_LoadOpenFileData_array (OS_ForEachObject W) arr 0 st
              Hw Hrec)
    as (arr' & Hrun & _ & Hlen & Hframe & Hnone);
    [lia | exact Hroom | exact Hmax |].
  exists arr'. split_all.
  - unfold FM_GetOpenFilesData, set_OpenFileCount, bind at 1.
    unfold bind at 1. rewrite Hrun. reflexivity.
  - exact Hlen.
  - intros k ObjId Hk Hinfo. apply (Hnone k ObjId Hk Hinfo).
  - intros i Hi. apply Hframe. right. simpl. exact Hi.
Qed.

(** ** More on the classifier *)

(** What a finished scan tells: every byte before the index it returns is no
    terminator, and an index short of the end holds one. *)
Lemma FM_ScanTerminator_first (Filename : list byte) (n : nat) (i j : Z) :
  0 <= i ->
  FM_ScanTerminator n Filename i = Some j ->
  i <= j <= i + Z.of_nat n /\
  (forall k, (Z.to_nat i <= k < Z.to_nat j)%nat ->
             exists c, Filename !! k = Some c /\ c <> x00) /\
  (j < i + Z.of_nat n -> Filename !! Z.to_nat j = Some x00).
Proof.
  revert i. induction n as [| n IH]; intros i Hi Hscan.
  - simpl in Hscan. injection Hscan as <-. split_all; intros; lia.
  - simpl in Hscan. unfold buf_read in Hscan.
    destruct (0 <=? i) eqn:E0; [| lia].
    destruct (Filename !! Z.to_nat i) as [c |] eqn:Ec; [| discriminate].
    destruct (Byte.eqb c x00) eqn:E.
    + apply byte_eqb_true in E. subst c. injection Hscan as <-.
      split_all; try lia; intros _; exact Ec.
    + destruct (i + 1 <=? INT32_MAX); [| discriminate].
      destruct (IH (i + 1) ltac:(lia) Hscan) as (Hr & Hnz & Hz).
      split_all; try lia.
      * intros k Hk. destruct (Nat.eq_dec k (Z.to_nat i)) as [-> | Hne].
        -- exists c. split; [exact Ec |]. by apply byte_eqb_false.
        -- apply Hnz. lia.
      * intros Hlt. apply Hz. lia.
Qed.

Lemma c_str_first_terminator (b : list byte) (j : nat) :
  b !! j = Some x00 ->
  (forall k, (k < j)%nat -> exists c, b !! k = Some c /\ c <> x00) ->
  exists s, c_str b = Some s /\ length s = j.
Proof.
  revert j. induction b as [| c b IH]; intros j Hz Hnz; [discriminate |].
  destruct j as [| j].
  - simpl in Hz. injection Hz as ->. exists []. simpl. auto.
  - destruct (Hnz O ltac:(lia)) as (c' & Hc' & Hne). simpl in Hc'.
    injection Hc' as <-. apply byte_eqb_false in Hne.
    destruct (IH j) as (s & Hs & Hlen).
    + exact Hz.
    + intros k Hk. apply (Hnz (S k)). lia.
    + exists (c :: s). simpl. rewrite Hne, Hs. split; [reflexivity |].
      simpl. by rewrite Hlen.
Qed.

(** A state other than Invalid comes from a name the classifier accepts;
    no assumption on the buffer or on the state codes. *)
Lemma FM_GetFilenameState_accepts (Filename : list byte) (BufferSize : Z)
    (FileInfoCmd : bool) (st st1 : FM_State) (s : Z) :
  FM_GetFilenameState W Filename BufferSize FileInfoCmd st = Some (s, st1) ->
  s <> FM_NAME_IS_INVALID ->
  exists name, valid_name W Filename BufferSize name.
Proof.
  unfold FM_GetFilenameState. run_FM.
  destruct (FM_ScanTerminator (Z.to_nat BufferSize) Filename 0)
    as [j |] eqn:Escan; [| discriminate].
  destruct ((0 <? j) && (j <? BufferSize)) eqn:Ev.
  2:{ intros [= <- <-] Hne. contradiction. }
  apply andb_true_iff in Ev as [Hj0 HjB].
  apply Z.ltb_lt in Hj0. apply Z.ltb_lt in HjB.
  destruct (CFS_IsValidFilename W Filename j) eqn:Ecfs.
  2:{ intros [= <- <-] Hne. contradiction. }
  intros _ _.
  destruct (FM_ScanTerminator_first Filename (Z.to_nat BufferSize) 0 j
              ltac:(lia) Escan) as (_ & Hnz & Hz).
  destruct (c_str_first_terminator Filename (Z.to_nat j)) as (name & Hs & Hl).
  - apply Hz. lia.
  - intros k Hk. apply Hnz. lia.
  - exists name. unfold valid_name. rewrite Hl.
    replace (Z.of_nat (Z.to_nat j)) with j by lia. auto.
Qed.

(** The classifier never returns FileOpen: whatever it returns is one of
    the other four states. *)
Lemma FM_GetFilenameState_four (Filename : list byte) (BufferSize : Z)
    (FileInfoCmd : bool) (st st1 : FM_State) (s : Z) :
  FM_GetFilenameState W Filename BufferSize FileInfoCmd st = Some (s, st1) ->
  In s four_states.
Proof.
  unfold FM_GetFilenameState, four_states. run_FM.
  destruct (FM_ScanTerminator (Z.to_nat BufferSize) Filename 0)
    as [j |]; [| discriminate].
  destruct (if (0 <? j) && (j <? BufferSize)
            then CFS_IsValidFilename W Filename j else false).
  2:{ intros [= <- <-]. auto. }
  destruct (c_str Filename) as [name |]; [| discriminate]. simpl.
  destruct (OS_stat W name) as [FileStatus |].
  - destruct (OS_FILESTAT_ISDIR FileStatus), FileInfoCmd; simpl;
      intros [= <- <-]; auto.
  - destruct FileInfoCmd; simpl; intros [= <- <-]; auto.
Qed.

(** X1. The classifier against [OS_stat]: Invalid exactly for the names it does
    not accept, and for an accepted name NotInUse, Directory or FileClosed
    exactly as [OS_stat] fails, finds a directory or finds something else;
    FileOpen is never returned. *)
Theorem classifier_follows_OS_stat (Filename : list byte) (BufferSize : Z)
    (FileInfoCmd : bool) (st : FM_State) :
  states_distinct -> buffer_ok Filename BufferSize ->
  exists s st1,
    FM_GetFilenameState W Filename BufferSize FileInfoCmd st = Some (s, st1) /\
    (s = FM_NAME_IS_INVALID <->
     ~ exists name, valid_name W Filename BufferSize name) /\
    (forall name,
       valid_name W Filename BufferSize name ->
       (s = FM_NAME_IS_NOT_IN_USE <-> OS_stat W name = None) /\
       (s = FM_NAME_IS_DIRECTORY <->
        exists FileStatus, OS_stat W name = Some FileStatus /\
                           OS_FILESTAT_ISDIR FileStatus = true) /\
       (s = FM_NAME_IS_FILE_CLOSED <->
        exists FileStatus, OS_stat W name = Some FileStatus /\
                           OS_FILESTAT_ISDIR FileStatus = false)) /\
    s <> FM_NAME_IS_FILE_OPEN.
Proof.
  intros Hd Hb.
  destruct (states_ne Hd) as (? & ? & ? & ? & ? & ? & ? & ? & ? & ?).
  destruct (FM_GetFilenameState_run Filename BufferSize FileInfoCmd st Hb)
    as (s & st1 & Hrun & _).
  destruct Hb as [_ Hmax].
  assert (Hval : forall name, valid_name W Filename BufferSize name ->
            s = match OS_stat W name with
                | Some FileStatus =>
                    if OS_FILESTAT_ISDIR FileStatus then FM_NAME_IS_DIRECTORY
                    else FM_NAME_IS_FILE_CLOSED
                | None => FM_NAME_IS_NOT_IN_USE
                end).
  { intros name (Hs & Hlen & Hcfs).
    destruct (FM_GetFilenameState_valid Filename name BufferSize FileInfoCmd
                st Hs Hlen Hmax Hcfs) as (st1' & Hrun' & _).
    congruence. }
  exists s, st1. split; [exact Hrun |]. split_all.
  - split.
    + intros -> [name Hn]. specialize (Hval name Hn).
      destruct (OS_stat W name) as [fs |];
        [destruct (OS_FILESTAT_ISDIR fs) |]; congruence.
    + intros Hno. destruct (Z.eq_dec s FM_NAME_IS_INVALID) as [| Hne]; [done |].
      destruct Hno. by apply (FM_GetFilenameState_accepts _ _ _ _ _ _ Hrun).
  - intros name Hn. specialize (Hval name Hn).
    destruct (OS_stat W name) as [fs |] eqn:Estat;
      [destruct (OS_FILESTAT_ISDIR fs) eqn:Edir |]; subst s; split_all;
      (split; [intros Heq; try congruence; eauto
              | intros Hex; try reflexivity;
                try (destruct Hex as (fs' & [= <-] & Hdir));
                congruence]).
  - pose proof (FM_GetFilenameState_four _ _ _ _ _ _ Hrun) as Hin.
    unfold four_states in Hin. simpl in Hin.
    destruct Hin as [<- | [<- | [<- | [<- | []]]]]; congruence.
Qed.

(** X2. A buffer that starts with the terminator, one without a terminator in
    its first [BufferSize] bytes, and a string that [CFS_IsValidFilename]
    rejects are Invalid; the state is left as it was also with
    [FileInfoCmd]. *)
Theorem empty_unterminated_or_rejected_name_is_Invalid
    (Filename : list byte) (BufferSize : Z) (FileInfoCmd : bool)
    (st : FM_State) :
  buffer_ok Filename BufferSize ->
  (Filename !! O = Some x00 \/
   (forall k, (k < Z.to_nat BufferSize)%nat -> Filename !! k <> Some x00) \/
   (exists name, c_str Filename = Some name /\
      CFS_IsValidFilename W Filename (Z.of_nat (length name)) = false)) ->
  FM_GetFilenameState W Filename BufferSize FileInfoCmd st
  = Some (FM_NAME_IS_INVALID, st).
Proof.
  intros [[Hpos Hlen] Hmax] Hcases.
  destruct (FM_ScanTerminator_total Filename (Z.to_nat BufferSize) 0)
    as (j & Hj & Hr & Hz); [lia | lia | lia |].
  destruct (FM_ScanTerminator_first Filename (Z.to_nat BufferSize) 0 j
              ltac:(lia) Hj) as (_ & Hnz & _).
  unfold FM_GetFilenameState. run_FM. rewrite Hj.
  destruct ((0 <? j) && (j <? BufferSize)) eqn:Ev; [| reflexivity].
  apply andb_true_iff in Ev as [Hj0 HjB].
  apply Z.ltb_lt in Hj0. apply Z.ltb_lt in HjB.
  specialize (Hz ltac:(lia)).
  destruct Hcases as [Hempty | [Hnone | (name & Hs & Hcfs)]].
  - destruct (Hnz O ltac:(lia)) as (c & Hc & Hne). congruence.
  - destruct (Hnone (Z.to_nat j) ltac:(lia) Hz).
  - destruct (c_str_first_terminator Filename (Z.to_nat j) Hz)
      as (name' & Hs' & Hl); [intros k Hk; apply Hnz; lia |].
    assert (name' = name) by congruence. subst name'.
    replace j with (Z.of_nat (length name)) by lia.
    by rewrite Hcfs.
Qed.

(** X3. With [FileInfoCmd] the classifier stores the modify time and the size
    that [OS_stat] gives for an accepted name, cut to 32 bits, or zero and
    zero when [OS_stat] fails. It never writes [FileStatMode], and the queue
    fields and the event log stay as they were. *)
Theorem stat_snapshot_written_with_FileInfoCmd (Filename name : list byte)
    (BufferSize : Z) (st : FM_State) :
  valid_name W Filename BufferSize name -> BufferSize <= INT32_MAX ->
  exists s st1,
    FM_GetFilenameState W Filename BufferSize true st = Some (s, st1) /\
    FileStatTime (FM_GlobalData st1)
    = match OS_stat W name with
      | Some FileStatus => u32 (OS_FILESTAT_TIME FileStatus)
      | None => 0
      end /\
    FileStatSize (FM_GlobalData st1)
    = match OS_stat W name with
      | Some FileStatus => u32 (OS_FILESTAT_SIZE FileStatus)
      | None => 0
      end /\
    FileStatMode (FM_GlobalData st1) = FileStatMode (FM_GlobalData st) /\
    ChildSemaphore (FM_GlobalData st1) = ChildSemaphore (FM_GlobalData st) /\
    ChildQueueCount (FM_GlobalData st1) = ChildQueueCount (FM_GlobalData st) /\
    ChildWriteIndex (FM_GlobalData st1) = ChildWriteIndex (FM_GlobalData st) /\
    ChildReadIndex (FM_GlobalData st1) = ChildReadIndex (FM_GlobalData st) /\
    ChildQueue (FM_GlobalData st1) = ChildQueue (FM_GlobalData st) /\
    EVS_Log st1 = EVS_Log st /\
    OS_Log st1 = OS_Log st.
Proof.
  intros (Hs & Hlen & Hcfs) Hmax.
  unfold FM_GetFilenameState. run_FM.
  rewrite (FM_ScanTerminator_c_str _ _ _ Hs) by lia.
  destruct (0 <? Z.of_nat (length name)) eqn:E1; [| lia].
  destruct (Z.of_nat (length name) <? BufferSize) eqn:E2; [| lia].
  simpl. rewrite Hcfs, Hs.
  destruct (OS_stat W name) as [FileStatus |];
    [destruct (OS_FILESTAT_ISDIR FileStatus) |]; simpl;
    eexists _, _; (split; [reflexivity |]); simpl; split_all; reflexivity.
Qed.

(** X4. Classifying again changes nothing: the second call returns the state of
    the first and leaves the application state as the first left it; the
    state returned does not depend on the application state at all. *)
Theorem reclassifying_changes_nothing (Filename : list byte)
    (BufferSize : Z) (FileInfoCmd : bool) (st : FM_State) :
  buffer_ok Filename BufferSize ->
  exists s st1,
    FM_GetFilenameState W Filename BufferSize FileInfoCmd st = Some (s, st1) /\
    FM_GetFilenameState W Filename BufferSize FileInfoCmd st1
    = Some (s, st1) /\
    (forall FileInfoCmd' st',
       exists st1',
         FM_GetFilenameState W Filename BufferSize FileInfoCmd' st'
         = Some (s, st1')).
Proof.
  intros [[Hpos Hlen] Hmax].
  destruct (FM_ScanTerminator_total Filename (Z.to_nat BufferSize) 0)
    as (j & Hj & Hr & Hz); [lia | lia | lia |].
  unfold FM_GetFilenameState. run_FM. rewrite Hj.
  destruct ((0 <? j) && (j <? BufferSize)) eqn:Ev.
  2:{ exists FM_NAME_IS_INVALID, st. split_all; eauto. }
  apply andb_true_iff in Ev as [Hj0 HjB].
  apply Z.ltb_lt in Hj0. apply Z.ltb_lt in HjB.
  destruct (CFS_IsValidFilename W Filename j).
  2:{ exists FM_NAME_IS_INVALID, st. split_all; eauto. }
  destruct (c_str_terminated _ _ (Hz ltac:(lia))) as [name ->].
  destruct (OS_stat W name) as [FileStatus |];
    [destruct (OS_FILESTAT_ISDIR FileStatus) |];
    destruct FileInfoCmd; simpl;
    eexists _, _; (split; [reflexivity |]); (split; [reflexivity |]);
    intros [|] st'; simpl; eauto.
Qed.

(** X5. In this source [FM_VerifyFileClosed] and [FM_VerifyFileExists] cannot
    be told apart: the classifier never returns FileOpen, the only state on
    which their chains differ, so the two checks give the same result, the
    same buffer and the same event on every input. *)
Theorem FM_VerifyFileClosed_is_FM_VerifyFileExists (Filename : list byte)
    (BufferSize base : Z) (CmdText : string) (st : FM_State) :
  states_distinct ->
  FM_VerifyFileClosed W Filename BufferSize base CmdText st
  = FM_VerifyFileExists W Filename BufferSize base CmdText st.
Proof.
  intros Hd.
  destruct (states_ne Hd) as (? & ? & ? & ? & ? & ? & ? & ? & ? & ?).
  unfold FM_VerifyFileClosed, FM_VerifyFileExists, bind.
  destruct (FM_GetFilenameState W Filename BufferSize false st)
    as [[s st1] |] eqn:Hrun; [| reflexivity].
  pose proof (FM_GetFilenameState_four _ _ _ _ _ _ Hrun) as Hin.
  unfold four_states in Hin. simpl in Hin.
  unfold FM_VerifyFileClosed_chain, FM_VerifyFileExists_chain.
  destruct Hin as [<- | [<- | [<- | [<- | []]]]];
    decide_states; reflexivity.
Qed.

(** ** More on the six checks *)

(** What [%d] prints for a [uint32]: the value itself below 2^31, the value
    less 2^32 from there on. *)
Lemma int32_of_uint32 (x : Z) :
  (0 <= x < 2 ^ 31 -> int32 x = x) /\
  (2 ^ 31 <= x < 2 ^ 32 -> int32 x = x - 2 ^ 32).
Proof.
  unfold int32, u32. split; intros Hx; rewrite !Z.mod_small by lia;
    destruct (Z.ltb_spec x (2 ^ 31)); lia.
Qed.

(** X6. A state code outside the five is refused by every chain with the
    "unknown state" event, at the base plus
    [FM_FNAME_UNKNOWN_EID_OFFSET], which prints the name and the code; the
    buffer is not touched. The code is a [uint32] handed to [%d]: it is
    printed as it is below 2^31 and as the code less 2^32 from there on. *)
Theorem unknown_state_is_reported
    (chain : Z -> list byte -> Z -> Z -> string -> FM (bool * list byte))
    (s : Z) (Filename name : list byte) (BufferSize base : Z)
    (CmdText : string) (st : FM_State) :
  In chain six_chains -> ~ In s five_states -> c_str Filename = Some name ->
  exists e,
    chain s Filename BufferSize base CmdText st
    = Some (false, Filename, log_event e st) /\
    EventID e = u32 (base + FM_FNAME_UNKNOWN_EID_OFFSET) /\
    EventType e = CFE_EVS_ERROR /\
    Values e = [ValText CmdText; ValStr name; ValInt (int32 s)] /\
    (0 <= s < 2 ^ 31 -> int32 s = s) /\
    (2 ^ 31 <= s < 2 ^ 32 -> int32 s = s - 2 ^ 32).
Proof.
  intros Hin Hs Hname. unfold five_states in Hs. simpl in Hs.
  assert (H1 : s <> FM_NAME_IS_INVALID) by (intros ->; apply Hs; auto 10).
  assert (H2 : s <> FM_NAME_IS_NOT_IN_USE) by (intros ->; apply Hs; auto 10).
  assert (H3 : s <> FM_NAME_IS_FILE_OPEN) by (intros ->; apply Hs; auto 10).
  assert (H4 : s <> FM_NAME_IS_FILE_CLOSED) by (intros ->; apply Hs; auto 10).
  assert (H5 : s <> FM_NAME_IS_DIRECTORY) by (intros ->; apply Hs; auto 10).
  unfold six_chains in Hin. simpl in Hin.
  destruct Hin as [<- | [<- | [<- | [<- | [<- | [<- | []]]]]]];
    unfold FM_VerifyFileClosed_chain, FM_VerifyFileExists_chain,
      FM_VerifyFileNoExist_chain, FM_VerifyFileNotOpen_chain,
      FM_VerifyDirExists_chain, FM_VerifyDirNoExist_chain;
    decide_states; simpl;
    unfold CFE_EVS_SendEvent; run_FM; rewrite Hname; simpl;
    eexists; split_all;
    first [reflexivity | apply int32_of_uint32].
Qed.

Ltac known_event name Hname :=
  right; unfold CFE_EVS_SendEvent; run_FM; rewrite Hname; simpl;
  eexists _, name; split; reflexivity.

Ltac known_state_leaf Hs Hinv Hval :=
  simpl;
  first
  [ left; reflexivity
  | let Hrange := fresh "Hrange" in
    let Hmax := fresh "Hmax" in
    let name := fresh "name" in
    let Hname := fresh "Hname" in
    destruct Hinv as [Hrange Hmax]; [assumption |];
    rewrite u32_small by lia;
    rewrite buf_write_Some by lia;
    match goal with
    | |- context [<[?i := x00]> ?b] =>
        destruct (c_str_insert_terminator b i) as [name Hname]; [lia |]
    end;
    known_event name Hname
  | let name := fresh "name" in
    let Hname := fresh "Hname" in
    destruct Hval as [name Hname]; [assumption |];
    known_event name Hname
  | exfalso; unfold five_states in Hs; simpl in Hs; intuition congruence ].

(** On one of the five states a chain passes, or fails with an event that
    prints the command text and the name and nothing else. *)
Lemma six_chains_known_state
    (chain : Z -> list byte -> Z -> Z -> string -> FM (bool * list byte))
    (s : Z) (Filename : list byte) (BufferSize base : Z)
    (CmdText : string) (st : FM_State) :
  In chain six_chains -> In s five_states ->
  printable s Filename BufferSize ->
  chain s Filename BufferSize base CmdText st = Some (true, Filename, st) \/
  exists e name,
    chain s Filename BufferSize base CmdText st
    = Some (false, buffer_after s Filename BufferSize, log_event e st) /\
    Values e = [ValText CmdText; ValStr name].
Proof.
  intros Hin Hs [Hinv Hval].
  unfold six_chains in Hin. simpl in Hin.
  destruct Hin as [<- | [<- | [<- | [<- | [<- | [<- | []]]]]]];
    unfold FM_VerifyFileClosed_chain, FM_VerifyFileExists_chain,
      FM_VerifyFileNoExist_chain, FM_VerifyFileNotOpen_chain,
      FM_VerifyDirExists_chain, FM_VerifyDirNoExist_chain, buffer_after;
    destruct (Z.eqb_spec s FM_NAME_IS_INVALID);
    destruct (Z.eqb_spec s FM_NAME_IS_NOT_IN_USE);
    destruct (Z.eqb_spec s FM_NAME_IS_FILE_OPEN);
    destruct (Z.eqb_spec s FM_NAME_IS_FILE_CLOSED);
    destruct (Z.eqb_spec s FM_NAME_IS_DIRECTORY);
    known_state_leaf Hs Hinv Hval.
Qed.

(** X7. The "unknown state" branch of the chains is dead code behind the
    classifier: whatever the buffer, no event of the six checks prints a
    state code. No assumption on the state codes is needed. *)
Theorem checks_never_report_unknown_state
    (check : list byte -> Z -> Z -> string -> FM (bool * list byte))
    (Filename : list byte) (BufferSize base : Z) (CmdText : string)
    (st : FM_State) :
  In check (six_checks W) -> buffer_ok Filename BufferSize ->
  exists r b st2 evs,
    check Filename BufferSize base CmdText st = Some (r, b, st2) /\
    EVS_Log st2 = EVS_Log st ++ evs /\
    forall e, In e evs -> ~ prints_state_code e.
Proof.
  intros Hin Hb.
  destruct (six_checks_chains check Hin) as (chain & Hchain & Heq).
  destruct (classified_total Filename BufferSize st Hb) as (s & st1 & Hc).
  rewrite Heq. rewrite (check_run _ _ _ _ _ _ Hc).
  assert (Hp : printable s Filename BufferSize)
    by (apply classified_printable; [exact Hb | apply Hc]).
  destruct Hc as (_ & Hs & (_ & _ & Hlog & _) & _).
  destruct (six_chains_known_state chain s Filename BufferSize base CmdText
              st1 Hchain Hs Hp) as [Hpass | (e & name & Hfail & Hvals)].
  - exists true, Filename, st1, []. split; [exact Hpass |]. split.
    + rewrite Hlog. symmetry. apply app_nil_r.
    + intros e [].
  - exists false, (buffer_after s Filename BufferSize), (log_event e st1), [e].
    split; [exact Hfail |]. split.
    + simpl. by rewrite Hlog.
    + intros e' [<- | []] [n Hn]. rewrite Hvals in Hn. simpl in Hn.
      destruct Hn as [Hn | [Hn | []]]; discriminate.
Qed.

Ltac check_fires_tac Hc Hd Hp chain_lemma :=
  erewrite check_run by exact Hc;
  apply chain_lemma; [exact Hd | apply Hc | exact Hp].

(** X8. The table of the six checks: on the state the classifier gives, each
    check fires the row of its chain, passing silently or failing with one
    error event at the base plus the offset macro of the row. *)
Theorem six_checks_fire_their_rows (Filename : list byte)
    (BufferSize base : Z) (CmdText : string) (st : FM_State) :
  states_distinct -> buffer_ok Filename BufferSize ->
  exists s st1,
    FM_GetFilenameState W Filename BufferSize false st = Some (s, st1) /\
    (exists o, row_of FileClosed_rows s = Some o /\
       fires o Filename (buffer_after s Filename BufferSize) base st1
         (FM_VerifyFileClosed W Filename BufferSize base CmdText st)) /\
    (exists o, row_of FileExists_rows s = Some o /\
       fires o Filename (buffer_after s Filename BufferSize) base st1
         (FM_VerifyFileExists W Filename BufferSize base CmdText st)) /\
    (exists o, row_of FileNoExist_rows s = Some o /\
       fires o Filename (buffer_after s Filename BufferSize) base st1
         (FM_VerifyFileNoExist W Filename BufferSize base CmdText st)) /\
    (exists o, row_of FileNotOpen_rows s = Some o /\
       fires o Filename (buffer_after s Filename BufferSize) base st1
         (FM_VerifyFileNotOpen W Filename BufferSize base CmdText st)) /\
    (exists o, row_of DirExists_rows s = Some o /\
       fires o Filename (buffer_after s Filename BufferSize) base st1
         (FM_VerifyDirExists W Filename BufferSize base CmdText st)) /\
    (exists o, row_of DirNoExist_rows s = Some o /\
       fires o Filename (buffer_after s Filename BufferSize) base st1
         (FM_VerifyDirNoExist W Filename BufferSize base CmdText st)).
Proof.
  intros Hd Hb.
  destruct (classified_total Filename BufferSize st Hb) as (s & st1 & Hc).
  assert (Hp : printable s Filename BufferSize)
    by (apply classified_printable; [exact Hb | apply Hc]).
  exists s, st1. split; [apply Hc |]. split_all.
  - unfold FM_VerifyFileClosed.
    check_fires_tac Hc Hd Hp FM_VerifyFileClosed_chain_fires.
  - unfold FM_VerifyFileExists.
    check_fires_tac Hc Hd Hp FM_VerifyFileExists_chain_fires.
  - unfold FM_VerifyFileNoExist.
    check_fires_tac Hc Hd Hp FM_VerifyFileNoExist_chain_fires.
  - unfold FM_VerifyFileNotOpen.
    check_fires_tac Hc Hd Hp FM_VerifyFileNotOpen_chain_fires.
  - unfold FM_VerifyDirExists.
    check_fires_tac Hc Hd Hp FM_VerifyDirExists_chain_fires.
  - unfold FM_VerifyDirNoExist.
    check_fires_tac Hc Hd Hp FM_VerifyDirNoExist_chain_fires.
Qed.

(** ** More on the path separator *)

(** The buffer after [FM_AppendPathSep], in full. *)
Lemma FM_AppendPathSep_result (Directory s : list byte) (BufferSize : Z) :
  c_str Directory = Some s -> s <> [] ->
  Z.of_nat (length s) < BufferSize ->
  BufferSize <= Z.of_nat (length Directory) ->
  BufferSize < 2 ^ 32 ->
  FM_AppendPathSep Directory BufferSize
  = Some (if bool_decide (last s = Some "/"%byte)
             || (BufferSize <=? Z.of_nat (length s) + 1)
          then Directory
          else <[S (length s) := x00]> (<[length s := "/"%byte]> Directory)).
Proof.
  intros Hs Hne Hlen Hbuf Hmax.
  rewrite (FM_AppendPathSep_run Directory s BufferSize Hs Hne) by lia.
  rewrite (u32_small (BufferSize - 1)) by lia.
  destruct (bool_decide (last s = Some "/"%byte)); [reflexivity |]. simpl.
  destruct (Z.of_nat (length s) <? BufferSize - 1) eqn:E1;
    destruct (BufferSize <=? Z.of_nat (length s) + 1) eqn:E2; try lia;
    [| reflexivity].
  apply strncat_sep_run; [exact Hs | lia].
Qed.

(** X9. [FM_AppendPathSep] stays inside the buffer: the buffer keeps its
    length, only the byte of the old terminator and the byte after it can
    change, and the string, which is the old one or the old one with the
    separator appended (exactly when it did not end with one and there was
    room), is still terminated before [BufferSize]. *)
Theorem FM_AppendPathSep_stays_in_buffer (Directory s : list byte)
    (BufferSize : Z) :
  c_str Directory = Some s -> s <> [] ->
  Z.of_nat (length s) < BufferSize ->
  BufferSize <= Z.of_nat (length Directory) ->
  BufferSize < 2 ^ 32 ->
  exists d1 s1,
    FM_AppendPathSep Directory BufferSize = Some d1 /\
    length d1 = length Directory /\
    (forall k, k <> length s -> k <> S (length s) ->
               d1 !! k = Directory !! k) /\
    c_str d1 = Some s1 /\
    Z.of_nat (length s1) < BufferSize /\
    s1 = (if bool_decide (last s = Some "/"%byte)
             || (BufferSize <=? Z.of_nat (length s) + 1)
          then s else s ++ ["/"%byte]).
Proof.
  intros Hs Hne Hlen Hbuf Hmax.
  rewrite (FM_AppendPathSep_result Directory s BufferSize Hs Hne Hlen Hbuf
             Hmax).
  destruct (bool_decide (last s = Some "/"%byte)
            || (BufferSize <=? Z.of_nat (length s) + 1)) eqn:E.
  - exists Directory, s. split_all; auto.
  - apply orb_false_iff in E as [_ E]. apply Z.leb_gt in E.
    eexists _, (s ++ ["/"%byte]). split; [reflexivity |]. split_all.
    + by rewrite !length_insert.
    + intros k Hk1 Hk2.
      rewrite list_lookup_insert_ne by lia.
      by rewrite list_lookup_insert_ne by lia.
    + apply c_str_append_sep; [exact Hs | lia].
    + rewrite length_app. simpl. lia.
    + reflexivity.
Qed.

(** X10. The comment of [FM_AppendPathSep] relies on the checks: once one of the
    six checks has returned TRUE for a buffer of [BufferSize] bytes, the
    buffer is the one handed in, it holds a non-empty name terminated
    before [BufferSize], and [FM_AppendPathSep] returns without leaving the
    buffer. *)
Theorem passed_name_is_safe_for_FM_AppendPathSep
    (check : list byte -> Z -> Z -> string -> FM (bool * list byte))
    (Filename b : list byte) (BufferSize base : Z) (CmdText : string)
    (st st2 : FM_State) :
  In check (six_checks W) -> buffer_ok Filename BufferSize ->
  check Filename BufferSize base CmdText st = Some (true, b, st2) ->
  b = Filename /\
  exists name d1,
    valid_name W Filename BufferSize name /\
    FM_AppendPathSep Filename BufferSize = Some d1 /\
    length d1 = length Filename /\
    (c_str d1 = Some name \/ c_str d1 = Some (name ++ ["/"%byte])).
Proof.
  intros Hin [[Hpos Hlen] Hmax] Hrun.
  destruct (six_checks_chains check Hin) as (chain & Hchain & Heq).
  rewrite Heq in Hrun. unfold bind in Hrun.
  destruct (FM_GetFilenameState W Filename BufferSize false st)
    as [[s st1] |] eqn:Hclass; [| discriminate].
  destruct (six_chains_pass chain s Filename b BufferSize base CmdText st1
              st2 Hchain Hrun) as (Hne & -> & _).
  split; [reflexivity |].
  destruct (FM_GetFilenameState_accepts _ _ _ _ _ _ Hclass Hne)
    as (name & Hvalid).
  pose proof Hvalid as (Hs & Hl & _).
  assert (Hnonempty : name <> []) by (destruct name; [simpl in Hl; lia | done]).
  unfold INT32_MAX in Hmax.
  exists name. eexists. split; [exact Hvalid |].
  split; [apply (FM_AppendPathSep_result Filename name); auto; lia |].
  destruct (bool_decide (last name = Some "/"%byte)
            || (BufferSize <=? Z.of_nat (length name) + 1)) eqn:E.
  - auto.
  - apply orb_false_iff in E as [_ E]. apply Z.leb_gt in E.
    split; [by rewrite !length_insert |]. right.
    apply c_str_append_sep; [exact Hs | lia].
Qed.

(** X11. On the empty string [FM_AppendPathSep] looks at the byte before the
    string: [StringLength - 1] is 4294967295 in [uint32] arithmetic, an
    index outside every buffer that is not larger than that. The function
    has no guard for it. *)
Theorem FM_AppendPathSep_reads_before_empty_string (Directory : list byte)
    (BufferSize : Z) :
  Directory !! O = Some x00 ->
  Z.of_nat (length Directory) < 2 ^ 32 ->
  strlen Directory = Some 0 /\
  buf_read Directory (u32 (0 - 1)) = None /\
  FM_AppendPathSep Directory BufferSize = None.
Proof.
  intros Hz Hlen.
  assert (Hs : c_str Directory = Some []).
  { destruct Directory as [| c d]; [discriminate |].
    simpl in Hz. injection Hz as ->. reflexivity. }
  assert (Hread : buf_read Directory (u32 (0 - 1)) = None).
  { change (u32 (0 - 1)) with 4294967295.
    change (2 ^ 32) with 4294967296 in Hlen.
    unfold buf_read. change (0 <=? 4294967295) with true. cbv iota.
    apply lookup_ge_None. lia. }
  unfold FM_AppendPathSep, strlen. rewrite Hs. simpl length.
  change (Z.of_nat 0) with 0. rewrite (u32_small 0) by lia.
  rewrite Hread. auto.
Qed.

(** X12. With a buffer size of zero every check classifies the name as Invalid
    without reading it and then stores the terminator at index
    [BufferSize - 1], which is 4294967295 in [uint32] arithmetic: outside
    every buffer that is not larger than that. *)
Theorem zero_BufferSize_writes_outside_buffer
    (check : list byte -> Z -> Z -> string -> FM (bool * list byte))
    (Filename : list byte) (base : Z) (CmdText : string) (st : FM_State) :
  In check (six_checks W) ->
  Z.of_nat (length Filename) < 2 ^ 32 ->
  FM_GetFilenameState W Filename 0 false st = Some (FM_NAME_IS_INVALID, st) /\
  buf_write Filename (u32 (0 - 1)) x00 = None /\
  check Filename 0 base CmdText st = None.
Proof.
  intros Hin Hlen.
  assert (Hclass : FM_GetFilenameState W Filename 0 false st
                   = Some (FM_NAME_IS_INVALID, st)) by reflexivity.
  assert (Hwrite : buf_write Filename (u32 (0 - 1)) x00 = None).
  { change (u32 (0 - 1)) with 4294967295.
    change (2 ^ 32) with 4294967296 in Hlen.
    unfold buf_write. change (0 <=? 4294967295) with true.
    destruct (4294967295 <? Z.of_nat (length Filename)) eqn:E;
      [lia | reflexivity]. }
  split; [exact Hclass |]. split; [exact Hwrite |].
  destruct (six_checks_chains check Hin) as (chain & Hchain & Heq).
  rewrite Heq. unfold bind. rewrite Hclass.
  unfold six_chains in Hchain. simpl in Hchain.
  destruct Hchain as [<- | [<- | [<- | [<- | [<- | [<- | []]]]]]];
    unfold FM_VerifyFileClosed_chain, FM_VerifyFileExists_chain,
      FM_VerifyFileNoExist_chain, FM_VerifyFileNotOpen_chain,
      FM_VerifyDirExists_chain, FM_VerifyDirNoExist_chain;
    rewrite Z.eqb_refl; unfold bind, lift; rewrite Hwrite; reflexivity.
Qed.

(** ** Existing directories and files *)

Ltac run_check Hrun Hs :=
  unfold bind; rewrite Hrun;
  unfold FM_VerifyFileClosed_chain, FM_VerifyFileExists_chain,
    FM_VerifyFileNoExist_chain, FM_VerifyFileNotOpen_chain,
    FM_VerifyDirExists_chain, FM_VerifyDirNoExist_chain;
  decide_states; simpl;
  try reflexivity;
  unfold CFE_EVS_SendEvent; run_FM; rewrite Hs; simpl;
  eexists; split_all; reflexivity.

(** X13. An accepted name that [OS_stat] finds as a directory is a Directory:
    [FM_VerifyDirExists] passes and the other five checks fail, each with one
    event at the base plus [FM_FNAME_ISDIR_EID_OFFSET]; nothing but the
    event log changes. *)
Theorem directory_outcomes (Filename name : list byte)
    (BufferSize base : Z) (CmdText : string) (FileStatus : os_fstat_t)
    (st : FM_State) :
  states_distinct ->
  valid_name W Filename BufferSize name -> BufferSize <= INT32_MAX ->
  OS_stat W name = Some FileStatus ->
  OS_FILESTAT_ISDIR FileStatus = true ->
  FM_GetFilenameState W Filename BufferSize false st
  = Some (FM_NAME_IS_DIRECTORY, st) /\
  FM_VerifyDirExists W Filename BufferSize base CmdText st
  = Some (true, Filename, st) /\
  forall check,
    In check [FM_VerifyFileClosed W; FM_VerifyFileExists W;
              FM_VerifyFileNoExist W; FM_VerifyFileNotOpen W;
              FM_VerifyDirNoExist W] ->
    exists e,
      check Filename BufferSize base CmdText st
      = Some (false, Filename, log_event e st) /\
      EventID e = u32 (base + FM_FNAME_ISDIR_EID_OFFSET) /\
      EventType e = CFE_EVS_ERROR /\
      Values e = [ValText CmdText; ValStr name].
Proof.
  intros Hd (Hs & Hlen & Hcfs) Hmax Hstat Hdir.
  destruct (states_ne Hd) as (? & ? & ? & ? & ? & ? & ? & ? & ? & ?).
  assert (Hrun : FM_GetFilenameState W Filename BufferSize false st
                 = Some (FM_NAME_IS_DIRECTORY, st)).
  { unfold FM_GetFilenameState. run_FM.
    rewrite (FM_ScanTerminator_c_str _ _ _ Hs) by lia.
    destruct (0 <? Z.of_nat (length name)) eqn:E1; [| lia].
    destruct (Z.of_nat (length name) <? BufferSize) eqn:E2; [| lia].
    simpl. by rewrite Hcfs, Hs, Hstat, Hdir. }
  split; [exact Hrun |]. split.
  - unfold FM_VerifyDirExists. run_check Hrun Hs.
  - intros check Hin. simpl in Hin.
    destruct Hin as [<- | [<- | [<- | [<- | [<- | []]]]]].
    + unfold FM_VerifyFileClosed. run_check Hrun Hs.
    + unfold FM_VerifyFileExists. run_check Hrun Hs.
    + unfold FM_VerifyFileNoExist. run_check Hrun Hs.
    + unfold FM_VerifyFileNotOpen. run_check Hrun Hs.
    + unfold FM_VerifyDirNoExist. run_check Hrun Hs.
Qed.

(** X14. An accepted name that [OS_stat] finds and that is no directory:
    [FM_VerifyFileExists], [FM_VerifyFileClosed] and [FM_VerifyFileNotOpen]
    pass; [FM_VerifyFileNoExist] fails at the base plus
    [FM_FNAME_EXIST_EID_OFFSET], [FM_VerifyDirExists] at the base plus
    [FM_FNAME_ISFILE_EID_OFFSET], and [FM_VerifyDirNoExist] at the base plus
    [FM_FNAME_DNE_EID_OFFSET], the offset of a name that does not exist. *)
Theorem regular_file_outcomes (Filename name : list byte)
    (BufferSize base : Z) (CmdText : string) (FileStatus : os_fstat_t)
    (st : FM_State) :
  states_distinct ->
  valid_name W Filename BufferSize name -> BufferSize <= INT32_MAX ->
  OS_stat W name = Some FileStatus ->
  OS_FILESTAT_ISDIR FileStatus = false ->
  exists st1,
    FM_GetFilenameState W Filename BufferSize false st
    = Some (FM_NAME_IS_FILE_CLOSED, st1) /\
    EVS_Log st1 = EVS_Log st /\
    FM_GlobalData st1 = FM_GlobalData st /\
    FM_VerifyFileExists W Filename BufferSize base CmdText st
    = Some (true, Filename, st1) /\
    FM_VerifyFileClosed W Filename BufferSize base CmdText st
    = Some (true, Filename, st1) /\
    FM_VerifyFileNotOpen W Filename BufferSize base CmdText st
    = Some (true, Filename, st1) /\
    (exists e,
       FM_VerifyFileNoExist W Filename BufferSize base CmdText st
       = Some (false, Filename, log_event e st1) /\
       EventID e = u32 (base + FM_FNAME_EXIST_EID_OFFSET) /\
       EventType e = CFE_EVS_ERROR /\
       Values e = [ValText CmdText; ValStr name]) /\
    (exists e,
       FM_VerifyDirExists W Filename BufferSize base CmdText st
       = Some (false, Filename, log_event e st1) /\
       EventID e = u32 (base + FM_FNAME_ISFILE_EID_OFFSET) /\
       EventType e = CFE_EVS_ERROR /\
       Values e = [ValText CmdText; ValStr name]) /\
    (exists e,
       FM_VerifyDirNoExist W Filename BufferSize base CmdText st
       = Some (false, Filename, log_event e st1) /\
       EventID e = u32 (base + FM_FNAME_DNE_EID_OFFSET) /\
       EventType e = CFE_EVS_ERROR /\
       Values e = [ValText CmdText; ValStr name]).
Proof.
  intros Hd (Hs & Hlen & Hcfs) Hmax Hstat Hreg.
  destruct (states_ne Hd) as (? & ? & ? & ? & ? & ? & ? & ? & ? & ?).
  assert (Hrun : FM_GetFilenameState W Filename BufferSize false st
                 = Some (FM_NAME_IS_FILE_CLOSED,
                         {| FM_GlobalData := FM_GlobalData st;
                            OpenFileCount := OpenFileCount st;
                            FileIsOpen := false;
                            EVS_Log := EVS_Log st;
                            OS_Log := OS_Log st |})).
  { unfold FM_GetFilenameState. run_FM.
    rewrite (FM_ScanTerminator_c_str _ _ _ Hs) by lia.
    destruct (0 <? Z.of_nat (length name)) eqn:E1; [| lia].
    destruct (Z.of_nat (length name) <? BufferSize) eqn:E2; [| lia].
    simpl. by rewrite Hcfs, Hs, Hstat, Hreg. }
  eexists. split; [exact Hrun |]. split; [reflexivity |].
  split; [reflexivity |]. split_all.
  - unfold FM_VerifyFileExists. run_check Hrun Hs.
  - unfold FM_VerifyFileClosed. run_check Hrun Hs.
  - unfold FM_VerifyFileNotOpen. run_check Hrun Hs.
  - unfold FM_VerifyFileNoExist. run_check Hrun Hs.
  - unfold FM_VerifyDirExists. run_check Hrun Hs.
  - unfold FM_VerifyDirNoExist. run_check Hrun Hs.
Qed.

(** ** More on the child task queue *)

(** A count above the depth is refused as "broken" when the child task is
    enabled, and nothing but the event log changes. *)
Lemma FM_VerifyChildTask_count_above_depth (base : Z) (CmdText : string)
    (st : FM_State) :
  ChildSemaphore (FM_GlobalData st) <> FM_CHILD_SEM_INVALID ->
  FM_CHILD_QUEUE_DEPTH < ChildQueueCount (FM_GlobalData st) ->
  exists e,
    FM_VerifyChildTask base CmdText st = Some (false, log_event e st) /\
    EventID e = u32 (base + FM_CHILD_BROKEN_EID_OFFSET).
Proof.
  intros Hsem Habove. apply Z.eqb_neq in Hsem.
  unfold FM_VerifyChildTask, CFE_EVS_SendEvent. run_FM. rewrite Hsem.
  destruct (ChildQueueCount (FM_GlobalData st) =? FM_CHILD_QUEUE_DEPTH)
    eqn:E0; [apply Z.eqb_eq in E0; lia |].
  destruct (FM_CHILD_QUEUE_DEPTH <? ChildQueueCount (FM_GlobalData st))
    eqn:E1; [| lia].
  simpl. eexists. split; reflexivity.
Qed.

(** X15. With the child task enabled, a count above the depth, or a write index
    at or above it while the queue is not full, is refused as "broken": one
    event at the base plus [FM_CHILD_BROKEN_EID_OFFSET] that prints the
    count and the index, and no slot is written. A full queue is reported
    as "full" even when the write index is out of range. *)
Theorem broken_queue_is_refused (base : Z) (CmdText : string)
    (st : FM_State) :
  ChildSemaphore (FM_GlobalData st) <> FM_CHILD_SEM_INVALID ->
  (ChildQueueCount (FM_GlobalData st) <> FM_CHILD_QUEUE_DEPTH ->
   FM_CHILD_QUEUE_DEPTH < ChildQueueCount (FM_GlobalData st) \/
   FM_CHILD_QUEUE_DEPTH <= ChildWriteIndex (FM_GlobalData st) ->
   FM_VerifyChildTask base CmdText st
   = Some (false,
           log_event
             {| EventID := u32 (base + FM_CHILD_BROKEN_EID_OFFSET);
                EventType := CFE_EVS_ERROR;
                Spec := "%s error: child task interface is broken: count = %d, index = %d";
                Values := [ValText CmdText;
                           ValInt (ChildQueueCount (FM_GlobalData st));
                           ValInt (ChildWriteIndex (FM_GlobalData st))] |}
             st)) /\
  (ChildQueueCount (FM_GlobalData st) = FM_CHILD_QUEUE_DEPTH ->
   FM_VerifyChildTask base CmdText st
   = Some (false,
           log_event
             {| EventID := u32 (base + FM_CHILD_Q_FULL_EID_OFFSET);
                EventType := CFE_EVS_ERROR;
                Spec := "%s error: child task queue is full";
                Values := [ValText CmdText] |}
             st)).
Proof.
  intros Hsem. apply Z.eqb_neq in Hsem.
  unfold FM_VerifyChildTask, CFE_EVS_SendEvent. run_FM. rewrite Hsem.
  split.
  - intros Hfull Hbroken. apply Z.eqb_neq in Hfull. rewrite Hfull. simpl.
    destruct (FM_CHILD_QUEUE_DEPTH <? ChildQueueCount (FM_GlobalData st))
      eqn:E1;
      destruct (FM_CHILD_QUEUE_DEPTH <=? ChildWriteIndex (FM_GlobalData st))
        eqn:E2; simpl; try reflexivity; lia.
  - intros ->. rewrite Z.eqb_refl. reflexivity.
Qed.

(** X16. A successful [FM_VerifyChildTask] zero-fills the slot at the write
    index, and only that one: the other slots, the indices, the count and
    the event log stay as they were. Whatever the count and the write index
    are, the call never writes outside an array of [FM_CHILD_QUEUE_DEPTH]
    slots. *)
Theorem FM_VerifyChildTask_zero_fills_slot (base : Z) (CmdText : string)
    (st : FM_State) :
  Z.of_nat (length (ChildQueue (FM_GlobalData st))) = FM_CHILD_QUEUE_DEPTH ->
  0 <= ChildWriteIndex (FM_GlobalData st) ->
  exists ok st',
    FM_VerifyChildTask base CmdText st = Some (ok, st') /\
    length (ChildQueue (FM_GlobalData st'))
    = length (ChildQueue (FM_GlobalData st)) /\
    ChildQueueCount (FM_GlobalData st') = ChildQueueCount (FM_GlobalData st) /\
    ChildWriteIndex (FM_GlobalData st') = ChildWriteIndex (FM_GlobalData st) /\
    (forall i, i <> Z.to_nat (ChildWriteIndex (FM_GlobalData st)) ->
               ChildQueue (FM_GlobalData st') !! i
               = ChildQueue (FM_GlobalData st) !! i) /\
    (ok = true ->
     ChildQueue (FM_GlobalData st')
       !! Z.to_nat (ChildWriteIndex (FM_GlobalData st))
     = Some (replicate (Z.to_nat sizeof_FM_ChildQueueEntry_t) x00) /\
     EVS_Log st' = EVS_Log st) /\
    (ok = false -> FM_GlobalData st' = FM_GlobalData st).
Proof.
  intros Hlen Hw.
  unfold FM_VerifyChildTask, CFE_EVS_SendEvent. run_FM.
  destruct (ChildSemaphore (FM_GlobalData st) =? FM_CHILD_SEM_INVALID);
    simpl;
    [eexists false, _; split; [reflexivity |]; simpl;
     split_all; auto; discriminate |].
  destruct (ChildQueueCount (FM_GlobalData st) =? FM_CHILD_QUEUE_DEPTH);
    simpl;
    [eexists false, _; split; [reflexivity |]; simpl;
     split_all; auto; discriminate |].
  destruct (FM_CHILD_QUEUE_DEPTH <? ChildQueueCount (FM_GlobalData st));
    simpl;
    [eexists false, _; split; [reflexivity |]; simpl;
     split_all; auto; discriminate |].
  destruct (FM_CHILD_QUEUE_DEPTH <=? ChildWriteIndex (FM_GlobalData st))
    eqn:E2; simpl;
    [eexists false, _; split; [reflexivity |]; simpl;
     split_all; auto; discriminate |].
  destruct (ChildWriteIndex (FM_GlobalData st)
            <? Z.of_nat (length (ChildQueue (FM_GlobalData st)))) eqn:E3;
    [| lia].
  apply Z.ltb_lt in E3.
  simpl. eexists true, _. split; [reflexivity |]. simpl.
  split_all; auto.
  - apply length_insert.
  - intros i Hi. by apply list_lookup_insert_ne.
  - intros _. split; [| reflexivity].
    assert (Hi : (Z.to_nat (ChildWriteIndex (FM_GlobalData st))
                  < length (ChildQueue (FM_GlobalData st)))%nat) by lia.
    apply list_lookup_insert_eq. exact Hi.
  - discriminate.
Qed.

(** [FM_InvokeChildTask] counts the entry whatever the count is, as long
    as the [uint8] counter does not wrap; the semaphore and the event log
    are left alone. *)
Lemma FM_InvokeChildTask_counts (st : FM_State) :
  0 <= ChildWriteIndex (FM_GlobalData st) < 255 ->
  0 <= ChildQueueCount (FM_GlobalData st) < 255 ->
  exists st',
    FM_InvokeChildTask st = Some (tt, st') /\
    ChildQueueCount (FM_GlobalData st')
    = ChildQueueCount (FM_GlobalData st) + 1 /\
    ChildSemaphore (FM_GlobalData st') = ChildSemaphore (FM_GlobalData st) /\
    EVS_Log st' = EVS_Log st.
Proof.
  intros Hw Hc.
  unfold FM_InvokeChildTask. run_FM.
  assert (Hc8 : u8 (ChildQueueCount (FM_GlobalData st) + 1)
                = ChildQueueCount (FM_GlobalData st) + 1)
    by (unfold u8; apply Z.mod_small; lia).
  destruct (FM_CHILD_QUEUE_DEPTH
            <=? u8 (ChildWriteIndex (FM_GlobalData st) + 1));
    simpl;
    destruct (ChildSemaphore (FM_GlobalData st) =? FM_CHILD_SEM_INVALID);
    simpl; (eexists; split; [reflexivity |]); simpl; rewrite Hc8;
    split_all; reflexivity.
Qed.

(** X17. [FM_InvokeChildTask] moves the write index one slot on, modulo the
    depth, and counts the entry. The log shows the order: the mutex is
    taken, the new count is stored, the mutex is given, and only then is
    the child task woken, with one give of its semaphore, or not at all
    when the semaphore is invalid: the entry is counted even then. Slots,
    read index and event log are not touched. *)
Theorem FM_InvokeChildTask_advances (st : FM_State) :
  0 <= ChildWriteIndex (FM_GlobalData st) < FM_CHILD_QUEUE_DEPTH ->
  FM_CHILD_QUEUE_DEPTH <= 255 ->
  0 <= ChildQueueCount (FM_GlobalData st) < 255 ->
  exists st',
    FM_InvokeChildTask st = Some (tt, st') /\
    ChildWriteIndex (FM_GlobalData st')
    = (ChildWriteIndex (FM_GlobalData st) + 1) mod FM_CHILD_QUEUE_DEPTH /\
    ChildQueueCount (FM_GlobalData st')
    = ChildQueueCount (FM_GlobalData st) + 1 /\
    ChildReadIndex (FM_GlobalData st') = ChildReadIndex (FM_GlobalData st) /\
    ChildQueue (FM_GlobalData st') = ChildQueue (FM_GlobalData st) /\
    ChildSemaphore (FM_GlobalData st') = ChildSemaphore (FM_GlobalData st) /\
    EVS_Log st' = EVS_Log st /\
    OS_Log st'
    = OS_Log st ++
      [OS_MutSemTake (ChildQueueCountSem (FM_GlobalData st));
       Store_ChildQueueCount (ChildQueueCount (FM_GlobalData st) + 1);
       OS_MutSemGive (ChildQueueCountSem (FM_GlobalData st))] ++
      (if ChildSemaphore (FM_GlobalData st) =? FM_CHILD_SEM_INVALID
       then []
       else [OS_CountSemGive (ChildSemaphore (FM_GlobalData st))]).
Proof.
  intros Hw Hq Hc.
  unfold FM_InvokeChildTask. run_FM.
  assert (Hw8 : u8 (ChildWriteIndex (FM_GlobalData st) + 1)
                = ChildWriteIndex (FM_GlobalData st) + 1)
    by (unfold u8; apply Z.mod_small; lia).
  assert (Hc8 : u8 (ChildQueueCount (FM_GlobalData st) + 1)
                = ChildQueueCount (FM_GlobalData st) + 1)
    by (unfold u8; apply Z.mod_small; lia).
  rewrite Hw8.
  destruct (FM_CHILD_QUEUE_DEPTH <=? ChildWriteIndex (FM_GlobalData st) + 1)
    eqn:E; simpl;
    destruct (ChildSemaphore (FM_GlobalData st) =? FM_CHILD_SEM_INVALID);
    simpl; (eexists; split; [reflexivity |]); simpl; rewrite Hc8;
    split_all; auto;
    try (rewrite <- !app_assoc; reflexivity).
  - replace (ChildWriteIndex (FM_GlobalData st) + 1)
      with FM_CHILD_QUEUE_DEPTH by lia.
    symmetry. apply Z_mod_same_full.
  - replace (ChildWriteIndex (FM_GlobalData st) + 1)
      with FM_CHILD_QUEUE_DEPTH by lia.
    symmetry. apply Z_mod_same_full.
  - symmetry. apply Z.mod_small. lia.
  - symmetry. apply Z.mod_small. lia.
Qed.

(** X18. [FM_InvokeChildTask] has no test of its own: called on a full queue it
    takes the count above the depth, and from then on [FM_VerifyChildTask]
    refuses every command as "broken". *)
Theorem unverified_invoke_breaks_queue (base : Z) (CmdText : string)
    (st : FM_State) :
  ChildSemaphore (FM_GlobalData st) <> FM_CHILD_SEM_INVALID ->
  0 <= ChildWriteIndex (FM_GlobalData st) < FM_CHILD_QUEUE_DEPTH ->
  FM_CHILD_QUEUE_DEPTH < 255 ->
  ChildQueueCount (FM_GlobalData st) = FM_CHILD_QUEUE_DEPTH ->
  exists st1 st2 e,
    FM_InvokeChildTask st = Some (tt, st1) /\
    ChildQueueCount (FM_GlobalData st1) = FM_CHILD_QUEUE_DEPTH + 1 /\
    FM_VerifyChildTask base CmdText st1 = Some (false, st2) /\
    EVS_Log st2 = EVS_Log st ++ [e] /\
    EventID e = u32 (base + FM_CHILD_BROKEN_EID_OFFSET) /\
    FM_GlobalData st2 = FM_GlobalData st1.
Proof.
  intros Hsem Hw Hq Hfull.
  destruct (FM_InvokeChildTask_counts st ltac:(lia) ltac:(lia))
    as (st1 & Hinv & Hcount & Hsem1 & Hlog).
  destruct (FM_VerifyChildTask_count_above_depth base CmdText st1)
    as (e & Hbroken & Hid); [congruence | lia |].
  exists st1, (log_event e st1), e. split; [exact Hinv |]. split; [lia |].
  split; [exact Hbroken |]. simpl. rewrite Hlog. auto.
Qed.

(** ** The search for an open file *)

(** The enumeration with [SearchOpenFileData], which the classifier no
    longer calls: it returns, touches nothing but [FileIsOpen], never
    clears it, and sets it exactly when one of the objects is a stream
    whose information can be read and whose path is the name. *)
Lemma ForEach_SearchOpenFileData_run (ids : list Z) (Fname name : list byte)
    (st : FM_State) :
  c_str Fname = Some name ->
  (forall ObjId FdProp,
     OS_FDGetInfo W ObjId = Some FdProp -> is_Some (c_str (Path FdProp))) ->
  exists st',
    ForEach_SearchOpenFileData W ids (Some Fname) st = Some (tt, st') /\
    FM_GlobalData st' = FM_GlobalData st /\
    OpenFileCount st' = OpenFileCount st /\
    EVS_Log st' = EVS_Log st /\
    OS_Log st' = OS_Log st /\
    (FileIsOpen st' = true <->
     FileIsOpen st = true \/
     exists ObjId FdProp,
       In ObjId ids /\
       OS_IdentifyObject W ObjId = OS_OBJECT_TYPE_OS_STREAM /\
       OS_FDGetInfo W ObjId = Some FdProp /\
       c_str (Path FdProp) = Some name).
Proof.
  intros Hname Hpaths. revert st.
  induction ids as [| ObjId ids IH]; intros st.
  - exists st. simpl. split_all; auto. split; [auto |].
    intros [H | (i & p & [] & _)]. exact H.
  - cbn [ForEach_SearchOpenFileData]. unfold bind at 1.
    unfold SearchOpenFileData.
    destruct (Z.eqb_spec (OS_IdentifyObject W ObjId) OS_OBJECT_TYPE_OS_STREAM)
      as [Hs | Hs].
    2:{ destruct (IH st) as (st' & Hrun & Hg & Hc & He & Ho & Hiff).
        exists st'. unfold ret. rewrite Hrun. split_all; auto.
        rewrite Hiff. split.
        - intros [H | (i & p & Hi & Hrest)]; [auto |].
          right. exists i, p. simpl. auto.
        - intros [H | (i & p & [<- | Hi] & Hst & Hrest)]; [auto | tauto |].
          right. exists i, p. auto. }
    destruct (OS_FDGetInfo W ObjId) as [FdProp |] eqn:Einfo.
    2:{ destruct (IH st) as (st' & Hrun & Hg & Hc & He & Ho & Hiff).
        exists st'. unfold ret. rewrite Hrun. split_all; auto.
        rewrite Hiff. split.
        - intros [H | (i & p & Hi & Hrest)]; [auto |].
          right. exists i, p. simpl. auto.
        - intros [H | (i & p & [<- | Hi] & Hst & Hinfo & Hrest)];
            [auto | congruence |].
          right. exists i, p. auto. }
    destruct (Hpaths ObjId FdProp Einfo) as [path Hpath].
    run_FM. rewrite Hname, Hpath. simpl.
    destruct (bool_decide (name = path)) eqn:Eeq.
    + apply bool_decide_eq_true_1 in Eeq. subst path. simpl.
      destruct (IH (Build_FM_State (FM_GlobalData st) (OpenFileCount st)
                      true (EVS_Log st) (OS_Log st)))
        as (st' & Hrun & Hg & Hc & He & Ho & Hiff).
      exists st'. rewrite Hrun. simpl in *. split_all; auto.
      rewrite Hiff. split; [| auto].
      intros _. right. exists ObjId, FdProp. auto.
    + apply bool_decide_eq_false_1 in Eeq. simpl.
      destruct (IH st) as (st' & Hrun & Hg & Hc & He & Ho & Hiff).
      exists st'. rewrite Hrun. split_all; auto.
      rewrite Hiff. split.
      * intros [H | (i & p & Hi & Hrest)]; [auto |].
        right. exists i, p. simpl. auto.
      * intros [H | (i & p & [<- | Hi] & Hst & Hinfo & Hp)]; [auto | |].
        -- congruence.
        -- right. exists i, p. auto.
Qed.

(** X19. The search over the objects of the world: [FileIsOpen] ends up TRUE
    exactly when it was TRUE before or a live stream handle has the path of
    the name; with the NULL pointer for the name nothing is looked at. *)
Theorem SearchOpenFileData_finds_open_streams (Fname name : list byte)
    (st : FM_State) :
  c_str Fname = Some name ->
  (forall ObjId FdProp,
     OS_FDGetInfo W ObjId = Some FdProp -> is_Some (c_str (Path FdProp))) ->
  (exists st',
     ForEach_SearchOpenFileData W (OS_ForEachObject W) (Some Fname) st
     = Some (tt, st') /\
     FM_GlobalData st' = FM_GlobalData st /\
     EVS_Log st' = EVS_Log st /\
     (FileIsOpen st' = true <->
      FileIsOpen st = true \/ stream_has_path W name)) /\
  ForEach_SearchOpenFileData W (OS_ForEachObject W) None st = Some (tt, st).
Proof.
  intros Hname Hpaths. split.
  - destruct (ForEach_SearchOpenFileData_run (OS_ForEachObject W) Fname name
                st Hname Hpaths) as (st' & Hrun & Hg & _ & He & _ & Hiff).
    exists st'. split_all; auto.
  - induction (OS_ForEachObject W) as [| ObjId ids IH]; [reflexivity |].
    cbn [ForEach_SearchOpenFileData]. unfold bind. simpl. exact IH.
Qed.

(** ** The records of the open files *)

(** [strncpy] of a string shorter than [n]: the destination then holds the
    same string, whatever follows the [n] bytes. *)
Lemma strncpy_bytes_c_str (src s : list byte) (n : nat) :
  c_str src = Some s -> (length s < n)%nat ->
  exists bs, strncpy_bytes src n = Some bs /\
             forall r, c_str (bs ++ r) = Some s.
Proof.
  revert src s. induction n as [| n IH]; intros src s Hs Hlen; [lia |].
  destruct src as [| c src]; [discriminate |].
  simpl in Hs |- *. destruct (Byte.eqb c x00) eqn:E.
  - injection Hs as <-. eexists. split; [reflexivity |].
    intros r. reflexivity.
  - destruct (c_str src) as [s' |] eqn:Es; [| discriminate].
    injection Hs as <-. simpl in Hlen.
    destruct (IH src s' Es) as (bs & -> & Hbs); [lia |].
    eexists. split; [reflexivity |].
    intros r. simpl. rewrite E, Hbs. reflexivity.
Qed.

(** [strncpy] of [n] bytes without a terminator stores them as they are and
    adds no terminator. *)
Lemma strncpy_bytes_unterminated (src : list byte) (n : nat) :
  c_str src = None -> (n <= length src)%nat ->
  strncpy_bytes src n = Some (take n src).
Proof.
  revert src. induction n as [| n IH]; intros src Hs Hlen; [reflexivity |].
  destruct src as [| c src]; [simpl in Hlen; lia |].
  simpl in Hs |- *. destruct (Byte.eqb c x00); [discriminate |].
  destruct (c_str src) eqn:Es; [discriminate |].
  rewrite IH; [reflexivity | exact Es | simpl in Hlen; lia].
Qed.

Lemma strncpy_c_str (dst src s r : list byte) (n : Z) :
  c_str src = Some s -> Z.of_nat (length s) < n ->
  strncpy dst src n = Some r -> c_str r = Some s.
Proof.
  intros Hs Hlen. unfold strncpy.
  destruct ((0 <=? n) && (n <=? Z.of_nat (length dst))); [| discriminate].
  destruct (strncpy_bytes_c_str src s (Z.to_nat n) Hs) as (bs & -> & Hbs);
    [lia |].
  intros [= <-]. apply Hbs.
Qed.

Lemma strncpy_unterminated (dst src r : list byte) (n : Z) :
  c_str src = None ->
  Z.of_nat (length dst) = n -> Z.of_nat (length src) = n ->
  strncpy dst src n = Some r -> r = src.
Proof.
  intros Hs Hd Hn. unfold strncpy.
  destruct ((0 <=? n) && (n <=? Z.of_nat (length dst))); [| discriminate].
  rewrite strncpy_bytes_unterminated by (exact Hs || lia).
  intros [= <-].
  rewrite take_ge by lia. rewrite drop_ge by lia. apply app_nil_r.
Qed.

(** The callback on a stream whose information can be read: the record at
    the index of the count is replaced by one that holds the path and the
    owner, and the count goes up by one. *)
Lemma LoadOpenFileData_record (ObjId : Z) (FdProp : OS_file_prop_t)
    (arr : list FM_OpenFilesEntry_t) (e : FM_OpenFilesEntry_t)
    (n : Z) (st : FM_State) :
  world_ok W -> records_ok arr ->
  0 <= n -> n + 1 < 2 ^ 32 ->
  OS_IdentifyObject W ObjId = OS_OBJECT_TYPE_OS_STREAM ->
  OS_FDGetInfo W ObjId = Some FdProp ->
  arr !! Z.to_nat n = Some e ->
  exists e',
    LoadOpenFileData W ObjId (Some arr) (with_OpenFileCount n st)
    = Some (Some (<[Z.to_nat n := e']> arr), with_OpenFileCount (n + 1) st) /\
    record_of W FdProp e e'.
Proof.
  intros (Hp & Ha & Hpath & Happ) Hrec Hn Hmax Hs Einfo Ee.
  pose proof (Forall_lookup_1 _ _ _ _ Hrec Ee) as [Hname Happname].
  pose proof (Hpath _ _ Einfo) as Hplen.
  destruct (strncpy_Some (LogicalName e) (Path FdProp) OS_MAX_PATH_LEN)
    as (name & Hcopy & Hlen); [exact Hp | exact Hname | exact Hplen |].
  assert (Hlogical :
    (forall path, c_str (Path FdProp) = Some path -> c_str name = Some path) /\
    (c_str (Path FdProp) = None -> name = Path FdProp)).
  { split.
    - intros path Hc. apply (strncpy_c_str _ _ _ _ _ Hc) in Hcopy;
        [exact Hcopy |].
      apply c_str_length in Hc. lia.
    - intros Hc. by apply (strncpy_unterminated _ _ _ _ Hc Hname Hplen). }
  destruct Hlogical as [Hl1 Hl2].
  unfold LoadOpenFileData, record_of.
  rewrite (proj2 (Z.eqb_eq _ _) Hs), Einfo.
  run_FM. rewrite Ee. simpl. rewrite Hcopy. simpl.
  destruct (CFE_ES_GetTaskInfo W (User FdProp)) as [TaskInfo |] eqn:Etask.
  - pose proof (Happ _ _ Etask) as Halen.
    destruct (strncpy_Some (AppName e) (TaskInfo_AppName TaskInfo)
                OS_MAX_API_NAME)
      as (app & Hcopy2 & Hlen2); [exact Ha | exact Happname | exact Halen |].
    simpl. rewrite Hcopy2. simpl. rewrite u32_small by lia.
    eexists. split; [reflexivity |]. simpl.
    split; [exact Hl1 |]. split; [exact Hl2 |].
    intros a Hc. apply (strncpy_c_str _ _ _ _ _ Hc) in Hcopy2;
      [exact Hcopy2 |].
    apply c_str_length in Hc. lia.
  - simpl. rewrite u32_small by lia.
    eexists. split; [reflexivity |]. simpl. auto.
Qed.

(** The enumeration on an array with room for every stream: the stream
    number [k] of the enumeration has its record at the index of the count
    plus [k]. *)
Lemma ForEach_LoadOpenFileData_records (ids : list Z)
    (arr : list FM_OpenFilesEntry_t) (n : Z) (st : FM_State) :
  let streams :=
    filter (fun i => OS_IdentifyObject W i = OS_OBJECT_TYPE_OS_STREAM) ids in
  world_ok W -> records_ok arr ->
  0 <= n ->
  n + Z.of_nat (length streams) <= Z.of_nat (length arr) ->
  n + Z.of_nat (length streams) < 2 ^ 32 ->
  exists arr',
    ForEach_LoadOpenFileData W ids (Some arr) (with_OpenFileCount n st)
    = Some (Some arr',
            with_OpenFileCount (n + Z.of_nat (length streams)) st) /\
    (forall k ObjId FdProp e,
       streams !! k = Some ObjId -> OS_FDGetInfo W ObjId = Some FdProp ->
       arr !! (Z.to_nat n + k)%nat = Some e ->
       exists e', arr' !! (Z.to_nat n + k)%nat = Some e' /\
                  record_of W FdProp e e').
Proof.
  intros streams Hw. subst streams.
  revert arr n st. induction ids as [| ObjId ids IH];
    intros arr n st Hrec Hn Hroom Hmax.
  - exists arr. simpl. rewrite Z.add_0_r. split; [reflexivity |].
    intros k ObjId FdProp e Hk. discriminate.
  - cbn [ForEach_LoadOpenFileData]. unfold bind at 1.
    destruct (Z.eq_dec (OS_IdentifyObject W ObjId) OS_OBJECT_TYPE_OS_STREAM)
      as [Hs | Hs].
    + rewrite stream_objects_cons_stream in * by exact Hs.
      simpl length in *.
      destruct (LoadOpenFileData_array ObjId arr n st Hw Hrec Hn)
        as (arr1 & Hstep & Hrec1 & Hlen1 & Hframe1 & _ & _);
        [lia |].
      rewrite Hstep. rewrite (proj2 (Z.eqb_eq _ _) Hs).
      destruct (IH arr1 (n + 1) st Hrec1)
        as (arr' & Hrun & Hcontent); [lia .. |].
      destruct (ForEach_LoadOpenFileData_array ids arr1 (n + 1) st Hw Hrec1)
        as (arr'' & Hrun' & _ & _ & Hframe' & _); [lia .. |].
      assert (arr'' = arr') by congruence. subst arr''.
      exists arr'. split.
      * rewrite Hrun. do 3 f_equal. lia.
      * intros [| k] id FdProp e Hk Hinfo He.
        -- injection Hk as <-.
           replace (Z.to_nat n + 0)%nat with (Z.to_nat n) in * by lia.
           destruct (LoadOpenFileData_record ObjId FdProp arr e n st
                       Hw Hrec Hn ltac:(lia) Hs Hinfo He)
             as (e' & Hstep' & Hrecord).
           rewrite (proj2 (Z.eqb_eq _ _) Hs) in Hstep.
           assert (arr1 = <[Z.to_nat n := e']> arr) by congruence.
           subst arr1. exists e'. split; [| exact Hrecord].
           rewrite Hframe' by lia.
           apply list_lookup_insert_eq. by apply lookup_lt_Some in He.
        -- simpl in Hk.
           replace (Z.to_nat n + S k)%nat
             with (Z.to_nat (n + 1) + k)%nat in * by lia.
           apply (Hcontent k id FdProp e Hk Hinfo).
           rewrite Hframe1 by lia. exact He.
    + rewrite stream_objects_cons_other in * by exact Hs.
      destruct (LoadOpenFileData_array ObjId arr n st Hw Hrec Hn)
        as (arr1 & Hstep & _ & _ & _ & _ & Hsame); [contradiction |].
      rewrite (Hsame Hs) in Hstep. rewrite Hstep.
      rewrite (proj2 (Z.eqb_neq _ _) Hs).
      by apply IH.
Qed.

(** X20. [FM_GetOpenFilesData] on an array with room for every stream: the
    record number [k] of the result describes the stream number [k] of the
    enumeration when its information can be read. Its logical name is the
    path of the stream and its application name the name of the owning
    task; when [CFE_ES_GetTaskInfo] fails the application name is what the
    caller's array held before the call. *)
Theorem FM_GetOpenFilesData_records_paths_and_owners
    (arr : list FM_OpenFilesEntry_t) (st : FM_State) :
  world_ok W -> records_ok arr ->
  Z.of_nat (length (stream_objects W)) <= Z.of_nat (length arr) ->
  Z.of_nat (length (stream_objects W)) < 2 ^ 32 ->
  exists arr',
    FM_GetOpenFilesData W (Some arr) st
    = Some (Z.of_nat (length (stream_objects W)), Some arr',
            with_OpenFileCount (Z.of_nat (length (stream_objects W))) st) /\
    (forall k ObjId FdProp e,
       stream_objects W !! k = Some ObjId ->
       OS_FDGetInfo W ObjId = Some FdProp ->
       arr !! k = Some e ->
       exists e', arr' !! k = Some e' /\ record_of W FdProp e e').
Proof.
  intros Hw Hrec Hroom Hmax.
  destruct (ForEach_LoadOpenFileData_records (OS_ForEachObject W) arr 0 st
              Hw Hrec)
    as (arr' & Hrun & Hcontent); [lia | exact Hroom | exact Hmax |].
  exists arr'. split.
  - unfold FM_GetOpenFilesData, set_OpenFileCount, bind at 1.
    unfold bind at 1. rewrite Hrun. reflexivity.
  - intros k ObjId FdProp e Hk Hinfo He.
    apply (Hcontent k ObjId FdProp e Hk Hinfo He).
Qed.

(** The callback on one object, without any assumption on the sizes: when
    it returns, the array has the length it had and the count has gone up
    by one for a stream. *)
Lemma LoadOpenFileData_shape (ObjId : Z) (arr : list FM_OpenFilesEntry_t)
    (n : Z) (st : FM_State) (r : option (list FM_OpenFilesEntry_t))
    (st' : FM_State) :
  LoadOpenFileData W ObjId (Some arr) (with_OpenFileCount n st)
  = Some (r, st') ->
  exists arr1,
    r = Some arr1 /\ length arr1 = length arr /\
    st' = with_OpenFileCount
            (if OS_IdentifyObject W ObjId =? OS_OBJECT_TYPE_OS_STREAM
             then u32 (n + 1) else n) st.
Proof.
  unfold LoadOpenFileData.
  destruct (OS_IdentifyObject W ObjId =? OS_OBJECT_TYPE_OS_STREAM).
  2:{ intros [= <- <-]. eauto. }
  destruct (OS_FDGetInfo W ObjId) as [FdProp |].
  2:{ run_FM. intros [= <- <-]. eauto. }
  run_FM.
  destruct (arr !! Z.to_nat n) as [e |]; simpl; [| discriminate].
  destruct (strncpy (LogicalName e) (Path FdProp) OS_MAX_PATH_LEN)
    as [name |]; simpl; [| discriminate].
  destruct (CFE_ES_GetTaskInfo W (User FdProp)) as [TaskInfo |]; simpl.
  - destruct (strncpy (AppName e) (TaskInfo_AppName TaskInfo)
                OS_MAX_API_NAME) as [app |]; simpl; [| discriminate].
    intros [= <- <-]. eexists. split_all; [reflexivity | | reflexivity].
    apply length_insert.
  - intros [= <- <-]. eexists. split_all; [reflexivity | | reflexivity].
    apply length_insert.
Qed.

(** The callback takes the index from the count and does not compare it
    with the size of the array: a readable stream whose number is not below
    the number of records makes the enumeration write outside the array. *)
Lemma ForEach_LoadOpenFileData_overrun (ids : list Z)
    (arr : list FM_OpenFilesEntry_t) (n : Z) (st : FM_State)
    (k : nat) (ObjId : Z) (FdProp : OS_file_prop_t) :
  0 <= n -> n + Z.of_nat (length ids) < 2 ^ 32 ->
  filter (fun i => OS_IdentifyObject W i = OS_OBJECT_TYPE_OS_STREAM) ids !! k
  = Some ObjId ->
  OS_FDGetInfo W ObjId = Some FdProp ->
  Z.of_nat (length arr) <= n + Z.of_nat k ->
  ForEach_LoadOpenFileData W ids (Some arr) (with_OpenFileCount n st) = None.
Proof.
  revert arr n st k. induction ids as [| id ids IH];
    intros arr n st k Hn Hmax Hk Hinfo Hshort; [discriminate |].
  cbn [ForEach_LoadOpenFileData]. unfold bind at 1.
  destruct (LoadOpenFileData W id (Some arr) (with_OpenFileCount n st))
    as [[r st'] |] eqn:Estep; [| reflexivity].
  simpl length in Hmax.
  destruct (Z.eq_dec (OS_IdentifyObject W id) OS_OBJECT_TYPE_OS_STREAM)
    as [Hs | Hs].
  - rewrite stream_objects_cons_stream in Hk by exact Hs.
    destruct k as [| k].
    + injection Hk as ->. exfalso. revert Estep.
      unfold LoadOpenFileData.
      rewrite (proj2 (Z.eqb_eq _ _) Hs), Hinfo. run_FM.
      rewrite (proj2 (lookup_ge_None arr (Z.to_nat n))) by lia.
      discriminate.
    + simpl in Hk.
      destruct (LoadOpenFileData_shape _ _ _ _ _ _ Estep)
        as (arr1 & -> & Hlen1 & ->).
      rewrite (proj2 (Z.eqb_eq _ _) Hs), u32_small by lia.
      apply (IH arr1 (n + 1) st k); [lia | lia | exact Hk | exact Hinfo | lia].
  - rewrite stream_objects_cons_other in Hk by exact Hs.
    destruct (LoadOpenFileData_shape _ _ _ _ _ _ Estep)
      as (arr1 & -> & Hlen1 & ->).
    rewrite (proj2 (Z.eqb_neq _ _) Hs).
    apply (IH arr1 n st k); [lia | lia | exact Hk | exact Hinfo | lia].
Qed.

(** X21. [FM_GetOpenFilesData] does not know the size of the array it fills: when
    a stream whose information can be read has a number in the enumeration
    that is not below the number of records, the call writes outside the
    array. *)
Theorem FM_GetOpenFilesData_overruns_short_array
    (arr : list FM_OpenFilesEntry_t) (st : FM_State)
    (k : nat) (ObjId : Z) (FdProp : OS_file_prop_t) :
  Z.of_nat (length (OS_ForEachObject W)) < 2 ^ 32 ->
  stream_objects W !! k = Some ObjId ->
  OS_FDGetInfo W ObjId = Some FdProp ->
  (length arr <= k)%nat ->
  FM_GetOpenFilesData W (Some arr) st = None.
Proof.
  intros Hmax Hk Hinfo Hshort.
  unfold FM_GetOpenFilesData, set_OpenFileCount, bind at 1.
  unfold bind at 1.
  rewrite (ForEach_LoadOpenFileData_overrun (OS_ForEachObject W) arr 0 st
             k ObjId FdProp); [reflexivity | lia | lia | exact Hk
                              | exact Hinfo | lia].
Qed.

(** ** The check of a name alone *)

(** A name the classifier does not accept is Invalid, and the application
    state is left as it was, whatever [FileInfoCmd] is. *)
Lemma FM_GetFilenameState_rejects (Filename : list byte) (BufferSize : Z)
    (FileInfoCmd : bool) (st : FM_State) :
  buffer_ok Filename BufferSize ->
  ~ (exists name, valid_name W Filename BufferSize name) ->
  FM_GetFilenameState W Filename BufferSize FileInfoCmd st
  = Some (FM_NAME_IS_INVALID, st).
Proof.
  intros [[Hpos Hlen] Hmax] Hno.
  destruct (FM_ScanTerminator_total Filename (Z.to_nat BufferSize) 0)
    as (j & Hj & Hr & Hz); [lia | lia | lia |].
  destruct (FM_ScanTerminator_first Filename (Z.to_nat BufferSize) 0 j
              ltac:(lia) Hj) as (_ & Hnz & _).
  unfold FM_GetFilenameState. run_FM. rewrite Hj.
  destruct ((0 <? j) && (j <? BufferSize)) eqn:Ev; [| reflexivity].
  apply andb_true_iff in Ev as [Hj0 HjB].
  apply Z.ltb_lt in Hj0. apply Z.ltb_lt in HjB.
  destruct (CFS_IsValidFilename W Filename j) eqn:Ecfs; [| reflexivity].
  destruct Hno.
  destruct (c_str_first_terminator Filename (Z.to_nat j) (Hz ltac:(lia)))
    as (name & Hs & Hl); [intros k Hk; apply Hnz; lia |].
  exists name. unfold valid_name. rewrite Hl.
  replace (Z.of_nat (Z.to_nat j)) with j by lia. auto.
Qed.

(** X22. [FM_VerifyNameValid] is the one check that calls the classifier with
    [FileInfoCmd]. For a name the classifier accepts it returns the state
    that follows from [OS_stat], sends no event, leaves the buffer alone and
    overwrites the stat snapshot, also when nothing has the name (zero and
    zero). For any other name it returns Invalid, stores the terminator in
    the last byte of the buffer and sends one error event whose identifier
    is the one it was given, without an offset; the snapshot is kept. *)
Theorem FM_VerifyNameValid_reports_only_Invalid (Name : list byte)
    (BufferSize base : Z) (CmdText : string) (st : FM_State) :
  states_distinct -> buffer_ok Name BufferSize ->
  (forall name,
     valid_name W Name BufferSize name ->
     exists st1,
       FM_VerifyNameValid W Name BufferSize base CmdText st
       = Some (match OS_stat W name with
               | Some FileStatus =>
                   if OS_FILESTAT_ISDIR FileStatus then FM_NAME_IS_DIRECTORY
                   else FM_NAME_IS_FILE_CLOSED
               | None => FM_NAME_IS_NOT_IN_USE
               end, Name, st1) /\
       EVS_Log st1 = EVS_Log st /\
       FileStatTime (FM_GlobalData st1)
       = match OS_stat W name with
         | Some FileStatus => u32 (OS_FILESTAT_TIME FileStatus)
         | None => 0
         end /\
       FileStatSize (FM_GlobalData st1)
       = match OS_stat W name with
         | Some FileStatus => u32 (OS_FILESTAT_SIZE FileStatus)
         | None => 0
         end) /\
  (~ (exists name, valid_name W Name BufferSize name) ->
   exists e printed,
     FM_VerifyNameValid W Name BufferSize base CmdText st
     = Some (FM_NAME_IS_INVALID,
             <[Z.to_nat (BufferSize - 1) := x00]> Name, log_event e st) /\
     EventID e = base /\
     EventType e = CFE_EVS_ERROR /\
     c_str (<[Z.to_nat (BufferSize - 1) := x00]> Name) = Some printed /\
     Values e = [ValText CmdText; ValStr printed]).
Proof.
  intros Hd Hb.
  destruct (states_ne Hd) as (? & ? & ? & ? & ? & ? & ? & ? & ? & ?).
  split.
  - intros name (Hs & Hlen & Hcfs). destruct Hb as [_ Hmax].
    destruct (FM_GetFilenameState_valid Name name BufferSize true st
                Hs Hlen Hmax Hcfs) as (st1 & Hrun & Hlog & _ & Hstat).
    destruct (Hstat eq_refl) as [Htime Hsize].
    exists st1. unfold FM_VerifyNameValid, bind at 1. rewrite Hrun.
    split; [| auto].
    destruct (OS_stat W name) as [FileStatus |];
      [destruct (OS_FILESTAT_ISDIR FileStatus) |];
      match goal with
      | |- context [?s =? FM_NAME_IS_INVALID] =>
          rewrite (proj2 (Z.eqb_neq s FM_NAME_IS_INVALID)) by congruence
      end; reflexivity.
  - intros Hno.
    pose proof (FM_GetFilenameState_rejects Name BufferSize true st Hb Hno)
      as Hrun.
    destruct Hb as [Hrange Hmax]. unfold INT32_MAX in Hmax.
    destruct (c_str_insert_terminator Name (Z.to_nat (BufferSize - 1)))
      as [printed Hprinted]; [lia |].
    unfold FM_VerifyNameValid, bind at 1. rewrite Hrun.
    rewrite Z.eqb_refl, u32_small by lia. rewrite buf_write_Some by lia.
    unfold CFE_EVS_SendEvent. run_FM. rewrite Hprinted. simpl.
    eexists _, printed. split; [reflexivity |].
    split_all; first [exact Hprinted | reflexivity].
Qed.

End Properties.

(** ** The claims on the inputs of the examples *)

#[local] Existing Instance FM_Defs_ex.

Lemma FM_Defs_ex_distinct : states_distinct.
Proof. unfold states_distinct. simpl. compute_done. Qed.

Lemma FM_Defs_ex_offsets : DirNoExist_row_offsets.
Proof. unfold DirNoExist_row_offsets. simpl. auto. Qed.

Lemma buffer_of_16_ok (s : string) : buffer_ok (buffer_of s 16) 16.
Proof.
  unfold buffer_ok, buffer_of, INT32_MAX.
  rewrite length_take, length_app, length_replicate. lia.
Qed.

Lemma checks_pass_exactly_on_their_states_witness :
  states_distinct /\ buffer_ok (buffer_of "/ram/a.dat" 16) 16 /\
  exists s st1,
    FM_GetFilenameState W_ex (buffer_of "/ram/a.dat" 16) 16 false st_ex
    = Some (s, st1) /\
    In s five_states /\
    check_outcome
      (FM_VerifyFileExists W_ex (buffer_of "/ram/a.dat" 16) 16 100 "Copy" st_ex)
      st_ex (s = FM_NAME_IS_FILE_OPEN \/ s = FM_NAME_IS_FILE_CLOSED) /\
    check_outcome
      (FM_VerifyFileClosed W_ex (buffer_of "/ram/a.dat" 16) 16 100 "Copy" st_ex)
      st_ex (s = FM_NAME_IS_FILE_CLOSED) /\
    check_outcome
      (FM_VerifyFileNoExist W_ex (buffer_of "/ram/a.dat" 16) 16 100 "Copy" st_ex)
      st_ex (s = FM_NAME_IS_NOT_IN_USE) /\
    check_outcome
      (FM_VerifyFileNotOpen W_ex (buffer_of "/ram/a.dat" 16) 16 100 "Copy" st_ex)
      st_ex (s = FM_NAME_IS_NOT_IN_USE \/ s = FM_NAME_IS_FILE_CLOSED) /\
    check_outcome
      (FM_VerifyDirExists W_ex (buffer_of "/ram/a.dat" 16) 16 100 "Copy" st_ex)
      st_ex (s = FM_NAME_IS_DIRECTORY) /\
    check_outcome
      (FM_VerifyDirNoExist W_ex (buffer_of "/ram/a.dat" 16) 16 100 "Copy" st_ex)
      st_ex (s = FM_NAME_IS_NOT_IN_USE).
Proof.
  split; [exact FM_Defs_ex_distinct |].
  split; [apply buffer_of_16_ok |].
  apply (checks_pass_exactly_on_their_states W_ex (buffer_of "/ram/a.dat" 16)
           16 100 "Copy" st_ex FM_Defs_ex_distinct (buffer_of_16_ok _)).
Defined.

Lemma regular_file_is_reported_closed_witness :
  c_str (buffer_of "/ram/a.dat" 16) = Some (list_byte_of_string "/ram/a.dat") /\
  0 < Z.of_nat (length (list_byte_of_string "/ram/a.dat")) < 16 /\
  16 <= INT32_MAX /\
  CFS_IsValidFilename W_ex (buffer_of "/ram/a.dat" 16)
    (Z.of_nat (length (list_byte_of_string "/ram/a.dat"))) = true /\
  OS_stat W_ex (list_byte_of_string "/ram/a.dat")
  = Some {| OS_FILESTAT_ISDIR := false;
            OS_FILESTAT_TIME := 2000; OS_FILESTAT_SIZE := 512 |} /\
  exists st1,
    FM_GetFilenameState W_ex (buffer_of "/ram/a.dat" 16) 16 true st_ex
    = Some (FM_NAME_IS_FILE_CLOSED, st1) /\
    FileIsOpen st1 = false.
Proof.
  assert (H1 : c_str (buffer_of "/ram/a.dat" 16)
               = Some (list_byte_of_string "/ram/a.dat"))
    by (vm_compute; reflexivity).
  assert (H2 : 0 < Z.of_nat (length (list_byte_of_string "/ram/a.dat")) < 16)
    by (vm_compute; split; reflexivity).
  assert (H3 : 16 <= INT32_MAX) by (vm_compute; discriminate).
  split; [exact H1 |]. split; [exact H2 |]. split; [exact H3 |].
  split; [reflexivity |]. split; [vm_compute; reflexivity |].
  apply (regular_file_is_reported_closed W_ex (buffer_of "/ram/a.dat" 16)
           (list_byte_of_string "/ram/a.dat") 16 true
           {| OS_FILESTAT_ISDIR := false;
              OS_FILESTAT_TIME := 2000; OS_FILESTAT_SIZE := 512 |}
           st_ex H1 H2 H3); vm_compute; reflexivity.
Defined.

(** The enumeration that the classifier has commented out finds the stream
    on [/ram/a.dat] and sets [FileIsOpen]. *)
Example SearchOpenFileData_finds_stream :
  exists st',
    ForEach_SearchOpenFileData W_ex (OS_ForEachObject W_ex)
      (Some (buffer_of "/ram/a.dat" 16)) st_ex = Some (tt, st') /\
    FileIsOpen st' = true /\
    FM_GlobalData st' = FM_GlobalData st_ex.
Proof. eexists. split; [vm_compute; reflexivity |]. split; reflexivity. Qed.

(** C2 as stated fails: [/ram/a.dat] is a regular file and the stream
    handle 10 has its path, yet the classifier does not return FileOpen. *)
Lemma open_regular_file_counterexample :
  c_str (buffer_of "/ram/a.dat" 16) = Some (list_byte_of_string "/ram/a.dat") /\
  (exists FileStatus,
     OS_stat W_ex (list_byte_of_string "/ram/a.dat") = Some FileStatus /\
     OS_FILESTAT_ISDIR FileStatus = false) /\
  stream_has_path W_ex (list_byte_of_string "/ram/a.dat") /\
  FM_GetFilenameState W_ex (buffer_of "/ram/a.dat" 16) 16 false st_ex
  = Some (FM_NAME_IS_FILE_CLOSED, st_ex) /\
  ~ (exists st1,
       FM_GetFilenameState W_ex (buffer_of "/ram/a.dat" 16) 16 false st_ex
       = Some (FM_NAME_IS_FILE_OPEN, st1)).
Proof.
  split; [vm_compute; reflexivity |].
  split; [eexists; split; vm_compute; reflexivity |].
  split.
  - exists 10, {| Path := buffer_of "/ram/a.dat" 16; User := 7 |}.
    split_all; [simpl; auto | reflexivity | reflexivity
               | vm_compute; reflexivity].
  - split; [vm_compute; reflexivity |].
    intros [st1 H]. vm_compute in H. discriminate.
Qed.

Lemma queue_full_at_attempt_depth_plus_one_witness :
  queue_depth_ok /\
  ChildSemaphore (FM_GlobalData st_ex) <> FM_CHILD_SEM_INVALID /\
  ChildQueueCount (FM_GlobalData st_ex) = 0 /\
  0 <= ChildWriteIndex (FM_GlobalData st_ex) < FM_CHILD_QUEUE_DEPTH /\
  Z.of_nat (length (ChildQueue (FM_GlobalData st_ex))) = FM_CHILD_QUEUE_DEPTH /\
  Z.of_nat (length cmds_ex) = FM_CHILD_QUEUE_DEPTH /\
  (exists st' e,
     producer_attempts (cmds_ex ++ [(240, "Decompress File"%string, [])]) st_ex
     = Some (replicate (length cmds_ex) true ++ [false], st') /\
     EVS_Log st' = EVS_Log st_ex ++ [e] /\
     EventID e = u32 (240 + FM_CHILD_Q_FULL_EID_OFFSET) /\
     EventType e = CFE_EVS_ERROR /\
     ChildQueueCount (FM_GlobalData st') = FM_CHILD_QUEUE_DEPTH) /\
  (forall more, exists rs st',
     producer_attempts more st_ex = Some (rs, st') /\
     0 <= ChildQueueCount (FM_GlobalData st') <= FM_CHILD_QUEUE_DEPTH).
Proof.
  assert (H1 : queue_depth_ok) by (unfold queue_depth_ok; simpl; lia).
  assert (H2 : ChildSemaphore (FM_GlobalData st_ex) <> FM_CHILD_SEM_INVALID)
    by (simpl; lia).
  assert (H3 : 0 <= ChildWriteIndex (FM_GlobalData st_ex)
               < FM_CHILD_QUEUE_DEPTH) by (simpl; lia).
  split; [exact H1 |]. split; [exact H2 |]. split; [reflexivity |].
  split; [exact H3 |]. split; [reflexivity |]. split; [reflexivity |].
  apply (queue_full_at_attempt_depth_plus_one cmds_ex 240 "Decompress File"
           [] st_ex H1 H2 eq_refl H3 eq_refl eq_refl).
Defined.

Lemma disabled_child_task_rejects_enqueue_witness :
  ChildSemaphore (FM_GlobalData st_disabled) = FM_CHILD_SEM_INVALID /\
  exists e st',
    FM_VerifyChildTask 200 "Copy File" st_disabled = Some (false, st') /\
    producer_attempt (200, "Copy File"%string, replicate 8 x01) st_disabled
    = Some (false, st') /\
    EVS_Log st' = EVS_Log st_disabled ++ [e] /\
    EventID e = u32 (200 + FM_CHILD_DISABLED_EID_OFFSET) /\
    EventType e = CFE_EVS_ERROR /\
    ChildQueueCount (FM_GlobalData st')
    = ChildQueueCount (FM_GlobalData st_disabled) /\
    ChildWriteIndex (FM_GlobalData st')
    = ChildWriteIndex (FM_GlobalData st_disabled) /\
    ChildQueue (FM_GlobalData st') = ChildQueue (FM_GlobalData st_disabled) /\
    FM_GlobalData st' = FM_GlobalData st_disabled.
Proof.
  assert (H : ChildSemaphore (FM_GlobalData st_disabled)
              = FM_CHILD_SEM_INVALID) by reflexivity.
  split; [exact H |].
  apply (disabled_child_task_rejects_enqueue 200 "Copy File"
           (replicate 8 x01) st_disabled H).
Defined.

Lemma DirNoExist_diagnostic_offsets_witness :
  states_distinct /\ DirNoExist_row_offsets /\
  buffer_ok (buffer_of "/ram" 16) 16 /\
  exists s st1 r b st2,
    FM_GetFilenameState W_ex (buffer_of "/ram" 16) 16 false st_ex
    = Some (s, st1) /\
    In s five_states /\
    FM_VerifyDirNoExist W_ex (buffer_of "/ram" 16) 16 100 "Create Directory"
      st_ex = Some (r, b, st2) /\
    (s = FM_NAME_IS_NOT_IN_USE -> r = true /\ EVS_Log st2 = EVS_Log st_ex) /\
    (s = FM_NAME_IS_INVALID ->
     r = false /\
     exists e, EVS_Log st2 = EVS_Log st_ex ++ [e] /\
               EventID e = u32 (100 + 0) /\
               EventID e = u32 (100 + FM_FNAME_INVALID_EID_OFFSET)) /\
    (s = FM_NAME_IS_FILE_OPEN \/ s = FM_NAME_IS_FILE_CLOSED ->
     r = false /\
     exists e, EVS_Log st2 = EVS_Log st_ex ++ [e] /\
               EventID e = u32 (100 + 1) /\
               EventID e = u32 (100 + FM_FNAME_DNE_EID_OFFSET)) /\
    (s = FM_NAME_IS_DIRECTORY ->
     r = false /\
     exists e, EVS_Log st2 = EVS_Log st_ex ++ [e] /\
               EventID e = u32 (100 + 2) /\
               EventID e = u32 (100 + FM_FNAME_ISDIR_EID_OFFSET)).
Proof.
  split; [exact FM_Defs_ex_distinct |].
  split; [exact FM_Defs_ex_offsets |].
  split; [apply buffer_of_16_ok |].
  apply (DirNoExist_diagnostic_offsets W_ex (buffer_of "/ram" 16) 16 100
           "Create Directory" st_ex FM_Defs_ex_distinct
           FM_Defs_ex_offsets (buffer_of_16_ok _)).
Defined.

(** [FM_VerifyDirNoExist] on the three kinds of names that fail it. *)
Example FM_VerifyDirNoExist_events :
  (exists b st2,
     FM_VerifyDirNoExist W_ex (buffer_of "/ram" 16) 16 100 "Create Directory"
       st_ex = Some (false, b, st2) /\
     map EventID (EVS_Log st2) = [102]) /\
  (exists b st2,
     FM_VerifyDirNoExist W_ex (buffer_of "/ram/a.dat" 16) 16 100
       "Create Directory" st_ex = Some (false, b, st2) /\
     map EventID (EVS_Log st2) = [101]) /\
  (exists b st2,
     FM_VerifyDirNoExist W_ex (replicate 16 "x"%byte) 16 100
       "Create Directory" st_ex = Some (false, b, st2) /\
     map EventID (EVS_Log st2) = [100]).
Proof.
  split_all; eexists _, _; split; vm_compute; reflexivity.
Qed.

Lemma failing_check_prints_terminated_buffer_witness :
  In (FM_VerifyDirExists W_ex) (six_checks W_ex) /\
  buffer_ok (replicate 16 "x"%byte) 16 /\
  exists s st1 r b st2,
    FM_GetFilenameState W_ex (replicate 16 "x"%byte) 16 false st_ex
    = Some (s, st1) /\
    FM_VerifyDirExists W_ex (replicate 16 "x"%byte) 16 100 "Delete Directory"
      st_ex = Some (r, b, st2) /\
    (s = FM_NAME_IS_INVALID ->
     r = false /\
     b = <[Z.to_nat (16 - 1) := x00]> (replicate 16 "x"%byte) /\
     b !! Z.to_nat (16 - 1) = Some x00) /\
    (s <> FM_NAME_IS_INVALID ->
     b = replicate 16 "x"%byte /\
     exists j, 0 < j < 16 /\
               replicate 16 "x"%byte !! Z.to_nat j = Some x00) /\
    (r = false ->
     terminated_within b 16 /\
     exists e name,
       st2 = log_event e st1 /\ EventType e = CFE_EVS_ERROR /\
       c_str b = Some name /\ In (ValStr name) (Values e)).
Proof.
  assert (H1 : In (FM_VerifyDirExists W_ex) (six_checks W_ex))
    by (simpl; auto 10).
  assert (H2 : buffer_ok (replicate 16 "x"%byte) 16)
    by (unfold buffer_ok, INT32_MAX; simpl; lia).
  split; [exact H1 |]. split; [exact H2 |].
  apply (failing_check_prints_terminated_buffer W_ex (FM_VerifyDirExists W_ex)
           (replicate 16 "x"%byte) 16 100 "Delete Directory" st_ex H1 H2).
Defined.

Lemma absent_path_is_not_in_use_witness :
  states_distinct /\
  c_str (buffer_of "/ram/foo.dat" 16)
  = Some (list_byte_of_string "/ram/foo.dat") /\
  0 < Z.of_nat (length (list_byte_of_string "/ram/foo.dat")) < 16 /\
  16 <= INT32_MAX /\
  CFS_IsValidFilename W_ex (buffer_of "/ram/foo.dat" 16)
    (Z.of_nat (length (list_byte_of_string "/ram/foo.dat"))) = true /\
  OS_stat W_ex (list_byte_of_string "/ram/foo.dat") = None /\
  (forall FileInfoCmd, exists st1,
     FM_GetFilenameState W_ex (buffer_of "/ram/foo.dat" 16) 16 FileInfoCmd
       st_ex = Some (FM_NAME_IS_NOT_IN_USE, st1)) /\
  FM_VerifyFileNoExist W_ex (buffer_of "/ram/foo.dat" 16) 16 100 "Copy File"
    st_ex = Some (true, buffer_of "/ram/foo.dat" 16, st_ex) /\
  exists e,
    FM_VerifyFileExists W_ex (buffer_of "/ram/foo.dat" 16) 16 100 "Copy File"
      st_ex = Some (false, buffer_of "/ram/foo.dat" 16, log_event e st_ex) /\
    EventID e = u32 (100 + FM_FNAME_DNE_EID_OFFSET) /\
    EventType e = CFE_EVS_ERROR /\
    (FM_FNAME_DNE_EID_OFFSET = 1 -> EventID e = u32 (100 + 1)).
Proof.
  assert (H1 : c_str (buffer_of "/ram/foo.dat" 16)
               = Some (list_byte_of_string "/ram/foo.dat"))
    by (vm_compute; reflexivity).
  assert (H2 : 0 < Z.of_nat (length (list_byte_of_string "/ram/foo.dat")) < 16)
    by (vm_compute; split; reflexivity).
  assert (H3 : 16 <= INT32_MAX) by (vm_compute; discriminate).
  assert (H4 : OS_stat W_ex (list_byte_of_string "/ram/foo.dat") = None)
    by (vm_compute; reflexivity).
  split; [exact FM_Defs_ex_distinct |]. split; [exact H1 |].
  split; [exact H2 |]. split; [exact H3 |]. split; [reflexivity |].
  split; [exact H4 |].
  apply (absent_path_is_not_in_use W_ex (buffer_of "/ram/foo.dat" 16)
           (list_byte_of_string "/ram/foo.dat") 16 100 "Copy File" st_ex
           FM_Defs_ex_distinct H1 H2 H3 eq_refl H4).
Defined.

Lemma stat_snapshot_kept_without_FileInfoCmd_witness :
  buffer_ok (buffer_of "/ram/a.dat" 16) 16 /\
  (exists s st1,
     FM_GetFilenameState W_ex (buffer_of "/ram/a.dat" 16) 16 false st_ex
     = Some (s, st1) /\
     FileStatTime (FM_GlobalData st1) = FileStatTime (FM_GlobalData st_ex) /\
     FileStatSize (FM_GlobalData st1) = FileStatSize (FM_GlobalData st_ex)) /\
  (forall check base CmdText,
     In check (six_checks W_ex) ->
     exists r b st2,
       check (buffer_of "/ram/a.dat" 16) 16 base CmdText st_ex
       = Some (r, b, st2) /\
       FileStatTime (FM_GlobalData st2) = FileStatTime (FM_GlobalData st_ex) /\
       FileStatSize (FM_GlobalData st2) = FileStatSize (FM_GlobalData st_ex)).
Proof.
  split; [apply buffer_of_16_ok |].
  apply (stat_snapshot_kept_without_FileInfoCmd W_ex
           (buffer_of "/ram/a.dat" 16) 16 st_ex (buffer_of_16_ok _)).
Defined.

Lemma FM_AppendPathSep_idempotent_witness :
  c_str (buffer_of "/ram" 8) = Some (list_byte_of_string "/ram") /\
  list_byte_of_string "/ram" <> [] /\
  Z.of_nat (length (list_byte_of_string "/ram")) < 8 /\
  8 <= Z.of_nat (length (buffer_of "/ram" 8)) /\
  8 < 2 ^ 32 /\
  exists d1,
    FM_AppendPathSep (buffer_of "/ram" 8) 8 = Some d1 /\
    FM_AppendPathSep d1 8 = Some d1 /\
    (Z.of_nat (length (list_byte_of_string "/ram")) + 1 < 8 ->
     exists s1, c_str d1 = Some s1 /\ last s1 = Some "/"%byte) /\
    (~ Z.of_nat (length (list_byte_of_string "/ram")) + 1 < 8 ->
     d1 = buffer_of "/ram" 8) /\
    (d1 = buffer_of "/ram" 8 \/
     c_str d1 = Some (list_byte_of_string "/ram" ++ ["/"%byte])).
Proof.
  assert (H1 : c_str (buffer_of "/ram" 8) = Some (list_byte_of_string "/ram"))
    by (vm_compute; reflexivity).
  assert (H2 : list_byte_of_string "/ram" <> []) by (vm_compute; discriminate).
  assert (H3 : Z.of_nat (length (list_byte_of_string "/ram")) < 8)
    by (vm_compute; reflexivity).
  assert (H4 : 8 <= Z.of_nat (length (buffer_of "/ram" 8)))
    by (vm_compute; discriminate).
  assert (H5 : 8 < 2 ^ 32) by (vm_compute; reflexivity).
  split; [exact H1 |]. split; [exact H2 |]. split; [exact H3 |].
  split; [exact H4 |]. split; [exact H5 |].
  apply (FM_AppendPathSep_idempotent (buffer_of "/ram" 8)
           (list_byte_of_string "/ram") 8 H1 H2 H3 H4 H5).
Defined.

(** [FM_AppendPathSep] on the examples: the separator is appended when it
    fits, and a buffer with no room for it is left alone. *)
Example FM_AppendPathSep_ram :
  FM_AppendPathSep (buffer_of "/ram" 8) 8 = Some (buffer_of "/ram/" 8) /\
  FM_AppendPathSep (buffer_of "/ram/" 8) 8 = Some (buffer_of "/ram/" 8) /\
  FM_AppendPathSep (buffer_of "/ram" 5) 5 = Some (buffer_of "/ram" 5).
Proof. vm_compute. auto. Qed.

Lemma W_ex_ok : world_ok W_ex.
Proof.
  unfold world_ok. simpl. split_all; try lia.
  - intros ObjId FdProp. destruct (ObjId =? 10); [| discriminate].
    intros [= <-]. reflexivity.
  - intros task TaskInfo. destruct (task =? 7); [| discriminate].
    intros [= <-]. reflexivity.
Qed.

Lemma arr_ex_ok : records_ok arr_ex.
Proof. unfold records_ok, arr_ex. simpl. repeat constructor. Qed.

(** C10. [FM_GetOpenFilesData] returns the number of objects of the
    enumeration that are stream handles. With the NULL pointer it returns
    that count and writes no record. With an array it counts a stream also
    when its information cannot be read, and then leaves the record of that
    stream untouched, so that the count can exceed the number of records
    written: in the example it is 2 against one record. *)
Theorem FM_GetOpenFilesData_counts_every_stream :
  (forall (D : FM_Defs) (W : OS_World) (st : FM_State),
     FM_GetOpenFilesData (D := D) W None st
     = Some (u32 (Z.of_nat (length (stream_objects (D := D) W))), None,
             with_OpenFileCount
               (u32 (Z.of_nat (length (stream_objects (D := D) W)))) st)) /\
  (forall (D : FM_Defs) (W : OS_World) (arr : list FM_OpenFilesEntry_t)
          (st : FM_State),
     world_ok (D := D) W -> records_ok (D := D) arr ->
     Z.of_nat (length (stream_objects (D := D) W)) <= Z.of_nat (length arr) ->
     Z.of_nat (length (stream_objects (D := D) W)) < 2 ^ 32 ->
     exists arr',
       FM_GetOpenFilesData (D := D) W (Some arr) st
       = Some (Z.of_nat (length (stream_objects (D := D) W)), Some arr',
               with_OpenFileCount
                 (Z.of_nat (length (stream_objects (D := D) W))) st) /\
       length arr' = length arr /\
       (forall k ObjId,
          stream_objects (D := D) W !! k = Some ObjId ->
          OS_FDGetInfo W ObjId = None ->
          arr' !! k = arr !! k) /\
       (forall i, (length (stream_objects (D := D) W) <= i)%nat ->
                  arr' !! i = arr !! i)) /\
  (exists arr',
     FM_GetOpenFilesData (D := FM_Defs_ex) W_ex (Some arr_ex) st_ex
     = Some (2, Some arr', with_OpenFileCount 2 st_ex) /\
     records_written arr_ex arr' = 1%nat /\
     Z.of_nat (records_written arr_ex arr') < 2).
Proof.
  split; [| split].
  - intros D W st. apply FM_GetOpenFilesData_NULL.
  - intros D W arr st. apply FM_GetOpenFilesData_array.
  - eexists. split; [vm_compute; reflexivity |].
    split; [vm_compute; reflexivity | vm_compute; reflexivity].
Qed.

Lemma FM_GetOpenFilesData_counts_every_stream_witness :
  world_ok W_ex /\ records_ok arr_ex /\
  Z.of_nat (length (stream_objects W_ex)) <= Z.of_nat (length arr_ex) /\
  Z.of_nat (length (stream_objects W_ex)) < 2 ^ 32 /\
  exists arr',
    FM_GetOpenFilesData W_ex (Some arr_ex) st_ex
    = Some (Z.of_nat (length (stream_objects W_ex)), Some arr',
            with_OpenFileCount (Z.of_nat (length (stream_objects W_ex)))
              st_ex) /\
    length arr' = length arr_ex /\
    (forall k ObjId,
       stream_objects W_ex !! k = Some ObjId ->
       OS_FDGetInfo W_ex ObjId = None ->
       arr' !! k = arr_ex !! k) /\
    (forall i, (length (stream_objects W_ex) <= i)%nat ->
               arr' !! i = arr_ex !! i).
Proof.
  assert (H1 : Z.of_nat (length (stream_objects W_ex))
               <= Z.of_nat (length arr_ex)) by (vm_compute; discriminate).
  assert (H2 : Z.of_nat (length (stream_objects W_ex)) < 2 ^ 32)
    by (vm_compute; reflexivity).
  split; [exact W_ex_ok |]. split; [exact arr_ex_ok |].
  split; [exact H1 |]. split; [exact H2 |].
  apply (proj1 (proj2 FM_GetOpenFilesData_counts_every_stream)
           FM_Defs_ex W_ex arr_ex st_ex W_ex_ok arr_ex_ok H1 H2).
Defined.

(** ** Instances of the further properties *)

Lemma valid_name_ram :
  valid_name W_ex (buffer_of "/ram" 16) 16 (list_byte_of_string "/ram").
Proof.
  unfold valid_name. split; [vm_compute; reflexivity |].
  split; [split; vm_compute; reflexivity | reflexivity].
Qed.

Lemma valid_name_a_dat :
  valid_name W_ex (buffer_of "/ram/a.dat" 16) 16
    (list_byte_of_string "/ram/a.dat").
Proof.
  unfold valid_name. split; [vm_compute; reflexivity |].
  split; [split; vm_compute; reflexivity | reflexivity].
Qed.

Lemma INT32_MAX_16 : 16 <= INT32_MAX.
Proof. vm_compute. discriminate. Qed.

Lemma W_ex_paths_terminated (ObjId : Z) (FdProp : OS_file_prop_t) :
  OS_FDGetInfo W_ex ObjId = Some FdProp -> is_Some (c_str (Path FdProp)).
Proof.
  unfold W_ex. simpl. destruct (ObjId =? 10); [| discriminate].
  intros [= <-]. eexists. vm_compute. reflexivity.
Qed.

Lemma unterminated_16_ok : buffer_ok (replicate 16 "x"%byte) 16.
Proof.
  unfold buffer_ok, INT32_MAX. rewrite length_replicate. lia.
Qed.

Lemma classifier_follows_OS_stat_witness :
  states_distinct /\ buffer_ok (buffer_of "/ram" 16) 16 /\
  exists s st1,
    FM_GetFilenameState W_ex (buffer_of "/ram" 16) 16 false st_ex
    = Some (s, st1) /\
    (s = FM_NAME_IS_INVALID <->
     ~ exists name, valid_name W_ex (buffer_of "/ram" 16) 16 name) /\
    (forall name,
       valid_name W_ex (buffer_of "/ram" 16) 16 name ->
       (s = FM_NAME_IS_NOT_IN_USE <-> OS_stat W_ex name = None) /\
       (s = FM_NAME_IS_DIRECTORY <->
        exists FileStatus, OS_stat W_ex name = Some FileStatus /\
                           OS_FILESTAT_ISDIR FileStatus = true) /\
       (s = FM_NAME_IS_FILE_CLOSED <->
        exists FileStatus, OS_stat W_ex name = Some FileStatus /\
                           OS_FILESTAT_ISDIR FileStatus = false)) /\
    s <> FM_NAME_IS_FILE_OPEN.
Proof.
  split; [exact FM_Defs_ex_distinct |].
  split; [apply buffer_of_16_ok |].
  apply (classifier_follows_OS_stat W_ex (buffer_of "/ram" 16) 16 false st_ex
           FM_Defs_ex_distinct (buffer_of_16_ok _)).
Defined.

Lemma empty_unterminated_or_rejected_name_is_Invalid_witness :
  buffer_ok (replicate 16 "x"%byte) 16 /\
  (forall k, (k < Z.to_nat 16)%nat ->
             replicate 16 "x"%byte !! k <> Some x00) /\
  FM_GetFilenameState W_ex (replicate 16 "x"%byte) 16 true st_ex
  = Some (FM_NAME_IS_INVALID, st_ex).
Proof.
  assert (H : forall k, (k < Z.to_nat 16)%nat ->
                        replicate 16 "x"%byte !! k <> Some x00).
  { intros k _ Hk. apply lookup_replicate in Hk as [Hk _]. discriminate. }
  split; [exact unterminated_16_ok |]. split; [exact H |].
  apply (empty_unterminated_or_rejected_name_is_Invalid W_ex
           (replicate 16 "x"%byte) 16 true st_ex unterminated_16_ok).
  right. left. exact H.
Defined.

Lemma stat_snapshot_written_with_FileInfoCmd_witness :
  valid_name W_ex (buffer_of "/ram/a.dat" 16) 16
    (list_byte_of_string "/ram/a.dat") /\
  16 <= INT32_MAX /\
  exists s st1,
    FM_GetFilenameState W_ex (buffer_of "/ram/a.dat" 16) 16 true st_ex
    = Some (s, st1) /\
    FileStatTime (FM_GlobalData st1)
    = match OS_stat W_ex (list_byte_of_string "/ram/a.dat") with
      | Some FileStatus => u32 (OS_FILESTAT_TIME FileStatus)
      | None => 0
      end /\
    FileStatSize (FM_GlobalData st1)
    = match OS_stat W_ex (list_byte_of_string "/ram/a.dat") with
      | Some FileStatus => u32 (OS_FILESTAT_SIZE FileStatus)
      | None => 0
      end /\
    FileStatMode (FM_GlobalData st1) = FileStatMode (FM_GlobalData st_ex) /\
    ChildSemaphore (FM_GlobalData st1)
    = ChildSemaphore (FM_GlobalData st_ex) /\
    ChildQueueCount (FM_GlobalData st1)
    = ChildQueueCount (FM_GlobalData st_ex) /\
    ChildWriteIndex (FM_GlobalData st1)
    = ChildWriteIndex (FM_GlobalData st_ex) /\
    ChildReadIndex (FM_GlobalData st1)
    = ChildReadIndex (FM_GlobalData st_ex) /\
    ChildQueue (FM_GlobalData st1) = ChildQueue (FM_GlobalData st_ex) /\
    EVS_Log st1 = EVS_Log st_ex /\
    OS_Log st1 = OS_Log st_ex.
Proof.
  split; [exact valid_name_a_dat |]. split; [exact INT32_MAX_16 |].
  apply (stat_snapshot_written_with_FileInfoCmd W_ex
           (buffer_of "/ram/a.dat" 16) (list_byte_of_string "/ram/a.dat")
           16 st_ex valid_name_a_dat INT32_MAX_16).
Defined.

Lemma reclassifying_changes_nothing_witness :
  buffer_ok (buffer_of "/ram/a.dat" 16) 16 /\
  exists s st1,
    FM_GetFilenameState W_ex (buffer_of "/ram/a.dat" 16) 16 true st_ex
    = Some (s, st1) /\
    FM_GetFilenameState W_ex (buffer_of "/ram/a.dat" 16) 16 true st1
    = Some (s, st1) /\
    (forall FileInfoCmd' st',
       exists st1',
         FM_GetFilenameState W_ex (buffer_of "/ram/a.dat" 16) 16
           FileInfoCmd' st'
         = Some (s, st1')).
Proof.
  split; [apply buffer_of_16_ok |].
  apply (reclassifying_changes_nothing W_ex (buffer_of "/ram/a.dat" 16) 16
           true st_ex (buffer_of_16_ok _)).
Defined.

Lemma FM_VerifyFileClosed_is_FM_VerifyFileExists_witness :
  states_distinct /\
  FM_VerifyFileClosed W_ex (buffer_of "/ram/a.dat" 16) 16 100 "Copy" st_ex
  = FM_VerifyFileExists W_ex (buffer_of "/ram/a.dat" 16) 16 100 "Copy" st_ex.
Proof.
  split; [exact FM_Defs_ex_distinct |].
  apply (FM_VerifyFileClosed_is_FM_VerifyFileExists W_ex
           (buffer_of "/ram/a.dat" 16) 16 100 "Copy" st_ex
           FM_Defs_ex_distinct).
Defined.

Lemma unknown_state_is_reported_witness :
  In FM_VerifyFileExists_chain six_chains /\
  ~ In 4294967295 five_states /\
  c_str (buffer_of "/ram" 16) = Some (list_byte_of_string "/ram") /\
  exists e,
    FM_VerifyFileExists_chain 4294967295 (buffer_of "/ram" 16) 16 100 "Copy"
      st_ex
    = Some (false, buffer_of "/ram" 16, log_event e st_ex) /\
    EventID e = u32 (100 + FM_FNAME_UNKNOWN_EID_OFFSET) /\
    EventType e = CFE_EVS_ERROR /\
    Values e = [ValText "Copy"; ValStr (list_byte_of_string "/ram");
                ValInt (-1)].
Proof.
  assert (H1 : In FM_VerifyFileExists_chain six_chains)
    by (unfold six_chains; simpl; auto).
  assert (H2 : ~ In 4294967295 five_states).
  { unfold five_states. simpl.
    intros [H | [H | [H | [H | [H | []]]]]]; discriminate. }
  assert (H3 : c_str (buffer_of "/ram" 16)
               = Some (list_byte_of_string "/ram"))
    by (vm_compute; reflexivity).
  split; [exact H1 |]. split; [exact H2 |]. split; [exact H3 |].
  destruct (unknown_state_is_reported FM_VerifyFileExists_chain 4294967295
              (buffer_of "/ram" 16) (list_byte_of_string "/ram") 16 100
              "Copy" st_ex H1 H2 H3)
    as (e & Hrun & Hid & Hty & Hvals & _ & Hneg).
  exists e. split; [exact Hrun |]. split; [exact Hid |].
  split; [exact Hty |]. exact Hvals.
Defined.

Lemma checks_never_report_unknown_state_witness :
  In (FM_VerifyDirExists W_ex) (six_checks W_ex) /\
  buffer_ok (buffer_of "/ram/a.dat" 16) 16 /\
  exists r b st2 evs,
    FM_VerifyDirExists W_ex (buffer_of "/ram/a.dat" 16) 16 100 "Copy" st_ex
    = Some (r, b, st2) /\
    EVS_Log st2 = EVS_Log st_ex ++ evs /\
    forall e, In e evs -> ~ prints_state_code e.
Proof.
  assert (H1 : In (FM_VerifyDirExists W_ex) (six_checks W_ex))
    by (unfold six_checks; simpl; auto 10).
  split; [exact H1 |]. split; [apply buffer_of_16_ok |].
  apply (checks_never_report_unknown_state W_ex (FM_VerifyDirExists W_ex)
           (buffer_of "/ram/a.dat" 16) 16 100 "Copy" st_ex H1
           (buffer_of_16_ok _)).
Defined.

Lemma six_checks_fire_their_rows_witness :
  states_distinct /\ buffer_ok (buffer_of "/ram" 16) 16 /\
  exists s st1,
    FM_GetFilenameState W_ex (buffer_of "/ram" 16) 16 false st_ex
    = Some (s, st1) /\
    (exists o, row_of FileClosed_rows s = Some o /\
       fires o (buffer_of "/ram" 16)
         (buffer_after s (buffer_of "/ram" 16) 16) 100 st1
         (FM_VerifyFileClosed W_ex (buffer_of "/ram" 16) 16 100 "Copy"
            st_ex)) /\
    (exists o, row_of FileExists_rows s = Some o /\
       fires o (buffer_of "/ram" 16)
         (buffer_after s (buffer_of "/ram" 16) 16) 100 st1
         (FM_VerifyFileExists W_ex (buffer_of "/ram" 16) 16 100 "Copy"
            st_ex)) /\
    (exists o, row_of FileNoExist_rows s = Some o /\
       fires o (buffer_of "/ram" 16)
         (buffer_after s (buffer_of "/ram" 16) 16) 100 st1
         (FM_VerifyFileNoExist W_ex (buffer_of "/ram" 16) 16 100 "Copy"
            st_ex)) /\
    (exists o, row_of FileNotOpen_rows s = Some o /\
       fires o (buffer_of "/ram" 16)
         (buffer_after s (buffer_of "/ram" 16) 16) 100 st1
         (FM_VerifyFileNotOpen W_ex (buffer_of "/ram" 16) 16 100 "Copy"
            st_ex)) /\
    (exists o, row_of DirExists_rows s = Some o /\
       fires o (buffer_of "/ram" 16)
         (buffer_after s (buffer_of "/ram" 16) 16) 100 st1
         (FM_VerifyDirExists W_ex (buffer_of "/ram" 16) 16 100 "Copy"
            st_ex)) /\
    (exists o, row_of DirNoExist_rows s = Some o /\
       fires o (buffer_of "/ram" 16)
         (buffer_after s (buffer_of "/ram" 16) 16) 100 st1
         (FM_VerifyDirNoExist W_ex (buffer_of "/ram" 16) 16 100 "Copy"
            st_ex)).
Proof.
  split; [exact FM_Defs_ex_distinct |].
  split; [apply buffer_of_16_ok |].
  apply (six_checks_fire_their_rows W_ex (buffer_of "/ram" 16) 16 100 "Copy"
           st_ex FM_Defs_ex_distinct (buffer_of_16_ok _)).
Defined.

Lemma FM_AppendPathSep_stays_in_buffer_witness :
  c_str (buffer_of "/ram" 8) = Some (list_byte_of_string "/ram") /\
  list_byte_of_string "/ram" <> [] /\
  Z.of_nat (length (list_byte_of_string "/ram")) < 8 /\
  8 <= Z.of_nat (length (buffer_of "/ram" 8)) /\
  8 < 2 ^ 32 /\
  exists d1 s1,
    FM_AppendPathSep (buffer_of "/ram" 8) 8 = Some d1 /\
    length d1 = length (buffer_of "/ram" 8) /\
    (forall k, k <> length (list_byte_of_string "/ram") ->
               k <> S (length (list_byte_of_string "/ram")) ->
               d1 !! k = buffer_of "/ram" 8 !! k) /\
    c_str d1 = Some s1 /\
    Z.of_nat (length s1) < 8 /\
    s1 = (if bool_decide (last (list_byte_of_string "/ram") = Some "/"%byte)
             || (8 <=? Z.of_nat (length (list_byte_of_string "/ram")) + 1)
          then list_byte_of_string "/ram"
          else list_byte_of_string "/ram" ++ ["/"%byte]).
Proof.
  assert (H1 : c_str (buffer_of "/ram" 8) = Some (list_byte_of_string "/ram"))
    by (vm_compute; reflexivity).
  assert (H2 : list_byte_of_string "/ram" <> []) by (vm_compute; discriminate).
  assert (H3 : Z.of_nat (length (list_byte_of_string "/ram")) < 8)
    by (vm_compute; reflexivity).
  assert (H4 : 8 <= Z.of_nat (length (buffer_of "/ram" 8)))
    by (vm_compute; discriminate).
  assert (H5 : 8 < 2 ^ 32) by (vm_compute; reflexivity).
  split; [exact H1 |]. split; [exact H2 |]. split; [exact H3 |].
  split; [exact H4 |]. split; [exact H5 |].
  apply (FM_AppendPathSep_stays_in_buffer (buffer_of "/ram" 8)
           (list_byte_of_string "/ram") 8 H1 H2 H3 H4 H5).
Defined.

Lemma passed_name_is_safe_for_FM_AppendPathSep_witness :
  In (FM_VerifyDirExists W_ex) (six_checks W_ex) /\
  buffer_ok (buffer_of "/ram" 16) 16 /\
  FM_VerifyDirExists W_ex (buffer_of "/ram" 16) 16 100 "Copy" st_ex
  = Some (true, buffer_of "/ram" 16, st_ex) /\
  exists name d1,
    valid_name W_ex (buffer_of "/ram" 16) 16 name /\
    FM_AppendPathSep (buffer_of "/ram" 16) 16 = Some d1 /\
    length d1 = length (buffer_of "/ram" 16) /\
    (c_str d1 = Some name \/ c_str d1 = Some (name ++ ["/"%byte])).
Proof.
  assert (H1 : In (FM_VerifyDirExists W_ex) (six_checks W_ex))
    by (unfold six_checks; simpl; auto 10).
  assert (H3 : FM_VerifyDirExists W_ex (buffer_of "/ram" 16) 16 100 "Copy"
                 st_ex
               = Some (true, buffer_of "/ram" 16, st_ex))
    by (vm_compute; reflexivity).
  split; [exact H1 |]. split; [apply buffer_of_16_ok |].
  split; [exact H3 |].
  apply (proj2 (passed_name_is_safe_for_FM_AppendPathSep W_ex
                  (FM_VerifyDirExists W_ex) (buffer_of "/ram" 16)
                  (buffer_of "/ram" 16) 16 100 "Copy" st_ex st_ex H1
                  (buffer_of_16_ok _) H3)).
Defined.

Lemma FM_AppendPathSep_reads_before_empty_string_witness :
  buffer_of "" 16 !! O = Some x00 /\
  Z.of_nat (length (buffer_of "" 16)) < 2 ^ 32 /\
  strlen (buffer_of "" 16) = Some 0 /\
  buf_read (buffer_of "" 16) (u32 (0 - 1)) = None /\
  FM_AppendPathSep (buffer_of "" 16) 16 = None.
Proof.
  assert (H1 : buffer_of "" 16 !! O = Some x00) by (vm_compute; reflexivity).
  assert (H2 : Z.of_nat (length (buffer_of "" 16)) < 2 ^ 32)
    by (vm_compute; reflexivity).
  split; [exact H1 |]. split; [exact H2 |].
  apply (FM_AppendPathSep_reads_before_empty_string (buffer_of "" 16) 16
           H1 H2).
Defined.

Lemma zero_BufferSize_writes_outside_buffer_witness :
  In (FM_VerifyFileExists W_ex) (six_checks W_ex) /\
  Z.of_nat (length (buffer_of "/ram" 16)) < 2 ^ 32 /\
  FM_GetFilenameState W_ex (buffer_of "/ram" 16) 0 false st_ex
  = Some (FM_NAME_IS_INVALID, st_ex) /\
  buf_write (buffer_of "/ram" 16) (u32 (0 - 1)) x00 = None /\
  FM_VerifyFileExists W_ex (buffer_of "/ram" 16) 0 100 "Copy" st_ex = None.
Proof.
  assert (H1 : In (FM_VerifyFileExists W_ex) (six_checks W_ex))
    by (unfold six_checks; simpl; auto 10).
  assert (H2 : Z.of_nat (length (buffer_of "/ram" 16)) < 2 ^ 32)
    by (vm_compute; reflexivity).
  split; [exact H1 |]. split; [exact H2 |].
  apply (zero_BufferSize_writes_outside_buffer W_ex
           (FM_VerifyFileExists W_ex) (buffer_of "/ram" 16) 100 "Copy" st_ex
           H1 H2).
Defined.

Lemma directory_outcomes_witness :
  states_distinct /\
  valid_name W_ex (buffer_of "/ram" 16) 16 (list_byte_of_string "/ram") /\
  16 <= INT32_MAX /\
  OS_stat W_ex (list_byte_of_string "/ram")
  = Some {| OS_FILESTAT_ISDIR := true;
            OS_FILESTAT_TIME := 1000; OS_FILESTAT_SIZE := 0 |} /\
  FM_GetFilenameState W_ex (buffer_of "/ram" 16) 16 false st_ex
  = Some (FM_NAME_IS_DIRECTORY, st_ex) /\
  FM_VerifyDirExists W_ex (buffer_of "/ram" 16) 16 100 "Copy" st_ex
  = Some (true, buffer_of "/ram" 16, st_ex) /\
  forall check,
    In check [FM_VerifyFileClosed W_ex; FM_VerifyFileExists W_ex;
              FM_VerifyFileNoExist W_ex; FM_VerifyFileNotOpen W_ex;
              FM_VerifyDirNoExist W_ex] ->
    exists e,
      check (buffer_of "/ram" 16) 16 100 "Copy"%string st_ex
      = Some (false, buffer_of "/ram" 16, log_event e st_ex) /\
      EventID e = u32 (100 + FM_FNAME_ISDIR_EID_OFFSET) /\
      EventType e = CFE_EVS_ERROR /\
      Values e = [ValText "Copy"; ValStr (list_byte_of_string "/ram")].
Proof.
  assert (H4 : OS_stat W_ex (list_byte_of_string "/ram")
               = Some {| OS_FILESTAT_ISDIR := true;
                         OS_FILESTAT_TIME := 1000; OS_FILESTAT_SIZE := 0 |})
    by (vm_compute; reflexivity).
  split; [exact FM_Defs_ex_distinct |]. split; [exact valid_name_ram |].
  split; [exact INT32_MAX_16 |]. split; [exact H4 |].
  apply (directory_outcomes W_ex (buffer_of "/ram" 16)
           (list_byte_of_string "/ram") 16 100 "Copy"
           {| OS_FILESTAT_ISDIR := true;
              OS_FILESTAT_TIME := 1000; OS_FILESTAT_SIZE := 0 |}
           st_ex FM_Defs_ex_distinct valid_name_ram INT32_MAX_16 H4).
  reflexivity.
Defined.

Lemma regular_file_outcomes_witness :
  states_distinct /\
  valid_name W_ex (buffer_of "/ram/a.dat" 16) 16
    (list_byte_of_string "/ram/a.dat") /\
  16 <= INT32_MAX /\
  OS_stat W_ex (list_byte_of_string "/ram/a.dat")
  = Some {| OS_FILESTAT_ISDIR := false;
            OS_FILESTAT_TIME := 2000; OS_FILESTAT_SIZE := 512 |} /\
  exists st1,
    FM_GetFilenameState W_ex (buffer_of "/ram/a.dat" 16) 16 false st_ex
    = Some (FM_NAME_IS_FILE_CLOSED, st1) /\
    EVS_Log st1 = EVS_Log st_ex /\
    FM_GlobalData st1 = FM_GlobalData st_ex /\
    FM_VerifyFileExists W_ex (buffer_of "/ram/a.dat" 16) 16 100 "Copy" st_ex
    = Some (true, buffer_of "/ram/a.dat" 16, st1) /\
    FM_VerifyFileClosed W_ex (buffer_of "/ram/a.dat" 16) 16 100 "Copy" st_ex
    = Some (true, buffer_of "/ram/a.dat" 16, st1) /\
    FM_VerifyFileNotOpen W_ex (buffer_of "/ram/a.dat" 16) 16 100 "Copy" st_ex
    = Some (true, buffer_of "/ram/a.dat" 16, st1) /\
    (exists e,
       FM_VerifyFileNoExist W_ex (buffer_of "/ram/a.dat" 16) 16 100 "Copy"
         st_ex
       = Some (false, buffer_of "/ram/a.dat" 16, log_event e st1) /\
       EventID e = u32 (100 + FM_FNAME_EXIST_EID_OFFSET) /\
       EventType e = CFE_EVS_ERROR /\
       Values e = [ValText "Copy";
                   ValStr (list_byte_of_string "/ram/a.dat")]) /\
    (exists e,
       FM_VerifyDirExists W_ex (buffer_of "/ram/a.dat" 16) 16 100 "Copy"
         st_ex
       = Some (false, buffer_of "/ram/a.dat" 16, log_event e st1) /\
       EventID e = u32 (100 + FM_FNAME_ISFILE_EID_OFFSET) /\
       EventType e = CFE_EVS_ERROR /\
       Values e = [ValText "Copy";
                   ValStr (list_byte_of_string "/ram/a.dat")]) /\
    (exists e,
       FM_VerifyDirNoExist W_ex (buffer_of "/ram/a.dat" 16) 16 100 "Copy"
         st_ex
       = Some (false, buffer_of "/ram/a.dat" 16, log_event e st1) /\
       EventID e = u32 (100 + FM_FNAME_DNE_EID_OFFSET) /\
       EventType e = CFE_EVS_ERROR /\
       Values e = [ValText "Copy";
                   ValStr (list_byte_of_string "/ram/a.dat")]).
Proof.
  assert (H4 : OS_stat W_ex (list_byte_of_string "/ram/a.dat")
               = Some {| OS_FILESTAT_ISDIR := false;
                         OS_FILESTAT_TIME := 2000; OS_FILESTAT_SIZE := 512 |})
    by (vm_compute; reflexivity).
  split; [exact FM_Defs_ex_distinct |]. split; [exact valid_name_a_dat |].
  split; [exact INT32_MAX_16 |]. split; [exact H4 |].
  apply (regular_file_outcomes W_ex (buffer_of "/ram/a.dat" 16)
           (list_byte_of_string "/ram/a.dat") 16 100 "Copy"
           {| OS_FILESTAT_ISDIR := false;
              OS_FILESTAT_TIME := 2000; OS_FILESTAT_SIZE := 512 |}
           st_ex FM_Defs_ex_distinct valid_name_a_dat INT32_MAX_16 H4).
  reflexivity.
Defined.

Lemma broken_queue_is_refused_witness :
  ChildSemaphore (FM_GlobalData st_broken) <> FM_CHILD_SEM_INVALID /\
  ChildQueueCount (FM_GlobalData st_broken) <> FM_CHILD_QUEUE_DEPTH /\
  FM_CHILD_QUEUE_DEPTH < ChildQueueCount (FM_GlobalData st_broken) /\
  FM_VerifyChildTask 200 "Copy File" st_broken
  = Some (false,
          log_event
            {| EventID := u32 (200 + FM_CHILD_BROKEN_EID_OFFSET);
               EventType := CFE_EVS_ERROR;
               Spec := "%s error: child task interface is broken: count = %d, index = %d";
               Values := [ValText "Copy File"; ValInt 5; ValInt 0] |}
            st_broken).
Proof.
  assert (H1 : ChildSemaphore (FM_GlobalData st_broken)
               <> FM_CHILD_SEM_INVALID) by (vm_compute; discriminate).
  assert (H2 : ChildQueueCount (FM_GlobalData st_broken)
               <> FM_CHILD_QUEUE_DEPTH) by (vm_compute; discriminate).
  assert (H3 : FM_CHILD_QUEUE_DEPTH
               < ChildQueueCount (FM_GlobalData st_broken))
    by (vm_compute; reflexivity).
  split; [exact H1 |]. split; [exact H2 |]. split; [exact H3 |].
  exact (proj1 (broken_queue_is_refused 200 "Copy File" st_broken H1) H2
           (or_introl H3)).
Defined.

Lemma FM_VerifyChildTask_zero_fills_slot_witness :
  Z.of_nat (length (ChildQueue (FM_GlobalData st_ex)))
  = FM_CHILD_QUEUE_DEPTH /\
  0 <= ChildWriteIndex (FM_GlobalData st_ex) /\
  exists ok st',
    FM_VerifyChildTask 200 "Copy File" st_ex = Some (ok, st') /\
    length (ChildQueue (FM_GlobalData st'))
    = length (ChildQueue (FM_GlobalData st_ex)) /\
    ChildQueueCount (FM_GlobalData st')
    = ChildQueueCount (FM_GlobalData st_ex) /\
    ChildWriteIndex (FM_GlobalData st')
    = ChildWriteIndex (FM_GlobalData st_ex) /\
    (forall i, i <> Z.to_nat (ChildWriteIndex (FM_GlobalData st_ex)) ->
               ChildQueue (FM_GlobalData st') !! i
               = ChildQueue (FM_GlobalData st_ex) !! i) /\
    (ok = true ->
     ChildQueue (FM_GlobalData st')
       !! Z.to_nat (ChildWriteIndex (FM_GlobalData st_ex))
     = Some (replicate (Z.to_nat sizeof_FM_ChildQueueEntry_t) x00) /\
     EVS_Log st' = EVS_Log st_ex) /\
    (ok = false -> FM_GlobalData st' = FM_GlobalData st_ex).
Proof.
  assert (H1 : Z.of_nat (length (ChildQueue (FM_GlobalData st_ex)))
               = FM_CHILD_QUEUE_DEPTH) by (vm_compute; reflexivity).
  assert (H2 : 0 <= ChildWriteIndex (FM_GlobalData st_ex))
    by (vm_compute; discriminate).
  split; [exact H1 |]. split; [exact H2 |].
  apply (FM_VerifyChildTask_zero_fills_slot 200 "Copy File" st_ex H1 H2).
Defined.

Lemma FM_InvokeChildTask_advances_witness :
  0 <= ChildWriteIndex (FM_GlobalData st_ex) < FM_CHILD_QUEUE_DEPTH /\
  FM_CHILD_QUEUE_DEPTH <= 255 /\
  0 <= ChildQueueCount (FM_GlobalData st_ex) < 255 /\
  exists st',
    FM_InvokeChildTask st_ex = Some (tt, st') /\
    ChildWriteIndex (FM_GlobalData st')
    = (ChildWriteIndex (FM_GlobalData st_ex) + 1) mod FM_CHILD_QUEUE_DEPTH /\
    ChildQueueCount (FM_GlobalData st')
    = ChildQueueCount (FM_GlobalData st_ex) + 1 /\
    ChildReadIndex (FM_GlobalData st')
    = ChildReadIndex (FM_GlobalData st_ex) /\
    ChildQueue (FM_GlobalData st') = ChildQueue (FM_GlobalData st_ex) /\
    ChildSemaphore (FM_GlobalData st')
    = ChildSemaphore (FM_GlobalData st_ex) /\
    EVS_Log st' = EVS_Log st_ex /\
    OS_Log st'
    = OS_Log st_ex ++
      [OS_MutSemTake (ChildQueueCountSem (FM_GlobalData st_ex));
       Store_ChildQueueCount (ChildQueueCount (FM_GlobalData st_ex) + 1);
       OS_MutSemGive (ChildQueueCountSem (FM_GlobalData st_ex))] ++
      (if ChildSemaphore (FM_GlobalData st_ex) =? FM_CHILD_SEM_INVALID
       then []
       else [OS_CountSemGive (ChildSemaphore (FM_GlobalData st_ex))]).
Proof.
  assert (H1 : 0 <= ChildWriteIndex (FM_GlobalData st_ex)
               < FM_CHILD_QUEUE_DEPTH)
    by (split; vm_compute; [discriminate | reflexivity]).
  assert (H2 : FM_CHILD_QUEUE_DEPTH <= 255) by (vm_compute; discriminate).
  assert (H3 : 0 <= ChildQueueCount (FM_GlobalData st_ex) < 255)
    by (split; vm_compute; [discriminate | reflexivity]).
  split; [exact H1 |]. split; [exact H2 |]. split; [exact H3 |].
  apply (FM_InvokeChildTask_advances st_ex H1 H2 H3).
Defined.

Lemma unverified_invoke_breaks_queue_witness :
  ChildSemaphore (FM_GlobalData st_full) <> FM_CHILD_SEM_INVALID /\
  0 <= ChildWriteIndex (FM_GlobalData st_full) < FM_CHILD_QUEUE_DEPTH /\
  FM_CHILD_QUEUE_DEPTH < 255 /\
  ChildQueueCount (FM_GlobalData st_full) = FM_CHILD_QUEUE_DEPTH /\
  exists st1 st2 e,
    FM_InvokeChildTask st_full = Some (tt, st1) /\
    ChildQueueCount (FM_GlobalData st1) = FM_CHILD_QUEUE_DEPTH + 1 /\
    FM_VerifyChildTask 200 "Copy File" st1 = Some (false, st2) /\
    EVS_Log st2 = EVS_Log st_full ++ [e] /\
    EventID e = u32 (200 + FM_CHILD_BROKEN_EID_OFFSET) /\
    FM_GlobalData st2 = FM_GlobalData st1.
Proof.
  assert (H1 : ChildSemaphore (FM_GlobalData st_full)
               <> FM_CHILD_SEM_INVALID) by (vm_compute; discriminate).
  assert (H2 : 0 <= ChildWriteIndex (FM_GlobalData st_full)
               < FM_CHILD_QUEUE_DEPTH)
    by (split; vm_compute; [discriminate | reflexivity]).
  assert (H3 : FM_CHILD_QUEUE_DEPTH < 255) by (vm_compute; reflexivity).
  assert (H4 : ChildQueueCount (FM_GlobalData st_full)
               = FM_CHILD_QUEUE_DEPTH) by (vm_compute; reflexivity).
  split; [exact H1 |]. split; [exact H2 |]. split; [exact H3 |].
  split; [exact H4 |].
  apply (unverified_invoke_breaks_queue 200 "Copy File" st_full
           H1 H2 H3 H4).
Defined.

Lemma SearchOpenFileData_finds_open_streams_witness :
  c_str (buffer_of "/ram/a.dat" 16)
  = Some (list_byte_of_string "/ram/a.dat") /\
  (forall ObjId FdProp,
     OS_FDGetInfo W_ex ObjId = Some FdProp ->
     is_Some (c_str (Path FdProp))) /\
  (exists st',
     ForEach_SearchOpenFileData W_ex (OS_ForEachObject W_ex)
       (Some (buffer_of "/ram/a.dat" 16)) st_ex
     = Some (tt, st') /\
     FM_GlobalData st' = FM_GlobalData st_ex /\
     EVS_Log st' = EVS_Log st_ex /\
     (FileIsOpen st' = true <->
      FileIsOpen st_ex = true \/
      stream_has_path W_ex (list_byte_of_string "/ram/a.dat"))) /\
  ForEach_SearchOpenFileData W_ex (OS_ForEachObject W_ex) None st_ex
  = Some (tt, st_ex).
Proof.
  assert (H1 : c_str (buffer_of "/ram/a.dat" 16)
               = Some (list_byte_of_string "/ram/a.dat"))
    by (vm_compute; reflexivity).
  split; [exact H1 |]. split; [exact W_ex_paths_terminated |].
  apply (SearchOpenFileData_finds_open_streams W_ex
           (buffer_of "/ram/a.dat" 16) (list_byte_of_string "/ram/a.dat")
           st_ex H1 W_ex_paths_terminated).
Defined.

Lemma FM_GetOpenFilesData_records_paths_and_owners_witness :
  world_ok W_ex /\ records_ok arr_ex /\
  Z.of_nat (length (stream_objects W_ex)) <= Z.of_nat (length arr_ex) /\
  Z.of_nat (length (stream_objects W_ex)) < 2 ^ 32 /\
  exists arr',
    FM_GetOpenFilesData W_ex (Some arr_ex) st_ex
    = Some (Z.of_nat (length (stream_objects W_ex)), Some arr',
            with_OpenFileCount (Z.of_nat (length (stream_objects W_ex)))
              st_ex) /\
    (forall k ObjId FdProp e,
       stream_objects W_ex !! k = Some ObjId ->
       OS_FDGetInfo W_ex ObjId = Some FdProp ->
       arr_ex !! k = Some e ->
       exists e', arr' !! k = Some e' /\ record_of W_ex FdProp e e').
Proof.
  assert (H1 : Z.of_nat (length (stream_objects W_ex))
               <= Z.of_nat (length arr_ex)) by (vm_compute; discriminate).
  assert (H2 : Z.of_nat (length (stream_objects W_ex)) < 2 ^ 32)
    by (vm_compute; reflexivity).
  split; [exact W_ex_ok |]. split; [exact arr_ex_ok |].
  split; [exact H1 |]. split; [exact H2 |].
  apply (FM_GetOpenFilesData_records_paths_and_owners W_ex arr_ex st_ex
           W_ex_ok arr_ex_ok H1 H2).
Defined.

Lemma FM_GetOpenFilesData_overruns_short_array_witness :
  Z.of_nat (length (OS_ForEachObject W_ex)) < 2 ^ 32 /\
  stream_objects W_ex !! O = Some 10 /\
  OS_FDGetInfo W_ex 10
  = Some {| Path := buffer_of "/ram/a.dat" 16; User := 7 |} /\
  (length (@nil FM_OpenFilesEntry_t) <= 0)%nat /\
  FM_GetOpenFilesData W_ex (Some []) st_ex = None.
Proof.
  assert (H1 : Z.of_nat (length (OS_ForEachObject W_ex)) < 2 ^ 32)
    by (vm_compute; reflexivity).
  assert (H2 : stream_objects W_ex !! O = Some 10)
    by (vm_compute; reflexivity).
  assert (H3 : OS_FDGetInfo W_ex 10
               = Some {| Path := buffer_of "/ram/a.dat" 16; User := 7 |})
    by reflexivity.
  assert (H4 : (length (@nil FM_OpenFilesEntry_t) <= 0)%nat)
    by (simpl; lia).
  split; [exact H1 |]. split; [exact H2 |]. split; [exact H3 |].
  split; [exact H4 |].
  apply (FM_GetOpenFilesData_overruns_short_array W_ex [] st_ex O 10
           {| Path := buffer_of "/ram/a.dat" 16; User := 7 |}
           H1 H2 H3 H4).
Defined.

Lemma FM_VerifyNameValid_reports_only_Invalid_witness :
  states_distinct /\ buffer_ok (buffer_of "/ram/a.dat" 16) 16 /\
  exists st1,
    FM_VerifyNameValid W_ex (buffer_of "/ram/a.dat" 16) 16 100 "Copy" st_ex
    = Some (FM_NAME_IS_FILE_CLOSED, buffer_of "/ram/a.dat" 16, st1) /\
    EVS_Log st1 = EVS_Log st_ex /\
    FileStatTime (FM_GlobalData st1) = 2000 /\
    FileStatSize (FM_GlobalData st1) = 512.
Proof.
  split; [exact FM_Defs_ex_distinct |].
  split; [apply buffer_of_16_ok |].
  exact (proj1 (FM_VerifyNameValid_reports_only_Invalid W_ex
                  (buffer_of "/ram/a.dat" 16) 16 100 "Copy" st_ex
                  FM_Defs_ex_distinct (buffer_of_16_ok _))
           (list_byte_of_string "/ram/a.dat") valid_name_a_dat).
Defined.
